(** * Chart helper utilities of the dashboard builder: a shallow embedding

    The development follows [app/utils/chartHelper.ts] (formatting, config
    lookup, mark lines and areas, tooltips, axis-label overflow) and the drop
    handler of [ChartDraggableTargetContainer.tsx].

    JavaScript values are modelled by the inductive [Val]; numbers are IEEE
    binary64 values (Rocq's primitive floats), so [NaN], the two zeros and the
    infinities behave as they do in the engine.  Arrays are lists; an array
    that the source updates in place is threaded through the function as
    state and handed back with the result. *)

From Stdlib Require Import String Ascii ZArith Bool Lia PrimFloat.
From Stdlib Require Import Sorting.Permutation Sorting.Sorted.
From stdpp Require Import base list.

Local Open Scope string_scope.
Local Open Scope list_scope.
Set Warnings "-register-all".

(** ** JavaScript values *)

Module JS.

(** A value of the language, and the nodes of a style/setting tree, which
    reach each other: a node's property may hold any value and the [rows]
    of a node can be handed out as a value by [getValue]. *)
Inductive Val : Type :=
| VUndef
| VNull
| VBool (b : bool)
| VNum (n : float)
| VStr (s : string)
| VObj (fields : list (string * Val))
| VRows (rows : list ChartStyleConfig)
with ChartStyleConfig : Type :=
| StyleConfig (key : string)
              (rows : option (list ChartStyleConfig))
              (props : list (string * Val)).

(** [v === null || v === undefined] *)
Definition is_nullish (v : Val) : bool :=
  match v with
  | VUndef | VNull => true
  | _ => false
  end.

(** [typeof v === 'string'] *)
Definition is_string (v : Val) : bool :=
  match v with
  | VStr _ => true
  | _ => false
  end.

Definition str_nonempty (s : string) : bool :=
  match s with
  | EmptyString => false
  | String _ _ => true
  end.

(** Truthiness of a number: [0], [-0] and [NaN] are falsy. *)
Definition num_truthy (n : float) : bool :=
  negb (PrimFloat.eqb n 0%float || PrimFloat.is_nan n).

(** ToBoolean. *)
Definition to_boolean (v : Val) : bool :=
  match v with
  | VUndef | VNull => false
  | VBool b => b
  | VNum n => num_truthy n
  | VStr s => str_nonempty s
  | VObj _ | VRows _ => true
  end.

(** [a || b] on values. *)
Definition js_or (a b : Val) : Val := if to_boolean a then a else b.

(** [a && b] on values: the first falsy operand, else the last one. *)
Definition js_and (a b : Val) : Val := if to_boolean a then b else a.

(** Strict equality [a === b].  Objects and arrays are compared by
    reference in the engine; the object values met here are separate
    literals, so two of them are never the same reference. *)
Definition strict_eq (a b : Val) : bool :=
  match a, b with
  | VUndef, VUndef => true
  | VNull, VNull => true
  | VBool x, VBool y => Bool.eqb x y
  | VNum x, VNum y => PrimFloat.eqb x y
  | VStr x, VStr y => String.eqb x y
  | _, _ => false
  end.

(** Property lookup [o[k]] in an object given as its list of properties. *)
Fixpoint assoc (k : string) (fields : list (string * Val)) : Val :=
  match fields with
  | [] => VUndef
  | (k', v) :: rest => if String.eqb k k' then v else assoc k rest
  end.

(** Outcome of an expression that may throw. *)
Inductive Completion (A : Type) : Type :=
| Normal (a : A)
| TypeError.
Arguments Normal {A} a.
Arguments TypeError {A}.

Definition bind {A B} (c : Completion A) (k : A -> Completion B) : Completion B :=
  match c with
  | Normal a => k a
  | TypeError => TypeError
  end.

Fixpoint mapM {A B} (f : A -> Completion B) (l : list A) : Completion (list B) :=
  match l with
  | [] => Normal []
  | x :: xs => bind (f x) (fun y => bind (mapM f xs) (fun ys => Normal (y :: ys)))
  end.

(** Member access [v.k]: throws on [undefined] and [null], reads the
    property of an object, and finds nothing on the other values. *)
Definition member (v : Val) (k : string) : Completion Val :=
  match v with
  | VUndef | VNull => TypeError
  | VObj fields => Normal (assoc k fields)
  | _ => Normal VUndef
  end.

(** [Math.max(a, b)] and [Math.min(a, b)]: [NaN] is contagious and
    [-0] is below [+0]. *)
Definition is_neg_zero (x : float) : bool :=
  match PrimFloat.classify x with
  | FloatClass.NZero => true
  | _ => false
  end.

Definition max2 (a b : float) : float :=
  if PrimFloat.is_nan a || PrimFloat.is_nan b then PrimFloat.nan
  else if PrimFloat.ltb a b then b
  else if PrimFloat.ltb b a then a
  else if is_neg_zero a then b else a.

Definition min2 (a b : float) : float :=
  if PrimFloat.is_nan a || PrimFloat.is_nan b then PrimFloat.nan
  else if PrimFloat.ltb a b then a
  else if PrimFloat.ltb b a then b
  else if is_neg_zero a then a else b.

(** [Math.max(...xs)] and [Math.min(...xs)]; on no argument they are
    [-Infinity] and [Infinity]. *)
Definition Math_max (xs : list float) : float :=
  fold_left max2 xs PrimFloat.neg_infinity.

Definition Math_min (xs : list float) : float :=
  fold_left min2 xs PrimFloat.infinity.

(** [Number.isFinite(v)] and [Number.isNaN(v)]: no coercion, a value that is
    not a number is neither. *)
Definition Number_isFinite (v : Val) : bool :=
  match v with
  | VNum n => PrimFloat.is_finite n
  | _ => false
  end.

Definition Number_isNaN (v : Val) : bool :=
  match v with
  | VNum n => PrimFloat.is_nan n
  | _ => false
  end.

(** [s.split(sep)] for a one-character separator. *)
Fixpoint split (sep : ascii) (s : string) : list string :=
  match s with
  | EmptyString => [EmptyString]
  | String c rest =>
      if Ascii.eqb c sep then EmptyString :: split sep rest
      else match split sep rest with
           | [] => [String c EmptyString]
           | w :: ws => String c w :: ws
           end
  end.

(** [parts.join(sep)] on an array of strings. *)
Fixpoint join (sep : string) (parts : list string) : string :=
  match parts with
  | [] => EmptyString
  | [p] => p
  | p :: rest => p ++ sep ++ join sep rest
  end.

(** Start position of [splice]: [undefined] counts as [0], a negative
    start counts from the end, and the result is clamped to the array. *)
Definition splice_start (len : nat) (start : option Z) : nat :=
  match start with
  | None => 0%nat
  | Some z =>
      if (z <? 0)%Z then Z.to_nat (Z.max (Z.of_nat len + z) 0)
      else Nat.min (Z.to_nat z) len
  end.

(** [arr.splice(start, deleteCount, ...items)]: the array afterwards. *)
Definition splice {A} (arr : list A) (start : option Z) (deleteCount : nat)
    (items : list A) : list A :=
  let s := splice_start (length arr) start in
  take s arr ++ items ++ drop (s + deleteCount) arr.

(** [arr.findIndex(p)], with [-1] when nothing satisfies [p]. *)
Fixpoint findIndex_from {A} (p : A -> bool) (arr : list A) (i : Z) : Z :=
  match arr with
  | [] => (-1)%Z
  | x :: rest => if p x then i else findIndex_from p rest (i + 1)%Z
  end.

Definition findIndex {A} (p : A -> bool) (arr : list A) : Z :=
  findIndex_from p arr 0%Z.

(** [arr.indexOf(v)] with strict equality. *)
Definition indexOf (arr : list Val) (v : Val) : Z :=
  findIndex (fun x => strict_eq x v) arr.

(** [arr[i]] and [arr[i] = v] on an array whose slots hold values of [A],
    [undef] standing for [undefined]: a read past the end finds [undef],
    a write past the end extends the array, the slots in between being
    [undef]. *)
Definition arr_get {A} (undef : A) (arr : list A) (i : nat) : A :=
  default undef (arr !! i).

Definition arr_set {A} (undef : A) (arr : list A) (i : nat) (v : A) : list A :=
  if decide (i < length arr)%nat then <[i := v]> arr
  else arr ++ replicate (i - length arr) undef ++ [v].

(** [arr.sort(cmp)]: the sort is stable, and for a comparator that is a
    difference of integer keys every stable sort gives this result. *)
Fixpoint sort_insert {A} (cmp : A -> A -> Z) (x : A) (sorted : list A) : list A :=
  match sorted with
  | [] => [x]
  | y :: rest =>
      if (0 <? cmp x y)%Z then y :: sort_insert cmp x rest
      else x :: y :: rest
  end.

Definition sort {A} (cmp : A -> A -> Z) (arr : list A) : list A :=
  fold_right (fun x acc => sort_insert cmp x acc) [] arr.

End JS.

Import JS.

(** ** The data model of chart configurations *)

(** The enumerations the helpers test against.  Their declarations live in
    [app/types/ChartConfig]; each carries the members the helpers name and
    one constructor for every other tag. *)
Inductive FieldFormatType : Type :=
| DEFAULT | NUMERIC | CURRENCY | PERCENTAGE | SCIENTIFIC | DATE
| FormatOther (tag : string).

Inductive ChartDataSectionType : Type :=
| GROUP | AGGREGATE | MIXED | INFO | SIZE | COLOR
| SectionOther (tag : string).

Inductive SortActionType : Type :=
| CUSTOMIZE
| SortOther (tag : string).

Inductive ChartDataSectionFieldActionType : Type :=
| Aggregate | AggregateLimit
| ActionOther (tag : string).

Inductive ChartDataViewFieldCategory : Type :=
| AggregateComputedField
| CategoryOther (tag : string).

Inductive CHART_DRAG_ELEMENT_TYPE : Type :=
| DATASET_COLUMN | DATA_CONFIG_COLUMN
| DragOther (tag : string).

Definition FieldFormatType_eqb (a b : FieldFormatType) : bool :=
  match a, b with
  | DEFAULT, DEFAULT | NUMERIC, NUMERIC | CURRENCY, CURRENCY
  | PERCENTAGE, PERCENTAGE | SCIENTIFIC, SCIENTIFIC | DATE, DATE => true
  | FormatOther x, FormatOther y => String.eqb x y
  | _, _ => false
  end.

Definition is_customize (t : SortActionType) : bool :=
  match t with
  | CUSTOMIZE => true
  | SortOther _ => false
  end.

Definition is_aggregate_action (t : ChartDataSectionFieldActionType) : bool :=
  match t with
  | Aggregate | AggregateLimit => true
  | ActionOther _ => false
  end.

(** The entry of a format config for one format type ([format.numeric],
    [format.currency], ...); a property that is [null] or missing is
    [None]. *)
Record FormatEntry : Type := {
  decimalPlaces : option float;
  unitKey : option string;
  useThousandSeparator : option bool;
  prefix : option string;
  suffix : option string;
  currency : option string;
  dateFormat : option string
}.

(** [IFieldFormatConfig]: the declared type and, per type, its entry
    ([format[formatType]]). *)
Record IFieldFormatConfig : Type := {
  formatType : option FieldFormatType;
  formatEntry : FieldFormatType -> option FormatEntry
}.

Record SortFieldAction : Type := {
  sortType : SortActionType;
  sortValue : option (list Val)
}.

(** [ChartDataSectionField], with the properties the helpers read. *)
Record ChartDataSectionField : Type := {
  uid : option string;
  colName : option string;
  category : option ChartDataViewFieldCategory;
  fieldType : option string;
  aggregate : option string;
  aliasName : option string;
  format : option IFieldFormatConfig;
  sort : option SortFieldAction
}.

(** A row of the data set answers [getCell(field)]; the data set answers
    [getFieldOriginKey(field)]. *)
Record IChartDataSetRow : Type := {
  getCell : ChartDataSectionField -> Val
}.

Record IChartDataSet : Type := {
  getFieldOriginKey : ChartDataSectionField -> string
}.

(** What the helpers call and this development does not open up: the
    conversions of the engine between strings and numbers, its number
    formatting, and the functions and tables imported from other modules
    ([utils/object], [globalConstants], [internalChartHelper], [moment],
    [utils/utils]). *)
Class Host : Type := {
  StringToNumber : string -> float;
  NumberToString : float -> string;
  toFixed : float -> float -> string;
  toExponential : float -> float -> string;
  IntlCurrencyFormat :
    string -> option float -> option bool -> float -> string;
  groupThousands : string -> string;
  momentFormat : Val -> string -> string;
  meanValue : list float -> float;
  NumericUnitDescriptions : string -> option (float * string);
  NumberUnitKey_None : string;
  getColumnRenderOriginName : ChartDataSectionField -> string;
  AggregateFieldSubAggregateType :
    ChartDataSectionFieldActionType -> option (list string);
  uuidv4 : nat -> string
}.

(** Modelled from the spec: [utils/object] is not among the sources.  The
    spec describes the helpers as "pure functions chained with pipe", so
    [pipe(f, g, h)(value, config)] feeds the value through [f], [g], [h] in
    that order, each with the same config; [isEmptyArray] holds of the array
    without elements and [isEmpty] of [null] and [undefined]. *)
Definition pipe {C} (fns : list (Val -> C -> Val)) (value : Val) (config : C) : Val :=
  fold_left (fun y f => f y config) fns value.

Definition isEmptyArray {A} (arr : list A) : bool :=
  match arr with
  | [] => true
  | _ :: _ => false
  end.

Definition isEmpty {A} (o : option A) : bool :=
  match o with
  | None => true
  | Some _ => false
  end.

Section Conversions.
Context `{Host}.

(** ToNumber, the unary [+v]. *)
Definition to_number (v : Val) : float :=
  match v with
  | VUndef => PrimFloat.nan
  | VNull => 0%float
  | VBool b => if b then 1%float else 0%float
  | VNum n => n
  | VStr s => StringToNumber s
  | VObj _ => PrimFloat.nan
  | VRows rows =>
      match rows with
      | [] => 0%float
      | _ :: _ => PrimFloat.nan
      end
  end.

(** The global [isNaN(v)], which converts first. *)
Definition isNaN (v : Val) : bool := PrimFloat.is_nan (to_number v).

(** ToString, as a template literal applies it. *)
Definition to_string (v : Val) : string :=
  match v with
  | VUndef => "undefined"
  | VNull => "null"
  | VBool b => if b then "true" else "false"
  | VNum n => NumberToString n
  | VStr s => s
  | VObj _ => "[object Object]"
  | VRows rows => join "," (map (fun _ => "[object Object]") rows)
  end.

(** An element of [[...].join('')]: [undefined] and [null] give the
    empty string. *)
Definition join_element (v : Val) : string :=
  if is_nullish v then EmptyString else to_string v.
End Conversions.

(** ** Style and setting trees: [getValue], [getSettingValue] *)

Module Config.

Definition key (sc : ChartStyleConfig) : string :=
  match sc with StyleConfig k _ _ => k end.

Definition rows (sc : ChartStyleConfig) : option (list ChartStyleConfig) :=
  match sc with StyleConfig _ r _ => r end.

Definition props (sc : ChartStyleConfig) : list (string * Val) :=
  match sc with StyleConfig _ _ p => p end.

(** [group[targetKey]] *)
Definition get (group : ChartStyleConfig) (targetKey : string) : Val :=
  if String.eqb targetKey "key" then VStr (key group)
  else if String.eqb targetKey "rows" then
    match rows group with
    | Some r => VRows r
    | None => VUndef
    end
  else assoc targetKey (props group).

(** [x || []] for an array that may be missing. *)
Definition or_empty {A} (arr : option (list A)) : list A :=
  match arr with
  | Some l => l
  | None => []
  end.

(** [keyPaths.shift()]: the element taken from the front, [undefined] on
    the empty array, and the array afterwards. *)
Definition shift (keyPaths : list string) : option string * list string :=
  match keyPaths with
  | [] => (None, [])
  | k :: rest => (Some k, rest)
  end.

(** [sc.key === key], where [key] is [undefined] once the path is
    exhausted. *)
Definition key_is (k : option string) (sc : ChartStyleConfig) : bool :=
  match k with
  | Some s => String.eqb (key sc) s
  | None => false
  end.

(** The [while] loop of [getValue], one iteration per unit of fuel.  The
    state is the pair of [iterators] and the caller's [keyPaths] array, which
    [shift] shortens in place; the outcome is the value returned together
    with [keyPaths] as the call leaves it.  [None] means the fuel ran out. *)
Fixpoint getValue_loop (fuel : nat) (iterators : list ChartStyleConfig)
    (keyPaths : list string) (targetKey : string)
    : option (Val * list string) :=
  match fuel with
  | O => None
  | S fuel' =>
      if isEmptyArray iterators then Some (VUndef, keyPaths)
      else
        let (k, keyPaths') := shift keyPaths in
        match List.find (key_is k) iterators with
        | None => Some (VUndef, keyPaths')
        | Some group =>
            if isEmptyArray keyPaths' then Some (get group targetKey, keyPaths')
            else getValue_loop fuel' (or_empty (rows group)) keyPaths' targetKey
        end
  end.

(** [getValue(configs, keyPaths, targetKey)].  Every iteration but the last
    consumes a path element, so one unit of fuel more than the length of the
    path is enough. *)
Definition getValue_st (configs : option (list ChartStyleConfig))
    (keyPaths : list string) (targetKey : string)
    : option (Val * list string) :=
  getValue_loop (S (length keyPaths)) (or_empty configs) keyPaths targetKey.

(** The value [getValue] returns ([undefined] stands in where the loop
    would lack fuel, which [getValue_loop_enough] rules out). *)
Definition getValue (configs : option (list ChartStyleConfig))
    (keyPaths : list string) (targetKey : string) : Val :=
  match getValue_st configs keyPaths targetKey with
  | Some (v, _) => v
  | None => VUndef
  end.

(** The caller's [keyPaths] array after the call. *)
Definition getValue_keyPaths_after (configs : option (list ChartStyleConfig))
    (keyPaths : list string) (targetKey : string) : list string :=
  match getValue_st configs keyPaths targetKey with
  | Some (_, rest) => rest
  | None => keyPaths
  end.

(** The default [targetKey = 'value']. *)
Definition default_targetKey : string := "value".

(** [getSettingValue(configs, path, targetKey)] *)
Definition getSettingValue (configs : option (list ChartStyleConfig))
    (path : string) (targetKey : string) : Val :=
  getValue configs (split "." path) targetKey.

(** [getStyleValue(styleConfigs, paths)] *)
Definition getStyleValue (styleConfigs : option (list ChartStyleConfig))
    (paths : list string) : Val :=
  getValue styleConfigs paths default_targetKey.

(** The walk as the specification words it: at each level find the node
    whose key is the next path element and descend into its rows; the last
    node gives its [targetKey] property; a path element without a node, or a
    level without nodes, gives [undefined]. *)
Fixpoint walk (level : list ChartStyleConfig) (path : list string)
    (targetKey : string) : Val :=
  match path with
  | [] => VUndef
  | k :: rest =>
      match List.find (fun sc => String.eqb (key sc) k) level with
      | None => VUndef
      | Some node =>
          match rest with
          | [] => get node targetKey
          | _ :: _ => walk (or_empty (rows node)) rest targetKey
          end
      end
  end.

(** How many path elements the walk takes from the front of the path. *)
Fixpoint consumed (level : list ChartStyleConfig) (path : list string) : nat :=
  match level, path with
  | [], _ => 0
  | _ :: _, [] => 0
  | _ :: _, k :: rest =>
      match List.find (fun sc => String.eqb (key sc) k) level with
      | None => 1
      | Some node =>
          match rest with
          | [] => 1
          | _ :: _ => S (consumed (or_empty (rows node)) rest)
          end
      end
  end.

End Config.

(** ** Value formatting: [toFormattedValue] and its formatters *)

Module Format.
Section WithHost.
Context `{Host}.

(** [NumericUnitDescriptions.get(key)], the key possibly [undefined]. *)
Definition unitDescription (k : option string) : option (float * string) :=
  match k with
  | Some s => NumericUnitDescriptions s
  | None => None
  end.

(** [NumericUnitDescriptions.get(config?.unitKey!)?.[0] || 1], the
    divisor of [unitFormater] and [currencyFormater]. *)
Definition realUnit (config : FormatEntry) : float :=
  match unitDescription (unitKey config) with
  | Some (u, _) => if num_truthy u then u else 1%float
  | None => 1%float
  end.

(** [NumericUnitDescriptions.get(config?.unitKey || NumberUnitKey.None)?.[1]] *)
Definition unitName (config : FormatEntry) : Val :=
  let k := match unitKey config with
           | Some s => if str_nonempty s then s else NumberUnitKey_None
           | None => NumberUnitKey_None
           end in
  match NumericUnitDescriptions k with
  | Some (_, name) => VStr name
  | None => VUndef
  end.

Definition unitFormater (value : Val) (config : FormatEntry) : Val :=
  if isEmpty (unitKey config) then value
  else if PrimFloat.is_nan (to_number value) then value
  else VNum (PrimFloat.div (to_number value) (realUnit config)).

Definition decimalPlacesFormater (value : Val) (config : FormatEntry) : Val :=
  match decimalPlaces config with
  | None => value
  | Some dp =>
      if isNaN value then value
      else if PrimFloat.ltb dp 0%float || PrimFloat.ltb 100%float dp then value
      else VStr (toFixed (to_number value) dp)
  end.

Definition thousandSeperatorFormater (value : Val) (config : FormatEntry) : Val :=
  if PrimFloat.is_nan (to_number value)
     || negb (default false (useThousandSeparator config))
  then value
  else
    match split "." (to_string value) with
    | [] => VStr EmptyString
    | p :: parts => VStr (join "." (groupThousands p :: parts))
    end.

Definition numericFormater (value : Val) (config : FormatEntry) : Val :=
  if PrimFloat.is_nan (to_number value) then value
  else
    VStr (join EmptyString
      [ default EmptyString (prefix config);
        join_element (thousandSeperatorFormater value config);
        join_element (unitName config);
        default EmptyString (suffix config) ]).

Definition currencyFormater (value : Val) (config : FormatEntry) : Val :=
  if PrimFloat.is_nan (to_number value) then value
  else
    let cur := match currency config with
               | Some c => if str_nonempty c then c else "CNY"
               | None => "CNY"
               end in
    VStr (IntlCurrencyFormat cur (decimalPlaces config)
            (useThousandSeparator config)
            (PrimFloat.div (to_number value) (realUnit config))
          ++ " " ++ to_string (unitName config)).

(** The number of fraction digits of the percentage and scientific
    formatters: the configured one when it lies in [0, 20], else [0]. *)
Definition fractionDigits (config : FormatEntry) : float :=
  match decimalPlaces config with
  | Some dp =>
      if PrimFloat.leb 0%float dp && PrimFloat.leb dp 20%float then dp
      else 0%float
  | None => 0%float
  end.

Definition percentageFormater (value : Val) (config : FormatEntry) : Val :=
  if PrimFloat.is_nan (to_number value) then value
  else VStr (toFixed (PrimFloat.mul (to_number value) 100%float)
               (fractionDigits config) ++ "%").

Definition scientificNotationFormater (value : Val) (config : FormatEntry) : Val :=
  if PrimFloat.is_nan (to_number value) then value
  else VStr (toExponential (to_number value) (fractionDigits config)).

Definition dateFormater (value : Val) (config : FormatEntry) : Val :=
  if PrimFloat.is_nan (to_number value) then value
  else
    match dateFormat config with
    | None => value
    | Some f => VStr (momentFormat value f)
    end.

(** [toFormattedValue(value, format)] *)
Definition toFormattedValue (value : Val) (format : option IFieldFormatConfig) : Val :=
  if is_nullish value then VStr "-"
  else
    match format with
    | None => value
    | Some fmt =>
        match formatType fmt with
        | Some DEFAULT => value
        | None => value
        | Some ty =>
            if is_string value
               && negb (FieldFormatType_eqb ty DATE)
               && (negb (to_boolean value) || PrimFloat.is_nan (to_number value))
            then value
            else
              match formatEntry fmt ty with
              | None => value
              | Some config =>
                  match ty with
                  | NUMERIC =>
                      pipe [unitFormater; decimalPlacesFormater; numericFormater]
                           value config
                  | CURRENCY => pipe [currencyFormater] value config
                  | PERCENTAGE => pipe [percentageFormater] value config
                  | SCIENTIFIC => pipe [scientificNotationFormater] value config
                  | DATE => pipe [dateFormater] value config
                  | _ => value
                  end
              end
        end
    end.
End WithHost.
End Format.

(** ** Mark lines and mark areas *)

Module Mark.
Import Config.

(** A data column of the older helpers is a plain object. *)
Definition DataColumn : Type := list (string * Val).

(** The label [{ show, position, ...font }], kept as its ingredients: the
    two named properties and the value spread over them. *)
Record MarkLabel : Type := {
  labelShow : Val;
  labelPosition : Val;
  labelSpread : Val
}.

(** An entry of [markLine.data]: [{ [valueKey]: yAxis, name, label,
    lineStyle }]. *)
Record MarkLineData : Type := {
  lineAxis : string;
  lineAxisValue : Val;
  lineName : Val;
  lineLabel : MarkLabel;
  lineStyle : Val
}.

Record ItemStyle : Type := {
  opacity : Val;
  color : Val;
  borderColor : Val;
  borderWidth : Val;
  borderType : Val
}.

(** A boundary point of a mark area. *)
Record MarkAreaData : Type := {
  areaAxis : string;
  areaAxisValue : Val;
  areaName : Val;
  areaLabel : MarkLabel;
  areaItemStyle : ItemStyle
}.

(** [isHorizonDisplay ? 'xAxis' : 'yAxis'] *)
Definition valueKey (isHorizonDisplay : bool) : string :=
  if isHorizonDisplay then "xAxis" else "yAxis".

(** [dataConfig.uid === metricUid] *)
Definition uid_matches (dataConfig : ChartDataSectionField) (metricUid : Val) : bool :=
  strict_eq (match uid dataConfig with Some u => VStr u | None => VUndef end)
            metricUid.

(** [getValueByColumnKey(field)], as the property name it is used for. *)
Definition getValueByColumnKey (field : option ChartDataSectionField) : string :=
  match field with
  | None => EmptyString
  | Some f =>
      let col := match colName f with Some c => c | None => "undefined" end in
      match aggregate f with
      | Some a => if str_nonempty a then a ++ "(" ++ col ++ ")" else col
      | None => col
      end
  end.

Section WithHost.
Context `{Host}.

(** The [switch (valueType)] shared by the four mark helpers; [yAxis]
    starts at [0] and stays there for any other value type. *)
Definition derivedAxisValue (valueType constantValue : Val)
    (metricDatas : list float) : Val :=
  if strict_eq valueType (VStr "constant") then constantValue
  else if strict_eq valueType (VStr "average") then VNum (meanValue metricDatas)
  else if strict_eq valueType (VStr "max") then VNum (Math_max metricDatas)
  else if strict_eq valueType (VStr "min") then VNum (Math_min metricDatas)
  else VNum 0%float.

(** [dataConfig.uid === metricUid ? dataColumns.map(d => +d[metr]) : []] *)
Definition metricDatasOfColumns (dataColumns : list DataColumn)
    (dataConfig : ChartDataSectionField) (metricUid : Val) : list float :=
  if uid_matches dataConfig metricUid
  then map (fun d => to_number (assoc (getValueByColumnKey (Some dataConfig)) d))
           dataColumns
  else [].

(** [dataConfig.uid === metricUid ? dataSetRows.map(d => +d.getCell(dataConfig)) : []] *)
Definition metricDatasOfRows (dataSetRows : list IChartDataSetRow)
    (dataConfig : ChartDataSectionField) (metricUid : Val) : list float :=
  if uid_matches dataConfig metricUid
  then map (fun d => to_number (getCell d dataConfig)) dataSetRows
  else [].

(** [getMarkLineData]; [None] is the [null] it returns for a mark line
    that is not enabled. *)
Definition getMarkLineData (mark : ChartStyleConfig)
    (dataColumns : list DataColumn)
    (valueTypeKey constantValueKey metricKey : string)
    (dataConfig : ChartDataSectionField) (isHorizonDisplay : bool)
    : option MarkLineData :=
  let name := get mark "label" in
  let valueKey := valueKey isHorizonDisplay in
  let show := getSettingValue (rows mark) "showLabel" "value" in
  let enableMarkLine := getSettingValue (rows mark) "enableMarkLine" "value" in
  let position := getSettingValue (rows mark) "position" "value" in
  let font := getSettingValue (rows mark) "font" "value" in
  let lineStyle := getSettingValue (rows mark) "lineStyle" "value" in
  let valueType := getSettingValue (rows mark) valueTypeKey "value" in
  let metricUid := getSettingValue (rows mark) metricKey "value" in
  let metricDatas := metricDatasOfColumns dataColumns dataConfig metricUid in
  let constantValue := getSettingValue (rows mark) constantValueKey "value" in
  let yAxis := derivedAxisValue valueType constantValue metricDatas in
  if negb (to_boolean enableMarkLine) then None
  else Some {| lineAxis := valueKey;
               lineAxisValue := yAxis;
               lineName := name;
               lineLabel := {| labelShow := show;
                               labelPosition := position;
                               labelSpread := font |};
               lineStyle := lineStyle |}.

(** [getMarkLineData2], the same over the rows of a data set. *)
Definition getMarkLineData2 (mark : ChartStyleConfig)
    (dataSetRows : list IChartDataSetRow)
    (valueTypeKey constantValueKey metricKey : string)
    (dataConfig : ChartDataSectionField) (isHorizonDisplay : bool)
    : option MarkLineData :=
  let name := get mark "label" in
  let valueKey := valueKey isHorizonDisplay in
  let show := getSettingValue (rows mark) "showLabel" "value" in
  let enableMarkLine := getSettingValue (rows mark) "enableMarkLine" "value" in
  let position := getSettingValue (rows mark) "position" "value" in
  let font := getSettingValue (rows mark) "font" "value" in
  let lineStyle := getSettingValue (rows mark) "lineStyle" "value" in
  let valueType := getSettingValue (rows mark) valueTypeKey "value" in
  let metricUid := getSettingValue (rows mark) metricKey "value" in
  let metricDatas := metricDatasOfRows dataSetRows dataConfig metricUid in
  let constantValue := getSettingValue (rows mark) constantValueKey "value" in
  let yAxis := derivedAxisValue valueType constantValue metricDatas in
  if negb (to_boolean enableMarkLine) then None
  else Some {| lineAxis := valueKey;
               lineAxisValue := yAxis;
               lineName := name;
               lineLabel := {| labelShow := show;
                               labelPosition := position;
                               labelSpread := font |};
               lineStyle := lineStyle |}.

(** [cur?.rows?.filter(r => r.key === k)]: [undefined] for a tab without
    rows. *)
Definition marksOfTab (k : string) (cur : ChartStyleConfig)
    : option (list ChartStyleConfig) :=
  match rows cur with
  | Some rs => Some (List.filter (fun r => String.eqb (key r) k) rs)
  | None => None
  end.

(** [acc.push(...markLineConfigs)]: spreading [undefined] throws. *)
Fixpoint collectByPush (k : string) (refTabs acc : list ChartStyleConfig)
    : Completion (list ChartStyleConfig) :=
  match refTabs with
  | [] => Normal acc
  | cur :: rest =>
      match marksOfTab k cur with
      | Some configs => collectByPush k rest (acc ++ configs)
      | None => TypeError
      end
  end.

(** [getMarkLine2(refTabs, dataSetRows, dataConfig, isHorizonDisplay).data];
    the outer [None] is the [undefined] of a missing [refTabs]. *)
Definition getMarkLine2 (refTabs : option (list ChartStyleConfig))
    (dataSetRows : list IChartDataSetRow)
    (dataConfig : ChartDataSectionField) (isHorizonDisplay : bool)
    : Completion (option (list MarkLineData)) :=
  match refTabs with
  | None => Normal None
  | Some tabs =>
      bind (collectByPush "markLine" tabs []) (fun marks =>
        Normal (Some (omap (fun ml =>
          getMarkLineData2 ml dataSetRows "valueType" "constantValue"
            "metric" dataConfig isHorizonDisplay) marks)))
  end.

(** [getMarkAreaData2]; the element [undefined] that [concat] leaves for
    a tab without rows makes [mark.rows] throw, and so does
    [borderStyle.color] on a missing border style.  [Normal None] is the
    bare [return]. *)
Definition getMarkAreaData2 (mark : option ChartStyleConfig)
    (dataSetRows : list IChartDataSetRow)
    (valueTypeKey constantValueKey metricKey : string)
    (dataConfig : ChartDataSectionField) (isHorizonDisplay : bool)
    : Completion (option MarkAreaData) :=
  match mark with
  | None => TypeError
  | Some mark =>
      let metric := getSettingValue (rows mark) metricKey "value" in
      let show := getSettingValue (rows mark) "showLabel" "value" in
      let enableMarkArea := getSettingValue (rows mark) "enableMarkArea" "value" in
      let position := getSettingValue (rows mark) "position" "value" in
      let font := getSettingValue (rows mark) "font" "value" in
      let borderStyle := getSettingValue (rows mark) "borderStyle" "value" in
      let opacity := getSettingValue (rows mark) "opacity" "value" in
      let backgroundColor := getSettingValue (rows mark) "backgroundColor" "value" in
      let name := get mark "value" in
      let valueType := getSettingValue (rows mark) valueTypeKey "value" in
      let metricDatas := metricDatasOfRows dataSetRows dataConfig metric in
      let constantValue := getSettingValue (rows mark) constantValueKey "value" in
      let yAxis := derivedAxisValue valueType constantValue metricDatas in
      if negb (to_boolean enableMarkArea)
         || negb (Number_isFinite yAxis)
         || Number_isNaN yAxis
      then Normal None
      else
        bind (member borderStyle "color") (fun bcolor =>
        bind (member borderStyle "width") (fun bwidth =>
        bind (member borderStyle "type") (fun btype =>
          Normal (Some
            {| areaAxis := valueKey isHorizonDisplay;
               areaAxisValue := yAxis;
               areaName := name;
               areaLabel := {| labelShow := show;
                               labelPosition := position;
                               labelSpread := font |};
               areaItemStyle := {| opacity := opacity;
                                   color := backgroundColor;
                                   borderColor := bcolor;
                                   borderWidth := bwidth;
                                   borderType := btype |} |}))))
  end.

(** [acc.concat(markLineConfigs)]: an array argument is spliced in, the
    [undefined] of a tab without rows becomes one element. *)
Definition collectByConcat (k : string) (refTabs : list ChartStyleConfig)
    : list (option ChartStyleConfig) :=
  fold_left (fun acc cur =>
               match marksOfTab k cur with
               | Some configs => acc ++ map Some configs
               | None => acc ++ [None]
               end) refTabs [].

(** The boundary points of one mark: [['start', 'end'].map(...)
    .filter(Boolean)]. *)
Definition boundaryPoints (mark : option ChartStyleConfig)
    (dataSetRows : list IChartDataSetRow)
    (dataConfig : ChartDataSectionField) (isHorizonDisplay : bool)
    : Completion (list MarkAreaData) :=
  bind (mapM (fun pre =>
                getMarkAreaData2 mark dataSetRows
                  (pre ++ "ValueType") (pre ++ "ConstantValue")
                  (pre ++ "Metric") dataConfig isHorizonDisplay)
             ["start"; "end"])
       (fun points => Normal (omap id points)).

(** [getMarkArea2(refTabs, dataSetRows, dataConfig, isHorizonDisplay).data] *)
Definition getMarkArea2 (refTabs : option (list ChartStyleConfig))
    (dataSetRows : list IChartDataSetRow)
    (dataConfig : ChartDataSectionField) (isHorizonDisplay : bool)
    : Completion (option (list (list MarkAreaData))) :=
  match refTabs with
  | None => Normal None
  | Some tabs =>
      bind (mapM (fun mark =>
                    boundaryPoints mark dataSetRows dataConfig isHorizonDisplay)
                 (collectByConcat "markArea" tabs))
           (fun areas =>
              Normal (Some (List.filter (fun m => Nat.eqb (length m) 2) areas)))
  end.
End WithHost.
End Mark.

(** ** Tooltips *)

Module Tooltip.

(** The parameter the chart library hands to a tooltip formatter. *)
Record TooltipData : Type := {
  dataName : option string;
  rowData : option (list (string * Val))
}.

Record TooltipParam : Type := {
  componentType : option string;
  seriesName : option string;
  data : option TooltipData
}.

Section WithHost.
Context `{Host}.

(** [getColumnRenderName(field)] *)
Definition getColumnRenderName (field : option ChartDataSectionField) : string :=
  match field with
  | None => "[unknown]"
  | Some f =>
      match aliasName f with
      | Some n => if str_nonempty n then n else getColumnRenderOriginName f
      | None => getColumnRenderOriginName f
      end
  end.

(** [valueFormatter(config, value)] *)
Definition valueFormatter (config : option ChartDataSectionField) (value : Val)
    : string :=
  getColumnRenderName config ++ ": "
    ++ to_string (Format.toFormattedValue value
                    (match config with
                     | Some c => format c
                     | None => None
                     end)).

(** [a || b] on strings that may be missing. *)
Definition str_or (a b : option string) : option string :=
  match a with
  | Some s => if str_nonempty s then a else b
  | None => b
  end.

(** [tooltipParam?.data?.name || tooltipParam?.seriesName] *)
Definition aggConfigName (tooltipParam : option TooltipParam) : option string :=
  match tooltipParam with
  | None => None
  | Some p =>
      str_or (match data p with Some d => dataName d | None => None end)
             (seriesName p)
  end.

(** [tooltipParam?.data?.rowData || {}] *)
Definition tooltipRow (tooltipParam : option TooltipParam) : list (string * Val) :=
  match tooltipParam with
  | None => []
  | Some p =>
      match data p with
      | Some d => Config.or_empty (rowData d)
      | None => []
      end
  end.

(** [tooltipParam?.componentType !== 'series'] *)
Definition not_series (tooltipParam : option TooltipParam) : bool :=
  match tooltipParam with
  | Some p =>
      match componentType p with
      | Some t => negb (String.eqb t "series")
      | None => true
      end
  | None => true
  end.

(** [getColumnRenderName(agg) === aggConfigName] *)
Definition names_series (name : option string) (agg : ChartDataSectionField) : bool :=
  match name with
  | Some n => String.eqb (getColumnRenderName (Some agg)) n
  | None => false
  end.

(** [getSeriesTooltips4Rectangular2] *)
Definition getSeriesTooltips4Rectangular2 (chartDataSet : IChartDataSet)
    (tooltipParam : option TooltipParam)
    (groupConfigs colorConfigs : option (list ChartDataSectionField))
    (aggConfigs : list ChartDataSectionField)
    (infoConfigs sizeConfigs : option (list ChartDataSectionField)) : string :=
  if not_series tooltipParam then EmptyString
  else
    let name := aggConfigName tooltipParam in
    let row := tooltipRow tooltipParam in
    let tooltips :=
      map (fun config =>
             valueFormatter (Some config)
               (assoc (getFieldOriginKey chartDataSet config) row))
          ((((([] ++ Config.or_empty groupConfigs)
                ++ Config.or_empty colorConfigs)
               ++ List.filter (names_series name) aggConfigs)
              ++ Config.or_empty sizeConfigs)
             ++ Config.or_empty infoConfigs) in
    join "<br />" tooltips.
End WithHost.
End Tooltip.

(** ** Axis labels and scatter symbols *)

Module Axis.

Record AxisLabel : Type := {
  show : Val;
  overflow : Val;
  interval : Val
}.

Record AxisOption : Type := {
  axisLabel : option AxisLabel
}.

(** The part of an ECharts option the helper reads; an axis given as a
    single object instead of an array has no element [0]. *)
Record ECBasicOption : Type := {
  xAxis : option (list AxisOption);
  yAxis : option (list AxisOption)
}.

(** [getIntervalShow(interval)] *)
Definition getIntervalShow (interval : Val) : bool :=
  negb (strict_eq interval (VStr "auto")) && negb (strict_eq interval VNull).

(** [hadAxisLabelOverflowConfig(options, horizon)]; the result of
    [show && overflow && getIntervalShow(interval)] is a value, not
    always a boolean. *)
Definition hadAxisLabelOverflowConfig (options : option ECBasicOption)
    (horizon : bool) : Val :=
  match options with
  | None => VBool false
  | Some opts =>
      let axes := if negb horizon then xAxis opts else yAxis opts in
      match axes with
      | Some (first :: _) =>
          match axisLabel first with
          | None => VBool false
          | Some label =>
              js_and (js_and (show label) (overflow label))
                     (VBool (getIntervalShow (interval label)))
          end
      | _ => VBool false
      end
  end.

(** [getScatterSymbolSizeFn]: the lower bound after [min = Math.min(0, min)]
    and the divisor [distance]. *)
Definition scatterMin (min : float) : float := min2 0%float min.

Definition scatterDistance (max min : float) : float :=
  let d := PrimFloat.sub max (scatterMin min) in
  if PrimFloat.eqb d 0%float then 100%float else d.

(** [val?.[valueIndex]] as the number the subtraction makes of it; a
    missing [val] or element is [undefined], hence [NaN]. *)
Definition valueAt (val : option (list float)) (valueIndex : nat) : float :=
  match val with
  | Some vs => default PrimFloat.nan (vs !! valueIndex)
  | None => PrimFloat.nan
  end.

(** The function that [getScatterSymbolSizeFn(valueIndex, max, min,
    cycleRatio)] returns, applied to [val]. *)
Definition getScatterSymbolSizeFn (valueIndex : nat) (max min : float)
    (cycleRatio : option float) (val : option (list float)) : float :=
  let min' := scatterMin min in
  let scaleRatio := match cycleRatio with
                    | Some r => if num_truthy r then r else 1%float
                    | None => 1%float
                    end in
  let defaultScatterPointPixelSize := 10%float in
  let distance := scatterDistance max min in
  max2 3%float
    (PrimFloat.mul
       (PrimFloat.mul
          (PrimFloat.mul
             (PrimFloat.div (PrimFloat.sub (valueAt val valueIndex) min') distance)
             scaleRatio)
          defaultScatterPointPixelSize)
       2%float).

End Axis.

(** ** Data sections *)

(** [config.actions]: an array of action types, or an object from field
    type to such an array. *)
Inductive SectionActions : Type :=
| ActionsArray (actions : list ChartDataSectionFieldActionType)
| ActionsByType (byType : list (string * list ChartDataSectionFieldActionType)).

(** [ChartDataConfig], a section of the data configuration. *)
Record ChartDataConfig : Type := {
  sectionType : option ChartDataSectionType;
  sectionRows : option (list ChartDataSectionField);
  actions : option SectionActions;
  disableAggregate : bool;
  allowSameField : bool
}.

Definition with_rows (config : ChartDataConfig)
    (newRows : option (list ChartDataSectionField)) : ChartDataConfig :=
  {| sectionType := sectionType config;
     sectionRows := newRows;
     actions := actions config;
     disableAggregate := disableAggregate config;
     allowSameField := allowSameField config |}.

(** ** Sorting and moving rows *)

Module Sorting.
Import Mark.

(** [c.type === AGGREGATE || c.type === GROUP] *)
Definition is_sortable_section (c : ChartDataConfig) : bool :=
  match sectionType c with
  | Some AGGREGATE | Some GROUP => true
  | _ => false
  end.

(** The custom sort that applies: the column name and sort values of the
    first field of the group and aggregate sections, when that field has a
    column name and a sort of type [CUSTOMIZE]. *)
Definition customSort (dataConfigs : list ChartDataConfig)
    : option (string * list Val) :=
  let sortConfigs :=
    flat_map (fun config => Config.or_empty (sectionRows config))
             (List.filter is_sortable_section dataConfigs) in
  match sortConfigs with
  | [] => None
  | sortConfig :: _ =>
      match colName sortConfig, sort sortConfig with
      | Some col, Some srt =>
          if negb (str_nonempty col) then None
          else if negb (is_customize (sortType srt)) then None
          else Some (col, Config.or_empty (sortValue srt))
      | _, _ => None
      end
  end.

(** The comparator handed to [columns.sort]. *)
Definition compareBySortValues (col : string) (sortValues : list Val)
    (prev next : DataColumn) : Z :=
  (indexOf sortValues (assoc col prev) - indexOf sortValues (assoc col next))%Z.

(** [getCustomSortableColumns(columns, dataConfigs)].  The array returned
    is [columns] itself, sorted in place when a custom sort applies: the
    result is at once the value returned and the content of the caller's
    [columns] after the call. *)
Definition getCustomSortableColumns (columns : list DataColumn)
    (dataConfigs : list ChartDataConfig) : list DataColumn :=
  match customSort dataConfigs with
  | None => columns
  | Some (col, sortValues) =>
      JS.sort (compareBySortValues col sortValues) columns
  end.

Section Rows.
Context {A : Type} (undef : A).

(** [[rows[i], rows[j]] = [rows[j], rows[i]]] *)
Definition swap (rows : list A) (i j : nat) : list A :=
  let a := arr_get undef rows j in
  let b := arr_get undef rows i in
  arr_set undef (arr_set undef rows i a) j b.

(** [i += stepSize] *)
Definition step (up : bool) (i : nat) : nat :=
  if up then S i else Nat.pred i.

(** The [for] loop of [rowBubbleMove], one iteration per unit of fuel;
    the outcome is the [rows] array as the loop leaves it. *)
Fixpoint rowBubbleMove_loop (fuel : nat) (rows : list A) (i targetIdx : nat)
    (up : bool) : option (list A) :=
  match fuel with
  | O => None
  | S fuel' =>
      if Nat.eqb i targetIdx then Some rows
      else rowBubbleMove_loop fuel' (swap rows i (step up i)) (step up i)
             targetIdx up
  end.

(** [rowBubbleMove(rows, idx, targetIdx)] for array indices [idx] and
    [targetIdx]: it returns nothing, its effect is the new content of
    [rows].  The loop runs once per position between the two indices. *)
Definition rowBubbleMove (rows : list A) (idx targetIdx : nat)
    : option (list A) :=
  rowBubbleMove_loop (S (Nat.max idx targetIdx)) rows idx targetIdx
    (Nat.ltb idx targetIdx).
End Rows.

End Sorting.

(** ** The drop target of a data section *)

Module DragTarget.

(** What is dropped: one field with the index the drag gave it, or an
    array of fields. *)
Inductive DropItem : Type :=
| OneItem (field : ChartDataSectionField) (index : option Z)
| ManyItems (fields : list ChartDataSectionField).

(** [Array.isArray(item) ? item : [item]] *)
Definition itemsOf (item : DropItem) : list ChartDataSectionField :=
  match item with
  | OneItem f _ => [f]
  | ManyItems fs => fs
  end.

(** The properties [item.uid], [item.colName], ... read off the item
    itself; an array has none of them. *)
Definition noField : ChartDataSectionField :=
  {| uid := None; colName := None; category := None; fieldType := None;
     aggregate := None; aliasName := None; format := None; sort := None |}.

Definition itemField (item : DropItem) : ChartDataSectionField :=
  match item with
  | OneItem f _ => f
  | ManyItems _ => noField
  end.

Definition itemIndex (item : DropItem) : option Z :=
  match item with
  | OneItem _ i => i
  | ManyItems _ => None
  end.

(** What [drop] leaves behind: the section config it set and announced
    through [onConfigChanged] (with the [refreshDataset] flag it passed),
    the [delete] flag of its result, and the number of identifiers drawn
    from [uuidv4] so far. *)
Record DropOutcome : Type := {
  currentConfig : ChartDataConfig;
  announced : option bool;
  needDelete : bool;
  uuidsDrawn : nat
}.

Section WithHost.
Context `{Host}.

(** [actions[item.type]?.find(...)], an action type or [undefined]. *)
Definition aggregateActionFor (byType : list (string * list ChartDataSectionFieldActionType))
    (ty : option string) : option ChartDataSectionFieldActionType :=
  match ty with
  | None => None
  | Some t =>
      match List.find (fun entry => String.eqb (fst entry) t) byType with
      | Some (_, acts) => List.find is_aggregate_action acts
      | None => None
      end
  end.

(** [getDefaultAggregate(item)] inside a container whose section config
    is [config].  With [actions] an array the action found is dropped and
    [aggType] stays empty. *)
Definition getDefaultAggregate (config : ChartDataConfig)
    (item : ChartDataSectionField) : option string :=
  match sectionType config with
  | Some AGGREGATE | Some SIZE | Some INFO | Some MIXED =>
      if disableAggregate config then None
      else
        match category item with
        | Some AggregateComputedField => None
        | _ =>
            let aggType :=
              match actions config with
              | Some (ActionsArray _) => None
              | Some (ActionsByType byType) =>
                  aggregateActionFor byType (fieldType item)
              | None => None
              end in
            match aggType with
            | Some a =>
                match AggregateFieldSubAggregateType a with
                | Some (first :: _) => Some first
                | _ => None
                end
            | None => None
            end
        end
  | _ => None
  end.

(** [uid || val.uid] *)
Definition uid_or (newUid : option string) (old : option string) : option string :=
  match newUid with
  | Some u => if str_nonempty u then Some u else old
  | None => old
  end.

(** [getConfigColumn(val, uid)]: a field of five properties. *)
Definition getConfigColumn (config : ChartDataConfig)
    (val : ChartDataSectionField) (newUid : option string)
    : ChartDataSectionField :=
  {| uid := uid_or newUid (uid val);
     colName := colName val;
     category := category val;
     fieldType := fieldType val;
     aggregate := getDefaultAggregate config val;
     aliasName := None;
     format := None;
     sort := None |}.

(** [items.map(val => getConfigColumn(val, uuidv4()))], drawing the
    identifiers [uuidv4 n], [uuidv4 (n + 1)], ... in turn. *)
Fixpoint newColumns (config : ChartDataConfig)
    (items : list ChartDataSectionField) (n : nat)
    : list ChartDataSectionField :=
  match items with
  | [] => []
  | val :: rest =>
      getConfigColumn config val (Some (uuidv4 n)) :: newColumns config rest (S n)
  end.

(** [r.uid === item.uid] *)
Definition same_uid (a b : option string) : bool :=
  match a, b with
  | Some x, Some y => String.eqb x y
  | None, None => true
  | _, _ => false
  end.

(** Modelled from the spec: [app/utils/mutation] is not among the
    sources.  The spec has the container perform "configuration-array
    mutation (insert/move/delete)": [updateBy(base, updater)] hands back
    the copy of [base] as [updater] has changed it, and
    [updateByKey(config, 'rows', newColumns)] the config with its rows
    replaced. *)
Definition updateBy {B} (base : B) (updater : B -> B) : B := updater base.

Definition updateByKey_rows (config : ChartDataConfig)
    (newColumns : list ChartDataSectionField) : ChartDataConfig :=
  with_rows config (Some newColumns).

(** The [drop] handler of the container whose state is [config];
    [itemType] is [monitor.getItemType()]. *)
Definition drop (config : ChartDataConfig) (n : nat)
    (item : DropItem) (itemType : CHART_DRAG_ELEMENT_TYPE) : DropOutcome :=
  let items := itemsOf item in
  let rows := Config.or_empty (sectionRows config) in
  match itemType with
  | DATASET_COLUMN =>
      let currentColumns := rows ++ newColumns config items n in
      {| currentConfig := updateByKey_rows config currentColumns;
         announced := Some true;
         needDelete := true;
         uuidsDrawn := (n + length items)%nat |}
  | DATA_CONFIG_COLUMN =>
      let originItemIndex :=
        findIndex (fun r => same_uid (uid r) (uid (itemField item))) rows in
      if (-1 <? originItemIndex)%Z then
        let currentColumns :=
          updateBy rows (fun draft =>
            let draft := splice draft (Some originItemIndex) 1 [] in
            splice draft (itemIndex item) 0
              [getConfigColumn config (itemField item) None]) in
        {| currentConfig := updateByKey_rows config currentColumns;
           announced := Some false;
           needDelete := false;
           uuidsDrawn := n |}
      else
        let currentColumns :=
          updateBy rows (fun draft =>
            splice draft (itemIndex item) 0
              [getConfigColumn config (itemField item) None]) in
        {| currentConfig := updateByKey_rows config currentColumns;
           announced := Some false;
           needDelete := true;
           uuidsDrawn := n |}
  | DragOther _ =>
      {| currentConfig := config;
         announced := None;
         needDelete := true;
         uuidsDrawn := n |}
  end.

(** [handleOnDeleteItem(uid)()]: the section config afterwards. *)
Definition handleOnDeleteItem (config : ChartDataConfig) (u : option string)
    : ChartDataConfig :=
  match u with
  | Some s =>
      if str_nonempty s then
        updateBy config (fun draft =>
          with_rows draft
            (option_map
               (List.filter (fun c => negb (same_uid (uid c) (Some s))))
               (sectionRows draft)))
      else config
  | None => config
  end.
End WithHost.
End DragTarget.

(** ** Groups of style values: [getStyles], [getStyleValueByGroup], [getGridStyle] *)

Module Styles.
Import Config.

(** The value [getStyles] hands on to [getValue] as its [configs]: the rows
    of the parent, the only truthy value the target key ['rows'] yields. *)
Definition as_configs (v : Val) : option (list ChartStyleConfig) :=
  match v with
  | VRows r => Some r
  | _ => None
  end.

(** [getStyles(configs, parentKeyPaths, childTargetKeys)] *)
Definition getStyles (configs : option (list ChartStyleConfig))
    (parentKeyPaths childTargetKeys : list string) : list Val :=
  let rows := getValue configs parentKeyPaths "rows" in
  if negb (to_boolean rows) then replicate (length childTargetKeys) VUndef
  else map (fun k => getValue (as_configs rows) [k] default_targetKey)
           childTargetKeys.

(** [getStyleValueByGroup(styles, groupPath, childPath)] *)
Definition getStyleValueByGroup (styles : option (list ChartStyleConfig))
    (groupPath childPath : string) : Val :=
  let childPaths := split "." childPath in
  getValue styles (groupPath :: childPaths) default_targetKey.

Record GridStyle : Type := {
  gridLeft : Val;
  gridRight : Val;
  gridBottom : Val;
  gridTop : Val;
  gridContainLabel : Val
}.

(** [getGridStyle(styles)]; the array pattern takes the elements by
    position, [undefined] where the array is too short. *)
Definition getGridStyle (styles : option (list ChartStyleConfig)) : GridStyle :=
  let values :=
    getStyles styles ["margin"]
      ["containLabel"; "marginLeft"; "marginRight"; "marginBottom"; "marginTop"] in
  let at_ := fun i => default VUndef (values !! i) in
  {| gridLeft := at_ 1%nat;
     gridRight := at_ 2%nat;
     gridBottom := at_ 3%nat;
     gridTop := at_ 4%nat;
     gridContainLabel := at_ 0%nat |}.

(** Whether the character occurs in the string. *)
Fixpoint has_char (c : ascii) (s : string) : bool :=
  match s with
  | EmptyString => false
  | String c' rest => Ascii.eqb c' c || has_char c rest
  end.

End Styles.

(** ** Extremes of a data column, and rows with children *)

Module DataColumns.
Import Mark.

Record MaxAndMin : Type := {
  min : float;
  max : float
}.

Section WithHost.
Context `{Host}.

(** [getDataColumnMaxAndMin2(chartDataSetRows, config)] *)
Definition getDataColumnMaxAndMin2 (chartDataSetRows : option (list IChartDataSetRow))
    (config : option ChartDataSectionField) : MaxAndMin :=
  match config with
  | None => {| min := 0%float; max := 100%float |}
  | Some cfg =>
      if isEmptyArray (Config.or_empty chartDataSetRows)
      then {| min := 0%float; max := 100%float |}
      else
        let datas :=
          map (fun row => to_number (getCell row cfg))
              (Config.or_empty chartDataSetRows) in
        let min := if PrimFloat.is_nan (Math_min datas) then 0%float
                   else Math_min datas in
        let max := if PrimFloat.is_nan (Math_max datas) then 100%float
                   else Math_max datas in
        {| min := min; max := max |}
  end.

(** [getDataColumnMaxAndMin(dataset, config)]: the cells are read off plain
    objects and converted by [Math.min] and [Math.max] themselves. *)
Definition getDataColumnMaxAndMin (dataset : option (list DataColumn))
    (config : option ChartDataSectionField) : MaxAndMin :=
  match config with
  | None => {| min := 0%float; max := 100%float |}
  | Some cfg =>
      if isEmptyArray (Config.or_empty dataset)
      then {| min := 0%float; max := 100%float |}
      else
        let datas :=
          map (fun row => assoc (getValueByColumnKey (Some cfg)) row)
              (Config.or_empty dataset) in
        let numbers := map to_number datas in
        let min := if PrimFloat.is_nan (Math_min numbers) then 0%float
                   else Math_min numbers in
        let max := if PrimFloat.is_nan (Math_max numbers) then 100%float
                   else Math_max numbers in
        {| min := min; max := max |}
  end.
End WithHost.

(** [RowValue]: a row of a table header, with its children when it is a
    group. *)
Inductive RowValue : Type :=
| Row (rowUid : option string) (rowColName : string)
      (children : option (list RowValue)).

Definition rowUid (r : RowValue) : option string :=
  match r with Row u _ _ => u end.

Definition children (r : RowValue) : option (list RowValue) :=
  match r with Row _ _ ch => ch end.

(** [r.uid === uid] *)
Definition uid_is (uid : string) (r : RowValue) : bool :=
  match rowUid r with
  | Some u => String.eqb u uid
  | None => false
  end.

(** The [for] loop of [findRowBrothers]: the first result with an element
    among those of [search] on the rows; the last result, an empty array,
    when none has one. *)
Fixpoint firstNonEmpty {A B} (search : A -> list B) (rows : list A) : list B :=
  match rows with
  | [] => []
  | r :: rest =>
      match search r with
      | [] => firstNonEmpty search rest
      | found => found
      end
  end.

(** [findRowBrothers(uid, row.children || [])] *)
Fixpoint findRowBrothers_below (uid : string) (row : RowValue) : list RowValue :=
  match row with
  | Row _ _ ch =>
      match ch with
      | None => []
      | Some rows =>
          if existsb (uid_is uid) rows then rows
          else firstNonEmpty (findRowBrothers_below uid) rows
      end
  end.

(** [findRowBrothers(uid, rows)] *)
Definition findRowBrothers (uid : string) (rows : list RowValue) : list RowValue :=
  if existsb (uid_is uid) rows then rows
  else firstNonEmpty (findRowBrothers_below uid) rows.

(** Whether a row of that uid occurs in the forest, at any depth. *)
Fixpoint occurs_below (uid : string) (row : RowValue) : bool :=
  match row with
  | Row _ _ ch =>
      match ch with
      | None => false
      | Some rows =>
          existsb (uid_is uid) rows || existsb (occurs_below uid) rows
      end
  end.

Definition occurs (uid : string) (rows : list RowValue) : bool :=
  existsb (uid_is uid) rows || existsb (occurs_below uid) rows.

(** Induction over a row and, through its children, the rows below. *)
Fixpoint RowValue_forest_ind (P : RowValue -> Prop)
    (step : forall u c ch, Forall P (Config.or_empty ch) -> P (Row u c ch))
    (r : RowValue) : P r :=
  match r with
  | Row u c ch =>
      step u c ch
        (match ch as o return Forall P (Config.or_empty o) with
         | None => @List.Forall_nil _ P
         | Some rows =>
             (fix all (l : list RowValue) : Forall P l :=
                match l with
                | [] => @List.Forall_nil _ P
                | x :: xs =>
                    @List.Forall_cons _ P x xs
                      (RowValue_forest_ind P step x) (all xs)
                end) rows
         end)
  end.

End DataColumns.

(** ** The other tooltip helpers *)

Module Tooltips.
Import Tooltip Mark.

Section WithHost.
Context `{Host}.

(** [getSeriesTooltips4Polar2] *)
Definition getSeriesTooltips4Polar2 (chartDataSet : IChartDataSet)
    (tooltipParam : option TooltipParam)
    (groupConfigs colorConfigs aggConfigs : option (list ChartDataSectionField))
    (infoConfigs sizeConfigs : option (list ChartDataSectionField)) : string :=
  let row := tooltipRow tooltipParam in
  let tooltips :=
    map (fun config =>
           valueFormatter (Some config)
             (assoc (getFieldOriginKey chartDataSet config) row))
        ((((([] ++ Config.or_empty groupConfigs)
              ++ Config.or_empty colorConfigs)
             ++ Config.or_empty aggConfigs)
            ++ Config.or_empty sizeConfigs)
           ++ Config.or_empty infoConfigs) in
  join "<br />" tooltips.

(** [dataRow?.[key]] *)
Definition cellOf (dataRow : option DataColumn) (k : string) : Val :=
  match dataRow with
  | Some d => assoc k d
  | None => VUndef
  end.

(** [getSeriesTooltips4Rectangular(params, groupConfigs, aggConfigs,
    dataColumns)], with [axisValue] for [params?.[0]?.axisValue].  With a
    group field the data columns are searched, which throws when there are
    none to search. *)
Definition getSeriesTooltips4Rectangular (axisValue : Val)
    (groupConfigs aggConfigs : option (list ChartDataSectionField))
    (dataColumns : option (list DataColumn)) : Completion (list string) :=
  match Config.or_empty aggConfigs with
  | [] => Normal []
  | aggs =>
      match Config.or_empty groupConfigs with
      | [] =>
          Normal (map (fun config =>
                         valueFormatter (Some config)
                           (cellOf (head (Config.or_empty dataColumns))
                                   (getValueByColumnKey (Some config))))
                      aggs)
      | groupConfig :: _ =>
          match dataColumns with
          | None => TypeError
          | Some columns =>
              let dataRow :=
                List.find (fun dc =>
                             strict_eq
                               (assoc (getValueByColumnKey (Some groupConfig)) dc)
                               axisValue) columns in
              Normal (map (fun config =>
                             valueFormatter (Some config)
                               (cellOf dataRow (getValueByColumnKey (Some config))))
                          aggs)
          end
      end
  end.

(** [getSeriesTooltips4Scatter(params, tooltipItemConfigs, start)], with
    [dataValues] for [params?.[0]?.value] and [start] a count of values to
    skip; a [start] of [0] is falsy and counts as none. *)
Definition getSeriesTooltips4Scatter (dataValues : option (list Val))
    (tooltipItemConfigs : list ChartDataSectionField) (start : option nat)
    : list string :=
  imap (fun index config =>
          let position :=
            match start with
            | Some (S s) => (S s + index)%nat
            | _ => index
            end in
          valueFormatter (Some config)
            (match dataValues with
             | Some values => default VUndef (values !! position)
             | None => VUndef
             end))
       tooltipItemConfigs.
End WithHost.
End Tooltips.

(** ** Moving and replacing the rows of a section *)

Module SectionRows.
Import DragTarget.

(** [rows[index]] for a number that is an integer: [undefined] outside the
    array. *)
Definition rowAt {A} (rows : list A) (index : Z) : option A :=
  if (index <? 0)%Z then None else rows !! Z.to_nat index.

(** [handleDraggableItemMove(dragIndex, hoverIndex)] in a container whose
    state is [config] and whose [canDraggableItemMove] property, when given,
    is [canMove]: the state afterwards and the boolean returned. *)
Definition handleDraggableItemMove (config : ChartDataConfig)
    (canMove : option (list ChartDataSectionField -> Z -> Z -> bool))
    (dragIndex hoverIndex : Z) : ChartDataConfig * bool :=
  match sectionRows config with
  | None => (config, false)
  | Some rows =>
      if match canMove with
         | Some can => negb (can rows dragIndex hoverIndex)
         | None => false
         end
      then (config, false)
      else
        match rowAt rows dragIndex with
        | Some draggedItem =>
            let newCurrentConfig :=
              updateBy config (fun draft =>
                let columns := Config.or_empty (sectionRows draft) in
                let columns := splice columns (Some dragIndex) 1 [] in
                let columns := splice columns (Some hoverIndex) 0 [draggedItem] in
                with_rows draft (Some columns)) in
            (newCurrentConfig, true)
        | None => (config, false)
        end
  end.

(** [handleFieldConfigChanged(columnUid, fieldConfig, needRefresh)] on the
    [config] property: the config announced through [onConfigChanged], or
    [None] when nothing is announced. *)
Definition handleFieldConfigChanged (config : ChartDataConfig)
    (columnUid : option string) (fieldConfig : option ChartDataSectionField)
    : option ChartDataConfig :=
  match fieldConfig with
  | None => None
  | Some field =>
      Some (updateBy config (fun draft =>
        let index :=
          findIndex (fun r => same_uid (uid r) columnUid)
                    (Config.or_empty (sectionRows draft)) in
        if negb (index =? -1)%Z then
          match sectionRows draft with
          | Some rows => with_rows draft (Some (<[Z.to_nat index := field]> rows))
          | None => draft
          end
        else draft))
  end.

End SectionRows.

(** ** The older mark helpers, the reference of a chart, and object rows *)

Module Reference.
Import Config Mark.

Section WithHost.
Context `{Host}.

(** [getMarkLine(refTabs, dataColumns, dataConfig, isHorizonDisplay).data] *)
Definition getMarkLine (refTabs : option (list ChartStyleConfig))
    (dataColumns : list DataColumn)
    (dataConfig : ChartDataSectionField) (isHorizonDisplay : bool)
    : Completion (option (list MarkLineData)) :=
  match refTabs with
  | None => Normal None
  | Some tabs =>
      bind (collectByPush "markLine" tabs []) (fun marks =>
        Normal (Some (omap (fun ml =>
          getMarkLineData ml dataColumns "valueType" "constantValue"
            "metric" dataConfig isHorizonDisplay) marks)))
  end.

(** [getMarkAreaData]: the metric setting itself names the property read
    off each data column, and the value derived is not checked.  [Normal
    None] is the [null] of a mark area that is not enabled. *)
Definition getMarkAreaData (mark : ChartStyleConfig)
    (dataColumns : list DataColumn)
    (valueTypeKey constantValueKey metricKey : string)
    (isHorizonDisplay : bool) : Completion (option MarkAreaData) :=
  let valueKey := valueKey isHorizonDisplay in
  let show := getSettingValue (rows mark) "showLabel" "value" in
  let enableMarkArea := getSettingValue (rows mark) "enableMarkArea" "value" in
  let position := getSettingValue (rows mark) "position" "value" in
  let font := getSettingValue (rows mark) "font" "value" in
  let borderStyle := getSettingValue (rows mark) "borderStyle" "value" in
  let opacity := getSettingValue (rows mark) "opacity" "value" in
  let backgroundColor := getSettingValue (rows mark) "backgroundColor" "value" in
  let name := get mark "value" in
  let valueType := getSettingValue (rows mark) valueTypeKey "value" in
  let metric := getSettingValue (rows mark) metricKey "value" in
  let metricDatas :=
    map (fun d => to_number (assoc (to_string metric) d)) dataColumns in
  let constantValue := getSettingValue (rows mark) constantValueKey "value" in
  let yAxis := derivedAxisValue valueType constantValue metricDatas in
  if negb (to_boolean enableMarkArea) then Normal None
  else
    bind (member borderStyle "color") (fun bcolor =>
    bind (member borderStyle "width") (fun bwidth =>
    bind (member borderStyle "type") (fun btype =>
      Normal (Some
        {| areaAxis := valueKey;
           areaAxisValue := yAxis;
           areaName := name;
           areaLabel := {| labelShow := show;
                           labelPosition := position;
                           labelSpread := font |};
           areaItemStyle := {| opacity := opacity;
                               color := backgroundColor;
                               borderColor := bcolor;
                               borderWidth := bwidth;
                               borderType := btype |} |}))))
  .

(** [getMarkArea(refTabs, dataColumns, isHorizonDisplay).data]: an area is
    kept when its boundary list has an element. *)
Definition getMarkArea (refTabs : option (list ChartStyleConfig))
    (dataColumns : list DataColumn) (isHorizonDisplay : bool)
    : Completion (option (list (list MarkAreaData))) :=
  match refTabs with
  | None => Normal None
  | Some tabs =>
      bind (collectByPush "markArea" tabs []) (fun refAreas =>
      bind (mapM (fun mark =>
                    bind (mapM (fun pre =>
                                  getMarkAreaData mark dataColumns
                                    (pre ++ "ValueType") (pre ++ "ConstantValue")
                                    (pre ++ "Metric") isHorizonDisplay)
                               ["start"; "end"])
                         (fun points => Normal (omap id points)))
                 refAreas)
           (fun areas =>
              Normal (Some (List.filter (fun m => negb (Nat.eqb (length m) 0))
                              areas))))
  end.

(** What [getReference2] returns: the [data] of its [markLine] and of its
    [markArea]. *)
Record ReferenceData : Type := {
  markLine : option (list MarkLineData);
  markArea : option (list (list MarkAreaData))
}.

(** [getReference2(settingConfigs, dataSetRows, dataConfig,
    isHorizonDisplay)] *)
Definition getReference2 (settingConfigs : option (list ChartStyleConfig))
    (dataSetRows : list IChartDataSetRow)
    (dataConfig : ChartDataSectionField) (isHorizonDisplay : bool)
    : Completion ReferenceData :=
  let referenceTabs :=
    getSettingValue settingConfigs "reference.panel.configuration" "rows" in
  bind (getMarkLine2 (Styles.as_configs referenceTabs) dataSetRows dataConfig
          isHorizonDisplay) (fun line =>
  bind (getMarkArea2 (Styles.as_configs referenceTabs) dataSetRows dataConfig
          isHorizonDisplay) (fun area =>
    Normal {| markLine := line; markArea := area |})).
End WithHost.

(** [objCol[key] = v]: the property is overwritten where it is, or added
    after the others. *)
Fixpoint obj_set (k : string) (v : Val) (fields : list (string * Val))
    : list (string * Val) :=
  match fields with
  | [] => [(k, v)]
  | (k', v') :: rest =>
      if String.eqb k k' then (k, v) :: rest else (k', v') :: obj_set k v rest
  end.

(** The inner loop of [transformToObjectArray] from index [i] on: the
    object of one row of cells, a property per meta with a name. *)
Fixpoint fillObject (metaNames : list (option string)) (i : nat)
    (cells : list Val) (objCol : list (string * Val)) : list (string * Val) :=
  match metaNames with
  | [] => objCol
  | name :: rest =>
      let objCol' :=
        match name with
        | Some key =>
            if str_nonempty key
            then obj_set key (default VUndef (cells !! i)) objCol
            else objCol
        | None => objCol
        end in
      fillObject rest (S i) cells objCol'
  end.

(** [transformToObjectArray(columns, metas)], the metas given by their
    names.  [measure] is [Debugger.instance.measure], which is handed the
    function that builds the rows. *)
Definition transformToObjectArray
    (measure : string -> (unit -> list (list (string * Val))) -> bool
               -> list (list (string * Val)))
    (columns : option (list (list Val))) (metas : option (list (option string)))
    : list (list (string * Val)) :=
  match columns, metas with
  | Some cols, Some names =>
      measure "transformToObjectArray"
        (fun _ => map (fun cells => fillObject names 0 cells []) cols)
        false
  | _, _ => []
  end.

End Reference.

(** ** A host to run the helpers on concrete inputs *)

(** A small stand-in for the engine and the imported modules: numbers are
    read from and printed as a few short numerals, the unit table knows
    thousands, and the average of a list is its sum over its length. *)
Definition demoStringToNumber (s : string) : float :=
  if String.eqb s EmptyString then 0%float
  else if String.eqb s "0" then 0%float
  else if String.eqb s "1" then 1%float
  else if String.eqb s "2" then 2%float
  else if String.eqb s "3" then 3%float
  else if String.eqb s "10" then 10%float
  else PrimFloat.nan.

Definition demoNumberToString (n : float) : string :=
  if PrimFloat.eqb n 0%float then "0"
  else if PrimFloat.eqb n 1%float then "1"
  else if PrimFloat.eqb n 2%float then "2"
  else if PrimFloat.eqb n 3%float then "3"
  else if PrimFloat.eqb n 10%float then "10"
  else "NaN".

Definition demoMeanValue (xs : list float) : float :=
  PrimFloat.div (fold_left PrimFloat.add xs 0%float)
                (fold_left (fun n _ => PrimFloat.add n 1%float) xs 0%float).

Definition demoHost : Host :=
  {| StringToNumber := demoStringToNumber;
     NumberToString := demoNumberToString;
     toFixed := fun n _ => demoNumberToString n;
     toExponential := fun n _ => (demoNumberToString n ++ "e+0")%string;
     IntlCurrencyFormat := fun cur _ _ n =>
       (cur ++ " " ++ demoNumberToString n)%string;
     groupThousands := fun s => s;
     momentFormat := fun _ f => f;
     meanValue := demoMeanValue;
     NumericUnitDescriptions := fun k =>
       if String.eqb k "none" then Some (1%float, EmptyString)
       else if String.eqb k "thousand" then Some (1000%float, "K")
       else if String.eqb k "broken" then Some (0%float, "?")
       else None;
     NumberUnitKey_None := "none";
     getColumnRenderOriginName := fun f =>
       Mark.getValueByColumnKey (Some f);
     AggregateFieldSubAggregateType := fun a =>
       match a with
       | Aggregate => Some ["SUM"; "AVG"]
       | AggregateLimit => Some ["COUNT"]
       | ActionOther _ => None
       end;
     uuidv4 := fun n =>
       ("uuid-" ++ String (Ascii.ascii_of_nat (48 + n)) EmptyString)%string |}.

(** ** Vocabulary of the statements *)

(** The example of the documentation of [getValue]. *)
Definition exampleStyleConfigs : list ChartStyleConfig :=
  [ StyleConfig "label"
      (Some [ StyleConfig "color" None [("value", VStr "red")];
              StyleConfig "font" None [("value", VStr "sans-serif")] ])
      [] ].

Section FormatVocabulary.
Context `{Host}.

(** The format config leaves the value alone: it is absent, or of type
    [DEFAULT], or without type, or without the entry of its type. *)
Definition format_without_effect (format : option IFieldFormatConfig) : Prop :=
  match format with
  | None => True
  | Some fmt =>
      match formatType fmt with
      | None => True
      | Some ty => ty = DEFAULT \/ formatEntry fmt ty = None
      end
  end.

(** A string that is empty or does not read as a number. *)
Definition not_a_numeral (s : string) : Prop :=
  s = EmptyString \/ PrimFloat.is_nan (StringToNumber s) = true.
End FormatVocabulary.

Definition percentageOnly : IFieldFormatConfig :=
  {| formatType := Some PERCENTAGE; formatEntry := fun _ => None |}.

(** The axis label the overflow check looks at: that of the first x axis,
    or of the first y axis for a horizontal chart. *)
Definition firstAxisLabel (options : option Axis.ECBasicOption) (horizon : bool)
    : option Axis.AxisLabel :=
  match options with
  | None => None
  | Some opts =>
      match (if horizon then Axis.yAxis opts else Axis.xAxis opts) with
      | Some (first :: _) => Axis.axisLabel first
      | _ => None
      end
  end.

Definition overflowLabel : Axis.AxisLabel :=
  {| Axis.show := VBool true;
     Axis.overflow := VStr "truncate";
     Axis.interval := VNum 0%float |}.

Definition overflowOptions : Axis.ECBasicOption :=
  {| Axis.xAxis := Some [ {| Axis.axisLabel := Some overflowLabel |} ];
     Axis.yAxis := None |}.

Section DivisorVocabulary.
Context `{Host}.

(** The unit lookup of a format entry yields no unit, or a falsy one. *)
Definition no_usable_unit (config : FormatEntry) : Prop :=
  Format.unitDescription (unitKey config) = None
  \/ exists u name,
       Format.unitDescription (unitKey config) = Some (u, name)
       /\ num_truthy u = false.
End DivisorVocabulary.

Definition brokenUnitEntry : FormatEntry :=
  {| decimalPlaces := None; unitKey := Some "broken";
     useThousandSeparator := None; prefix := None; suffix := None;
     currency := None; dateFormat := None |}.

(** A mark line on the maximum of the metric [m1], and a data set of two
    rows for it. *)
Definition maxMarkLine : ChartStyleConfig :=
  StyleConfig "markLine"
    (Some [ StyleConfig "enableMarkLine" None [("value", VBool true)];
            StyleConfig "valueType" None [("value", VStr "max")];
            StyleConfig "constantValue" None [("value", VNum 10%float)];
            StyleConfig "metric" None [("value", VStr "m1")] ])
    [("label", VStr "peak")].

Definition metricField : ChartDataSectionField :=
  {| uid := Some "m1"; colName := Some "amount"; category := None;
     fieldType := Some "NUMERIC"; aggregate := Some "SUM"; aliasName := None;
     format := None; sort := None |}.

Definition cellRow (v : Val) : IChartDataSetRow := {| getCell := fun _ => v |}.

Definition twoRows : list IChartDataSetRow := [cellRow (VStr "1"); cellRow (VStr "3")].

Definition twoColumns : list Mark.DataColumn :=
  [ [("SUM(amount)", VNum 1%float)]; [("SUM(amount)", VNum 3%float)] ].

(** A mark area between the constants [1] and [3], drawn with a border. *)
Definition constantMarkArea : ChartStyleConfig :=
  StyleConfig "markArea"
    (Some [ StyleConfig "enableMarkArea" None [("value", VBool true)];
            StyleConfig "startValueType" None [("value", VStr "constant")];
            StyleConfig "startConstantValue" None [("value", VNum 1%float)];
            StyleConfig "endValueType" None [("value", VStr "constant")];
            StyleConfig "endConstantValue" None [("value", VNum 3%float)];
            StyleConfig "borderStyle" None
              [("value", VObj [("color", VStr "grey"); ("width", VNum 1%float);
                               ("type", VStr "solid")])] ])
    [("value", VStr "band")].

(** The same mark area switched off. *)
Definition disabledMarkArea : ChartStyleConfig :=
  StyleConfig "markArea"
    (Some [ StyleConfig "enableMarkArea" None [("value", VBool false)];
            StyleConfig "startValueType" None [("value", VStr "constant")];
            StyleConfig "startConstantValue" None [("value", VNum 1%float)] ])
    [("value", VStr "off")].

Definition referenceTabs : list ChartStyleConfig :=
  [ StyleConfig "tab1" (Some [constantMarkArea; disabledMarkArea]) [] ].

Section MarkAreaVocabulary.
Context `{Host}.

(** The axis value [getMarkAreaData2] derives for one boundary of a mark. *)
Definition boundaryAxisValue (mark : ChartStyleConfig)
    (dataSetRows : list IChartDataSetRow)
    (valueTypeKey constantValueKey metricKey : string)
    (dataConfig : ChartDataSectionField) : Val :=
  Mark.derivedAxisValue
    (Config.getSettingValue (Config.rows mark) valueTypeKey "value")
    (Config.getSettingValue (Config.rows mark) constantValueKey "value")
    (Mark.metricDatasOfRows dataSetRows dataConfig
       (Config.getSettingValue (Config.rows mark) metricKey "value")).

(** The boundary point of a mark for the prefix ['start'] or ['end']. *)
Definition boundaryPoint (pre : string) (mark : option ChartStyleConfig)
    (dataSetRows : list IChartDataSetRow)
    (dataConfig : ChartDataSectionField) (isHorizonDisplay : bool)
    : Completion (option Mark.MarkAreaData) :=
  Mark.getMarkAreaData2 mark dataSetRows
    (pre ++ "ValueType") (pre ++ "ConstantValue") (pre ++ "Metric")
    dataConfig isHorizonDisplay.
End MarkAreaVocabulary.

Section TooltipVocabulary.
Context `{Host}.

(** One line of a tooltip: the render name of the field, a colon and a
    space, and the row's value for the field formatted by the field's format
    config. *)
Definition tooltipLine (chartDataSet : IChartDataSet)
    (row : list (string * Val)) (config : ChartDataSectionField) : string :=
  (Tooltip.getColumnRenderName (Some config) ++ ": "
   ++ to_string (Format.toFormattedValue
                   (assoc (getFieldOriginKey chartDataSet config) row)
                   (format config)))%string.
End TooltipVocabulary.

Definition plainField (u c : string) : ChartDataSectionField :=
  {| uid := Some u; colName := Some c; category := None; fieldType := None;
     aggregate := None; aliasName := None; format := None; sort := None |}.

Definition byColName : IChartDataSet :=
  {| getFieldOriginKey := fun f => Mark.getValueByColumnKey (Some f) |}.

Definition hoveredBar : Tooltip.TooltipParam :=
  {| Tooltip.componentType := Some "series";
     Tooltip.seriesName := Some "SUM(amount)";
     Tooltip.data :=
       Some {| Tooltip.dataName := None;
               Tooltip.rowData :=
                 Some [("city", VStr "Oslo"); ("SUM(amount)", VNum 3%float);
                       ("SUM(cost)", VNum 2%float)] |} |}.

Definition hoveredAxis : Tooltip.TooltipParam :=
  {| Tooltip.componentType := Some "xAxis";
     Tooltip.seriesName := None;
     Tooltip.data := None |}.

(** The position a data column takes under a custom sort: the index of its
    value in the sort values, [-1] when it is not among them. *)
Definition sortPosition (col : string) (sortValues : list Val)
    (column : Mark.DataColumn) : Z :=
  indexOf sortValues (assoc col column).



(** An aggregate section with two fields, the first renamed by the user. *)
Definition renamedField : ChartDataSectionField :=
  {| uid := Some "a"; colName := Some "amount"; category := None;
     fieldType := Some "NUMERIC"; aggregate := Some "AVG";
     aliasName := Some "Total"; format := None; sort := None |}.

Definition aggregateSection (rows : list ChartDataSectionField) : ChartDataConfig :=
  {| sectionType := Some AGGREGATE;
     sectionRows := Some rows;
     actions := Some (ActionsByType [("NUMERIC", [Aggregate])]);
     disableAggregate := false;
     allowSameField := false |}.

(** A row without uid, as the type of a field allows. *)
Definition anonymousField : ChartDataSectionField :=
  {| uid := None; colName := Some "cost"; category := None;
     fieldType := None; aggregate := None; aliasName := None;
     format := None; sort := None |}.

(** A header of one group with two columns below it, and a single column. *)
Definition headerRows : list DataColumns.RowValue :=
  [ DataColumns.Row (Some "g") "group"
      (Some [ DataColumns.Row (Some "c1") "first" None;
              DataColumns.Row (Some "c2") "second" None ]);
    DataColumns.Row (Some "c3") "third" None ].

(** A tab of reference settings that has lost its rows. *)
Definition tabWithoutRows : ChartStyleConfig := StyleConfig "tab2" None [].

(** A mark area of the older kind whose start is the largest value of a
    column that holds no number. *)
Definition unboundedMarkArea : ChartStyleConfig :=
  StyleConfig "markArea"
    (Some [ StyleConfig "enableMarkArea" None [("value", VBool true)];
            StyleConfig "startValueType" None [("value", VStr "max")];
            StyleConfig "startMetric" None [("value", VStr "none")];
            StyleConfig "endValueType" None [("value", VStr "constant")];
            StyleConfig "endConstantValue" None [("value", VNum 3%float)];
            StyleConfig "borderStyle" None [("value", VObj [])] ])
    [("value", VStr "open")].



(** Whether the [canDraggableItemMove] property of the container, when it
    is given, lets the row at [dragIndex] go to [hoverIndex]; a container
    without the property lets every row go. *)
Definition moveAllowed
    (canMove : option (list ChartDataSectionField -> Z -> Z -> bool))
    (rows : list ChartDataSectionField) (dragIndex hoverIndex : Z) : bool :=
  match canMove with
  | Some can => can rows dragIndex hoverIndex
  | None => true
  end.

(** A [canDraggableItemMove] that keeps the first row of a section first. *)
Definition firstRowStays (rows : list ChartDataSectionField)
    (dragIndex hoverIndex : Z) : bool :=
  negb (hoverIndex =? 0)%Z.

(** * Properties *)

(** ** Config lookup *)

Lemma find_none_pred {A} (l : list A) :
  List.find (fun _ : A => false) l = None.
Proof. induction l as [|x l IH]; simpl; auto. Qed.

Lemma find_key_is_none (level : list ChartStyleConfig) :
  List.find (Config.key_is None) level = None.
Proof. apply find_none_pred. Qed.

(** With more fuel than the path is long the loop returns: the value is the
    one the walk finds, and [keyPaths] has lost the elements consumed. *)
Lemma getValue_loop_enough (targetKey : string) :
  forall (keyPaths : list string) (level : list ChartStyleConfig) (fuel : nat),
    (length keyPaths < fuel)%nat ->
    Config.getValue_loop fuel level keyPaths targetKey
    = Some (Config.walk level keyPaths targetKey,
            drop (Config.consumed level keyPaths) keyPaths).
Proof.
  induction keyPaths as [|k rest IH]; intros level fuel Hfuel.
  - destruct fuel as [|fuel]; [simpl in Hfuel; lia|].
    destruct level as [|sc level]; simpl; [reflexivity|].
    change (List.find (Config.key_is None) (sc :: level))
      with (if Config.key_is None sc then Some sc
            else List.find (Config.key_is None) level).
    simpl. rewrite find_key_is_none. reflexivity.
  - destruct fuel as [|fuel]; [simpl in Hfuel; lia|].
    simpl in Hfuel.
    destruct level as [|sc level]; [reflexivity|].
    cbn [Config.getValue_loop isEmptyArray Config.shift Config.walk Config.consumed].
    change (Config.key_is (Some k)) with (fun sc0 => String.eqb (Config.key sc0) k).
    destruct (List.find (fun sc0 => String.eqb (Config.key sc0) k) (sc :: level))
      as [group|] eqn:Hfind.
    + destruct rest as [|k' rest'].
      * reflexivity.
      * cbn [isEmptyArray]. rewrite IH by (simpl in *; lia). reflexivity.
    + reflexivity.
Qed.

Lemma getValue_st_walk configs keyPaths targetKey :
  Config.getValue_st configs keyPaths targetKey
  = Some (Config.walk (Config.or_empty configs) keyPaths targetKey,
          drop (Config.consumed (Config.or_empty configs) keyPaths) keyPaths).
Proof. unfold Config.getValue_st. apply getValue_loop_enough. lia. Qed.

Lemma getValue_walk configs keyPaths targetKey :
  Config.getValue configs keyPaths targetKey
  = Config.walk (Config.or_empty configs) keyPaths targetKey.
Proof. unfold Config.getValue. rewrite getValue_st_walk. reflexivity. Qed.

Lemma split_not_nil sep s : split sep s <> [].
Proof.
  destruct s as [|c s]; simpl; [discriminate|].
  destruct (Ascii.eqb c sep); [discriminate|].
  destruct (split sep s); discriminate.
Qed.

(** Splitting on a character and joining with it gives the string back. *)
Lemma join_split sep s : join (String sep EmptyString) (split sep s) = s.
Proof.
  induction s as [|c s IH]; [reflexivity|].
  simpl. destruct (Ascii.eqb c sep) eqn:E.
  - apply Ascii.eqb_eq in E. subst c.
    destruct (split sep s) as [|w ws] eqn:Hs.
    + exfalso. eapply split_not_nil; eauto.
    + simpl. simpl in IH. rewrite IH. reflexivity.
  - destruct (split sep s) as [|w ws] eqn:Hs.
    + exfalso. eapply split_not_nil; eauto.
    + destruct ws as [|w' ws']; simpl in *; rewrite IH; reflexivity.
Qed.

(** C1: the loop of [getValue] returns on every configuration tree and key
    path, with the value of the walk the specification describes: at each
    level the node whose key is the next path element, then its rows, and at
    the last element that node's [targetKey] property; [undefined] when an
    element has no node or the tree ends first.  [getSettingValue] is the
    same walk along the path split on the dot, and the default target key is
    ['value']. *)
Theorem getValue_walks_the_path :
  forall (configs : option (list ChartStyleConfig)) (keyPaths : list string)
         (targetKey path : string),
    (exists rest,
        Config.getValue_st configs keyPaths targetKey
        = Some (Config.walk (Config.or_empty configs) keyPaths targetKey, rest))
    /\ Config.getValue configs keyPaths targetKey
       = Config.walk (Config.or_empty configs) keyPaths targetKey
    /\ Config.getStyleValue configs keyPaths
       = Config.walk (Config.or_empty configs) keyPaths "value"
    /\ Config.getSettingValue configs path targetKey
       = Config.getValue configs (split "." path) targetKey
    /\ Config.getSettingValue configs path targetKey
       = Config.walk (Config.or_empty configs) (split "." path) targetKey
    /\ join "." (split "." path) = path.
Proof.
  intros configs keyPaths targetKey path.
  split; [eexists; apply getValue_st_walk|].
  split; [apply getValue_walk|].
  split; [apply getValue_walk|].
  split; [reflexivity|].
  split; [apply getValue_walk|].
  apply join_split.
Qed.



Example getValue_label_color :
  Config.getValue_st (Some exampleStyleConfigs) ["label"; "color"] "value"
  = Some (VStr "red", []).
Proof. reflexivity. Qed.

Example getSettingValue_label_font :
  Config.getSettingValue (Some exampleStyleConfigs) "label.font" "value"
  = VStr "sans-serif".
Proof. reflexivity. Qed.

Example getValue_missing_element :
  Config.getValue (Some exampleStyleConfigs) ["label"; "size"] "value" = VUndef
  /\ Config.getValue (Some exampleStyleConfigs) ["label"; "color"; "deep"] "value"
     = VUndef.
Proof. split; reflexivity. Qed.

(** ** Formatting *)

Section FormatProperties.
Context `{Host}.

(** C9: whatever the format config, also without one, [toFormattedValue]
    answers the placeholder ['-'] for [null] and for [undefined]; no branch
    on the format is taken before. *)
Theorem toFormattedValue_placeholder :
  forall (format : option IFieldFormatConfig),
    Format.toFormattedValue VNull format = VStr "-"
    /\ Format.toFormattedValue VUndef format = VStr "-".
Proof. intros format. split; reflexivity. Qed.


(** C3, amended: a value other than [null] and [undefined] comes back
    unchanged when the format config is absent, of type [DEFAULT], without
    type, or without the entry of its declared type; and a string that is
    empty or not a numeral comes back unchanged under every format type but
    [DATE]. *)
Theorem toFormattedValue_falls_back :
  forall (value : Val) (format : option IFieldFormatConfig),
    is_nullish value = false ->
    (format_without_effect format ->
     Format.toFormattedValue value format = value)
    /\ (forall (s : string) (fmt : IFieldFormatConfig) (ty : FieldFormatType),
          value = VStr s ->
          format = Some fmt ->
          formatType fmt = Some ty ->
          ty <> DATE ->
          not_a_numeral s ->
          Format.toFormattedValue value format = value).
Proof.
  intros value format Hval. split.
  - intros Hfmt. unfold Format.toFormattedValue. rewrite Hval.
    destruct format as [fmt|]; [|reflexivity].
    simpl in Hfmt. destruct (formatType fmt) as [ty|]; [|reflexivity].
    destruct Hfmt as [-> | Hentry]; [reflexivity|].
    rewrite Hentry.
    destruct ty; try reflexivity;
      match goal with |- (if ?c then _ else _) = _ => destruct c; reflexivity end.
  - intros s fmt ty -> -> Hty Hdate Hs.
    unfold Format.toFormattedValue. simpl is_nullish. cbv iota.
    rewrite Hty.
    assert (Hguard : is_string (VStr s)
                     && negb (FieldFormatType_eqb ty DATE)
                     && (negb (to_boolean (VStr s))
                         || PrimFloat.is_nan (to_number (VStr s))) = true).
    { simpl is_string. simpl to_boolean. simpl to_number.
      assert (Hd : FieldFormatType_eqb ty DATE = false)
        by (destruct ty; try reflexivity; congruence).
      rewrite Hd. simpl.
      destruct Hs as [-> | Hnan]; [reflexivity|].
      rewrite Hnan. apply orb_true_r. }
    destruct ty; try reflexivity; rewrite Hguard; reflexivity.
Qed.
End FormatProperties.

(** As the specification words it the property fails on its first case: without a format config
    [undefined] does not come back unchanged, the placeholder does. *)
Lemma toFormattedValue_undefined_not_unchanged :
  format_without_effect None
  /\ @Format.toFormattedValue demoHost VUndef None <> VUndef.
Proof. split; [exact I|]. simpl. discriminate. Qed.


Lemma toFormattedValue_falls_back_witness :
  @Format.toFormattedValue demoHost (VStr "abc") (Some percentageOnly) = VStr "abc"
  /\ @Format.toFormattedValue demoHost (VStr "3") (Some percentageOnly) = VStr "3"
  /\ @Format.toFormattedValue demoHost (VNum 3%float) None = VNum 3%float.
Proof.
  split; [|split].
  - destruct (@toFormattedValue_falls_back demoHost (VStr "abc")
                (Some percentageOnly) eq_refl) as [_ Hstring].
    apply (Hstring "abc" percentageOnly PERCENTAGE eq_refl eq_refl eq_refl).
    + discriminate.
    + right. reflexivity.
  - destruct (@toFormattedValue_falls_back demoHost (VStr "3")
                (Some percentageOnly) eq_refl) as [Hconfig _].
    apply Hconfig. simpl. right. reflexivity.
  - destruct (@toFormattedValue_falls_back demoHost (VNum 3%float) None eq_refl)
      as [Hconfig _].
    apply Hconfig. exact I.
Defined.

(** ** Axis-label overflow *)

Lemma js_and_true_iff (a b : Val) :
  js_and a b = VBool true <-> to_boolean a = true /\ b = VBool true.
Proof.
  unfold js_and. destruct (to_boolean a) eqn:Ha.
  - intuition.
  - split.
    + intros ->. simpl in Ha. discriminate.
    + intros [? _]. discriminate.
Qed.

Lemma strict_eq_str_false (v : Val) (s : string) :
  strict_eq v (VStr s) = false <-> v <> VStr s.
Proof.
  destruct v; simpl; try (split; [discriminate | reflexivity]).
  destruct (String.eqb s0 s) eqn:E.
  - apply String.eqb_eq in E. subst. split; [discriminate | congruence].
  - apply String.eqb_neq in E. split; [congruence | reflexivity].
Qed.

Lemma strict_eq_null_false (v : Val) :
  strict_eq v VNull = false <-> v <> VNull.
Proof.
  destruct v; simpl; try (split; [discriminate | reflexivity]).
  split; [discriminate | congruence].
Qed.

Lemma getIntervalShow_true (interval : Val) :
  Axis.getIntervalShow interval = true
  <-> interval <> VStr "auto" /\ interval <> VNull.
Proof.
  unfold Axis.getIntervalShow.
  rewrite andb_true_iff, !negb_true_iff.
  rewrite strict_eq_str_false, strict_eq_null_false. reflexivity.
Qed.

Lemma hadAxisLabelOverflowConfig_label options horizon :
  Axis.hadAxisLabelOverflowConfig options horizon
  = match firstAxisLabel options horizon with
    | None => VBool false
    | Some label =>
        js_and (js_and (Axis.show label) (Axis.overflow label))
               (VBool (Axis.getIntervalShow (Axis.interval label)))
    end.
Proof.
  unfold Axis.hadAxisLabelOverflowConfig, firstAxisLabel.
  destruct options as [opts|]; [|reflexivity].
  destruct horizon; simpl.
  - destruct (Axis.yAxis opts) as [[|first rest]|]; reflexivity.
  - destruct (Axis.xAxis opts) as [[|first rest]|]; reflexivity.
Qed.

(** C8: [hadAxisLabelOverflowConfig(options, horizon)] is [true] exactly
    when the axis label of the first x axis (of the first y axis when
    [horizon]) exists, its [show] and [overflow] are truthy and its
    [interval] is neither ['auto'] nor [null]; it is [false] when the options
    or that axis label are absent. *)
Theorem hadAxisLabelOverflowConfig_true_iff :
  forall (options : option Axis.ECBasicOption) (horizon : bool),
    (Axis.hadAxisLabelOverflowConfig options horizon = VBool true
     <-> exists label,
           firstAxisLabel options horizon = Some label
           /\ to_boolean (Axis.show label) = true
           /\ to_boolean (Axis.overflow label) = true
           /\ Axis.interval label <> VStr "auto"
           /\ Axis.interval label <> VNull)
    /\ (options = None ->
        Axis.hadAxisLabelOverflowConfig options horizon = VBool false)
    /\ (firstAxisLabel options horizon = None ->
        Axis.hadAxisLabelOverflowConfig options horizon = VBool false).
Proof.
  intros options horizon. rewrite hadAxisLabelOverflowConfig_label.
  split; [|split].
  - destruct (firstAxisLabel options horizon) as [label|].
    + rewrite js_and_true_iff. split.
      * intros [Hso Hint].
        unfold js_and in Hso.
        destruct (to_boolean (Axis.show label)) eqn:Hshow;
          [|rewrite Hshow in Hso; discriminate].
        injection Hint as Hint. apply getIntervalShow_true in Hint.
        exists label. tauto.
      * intros (l & Hl & Hshow & Hover & Hauto & Hnull).
        injection Hl as <-. split.
        -- unfold js_and. rewrite Hshow. exact Hover.
        -- f_equal. apply getIntervalShow_true. tauto.
    + split; [discriminate|]. intros (l & Hl & _). discriminate.
  - intros ->. reflexivity.
  - intros ->. reflexivity.
Qed.

Lemma hadAxisLabelOverflowConfig_witness :
  Axis.hadAxisLabelOverflowConfig (Some overflowOptions) false = VBool true
  /\ Axis.hadAxisLabelOverflowConfig None false = VBool false.
Proof.
  split.
  - apply (hadAxisLabelOverflowConfig_true_iff (Some overflowOptions) false).
    exists overflowLabel. repeat split; try reflexivity; discriminate.
  - apply (hadAxisLabelOverflowConfig_true_iff None false). reflexivity.
Defined.

(** ** Divisors *)

Section DivisorProperties.
Context `{Host}.

Lemma scatterDistance_not_zero (max min : float) :
  PrimFloat.eqb (Axis.scatterDistance max min) 0%float = false.
Proof.
  unfold Axis.scatterDistance. cbv zeta.
  destruct (PrimFloat.eqb (PrimFloat.sub max (Axis.scatterMin min)) 0%float) eqn:E.
  - reflexivity.
  - exact E.
Qed.

Lemma realUnit_not_zero (config : FormatEntry) :
  PrimFloat.eqb (Format.realUnit config) 0%float = false.
Proof.
  unfold Format.realUnit.
  destruct (Format.unitDescription (unitKey config)) as [[u name]|]; [|reflexivity].
  destruct (num_truthy u) eqn:E; [|reflexivity].
  unfold num_truthy in E. apply negb_true_iff, orb_false_iff in E. tauto.
Qed.

Lemma realUnit_one (config : FormatEntry) :
  no_usable_unit config -> Format.realUnit config = 1%float.
Proof.
  unfold Format.realUnit. intros [-> | (u & name & -> & ->)]; reflexivity.
Qed.

(** C5, amended: no helper divides by zero.  With the lower bound first
    brought down to [Math.min(0, min)], the symbol-size function divides by
    [100] when [max] less that bound is [0] and by the difference otherwise,
    and its divisor is never zero; [unitFormater] and [currencyFormater]
    divide by [realUnit], which is [1] when the unit lookup yields no unit or
    a falsy one and is never zero. *)
Theorem divisors_never_zero :
  forall (valueIndex : nat) (max min : float) (cycleRatio : option float)
         (val : option (list float)) (config : FormatEntry) (value : Val),
    (PrimFloat.eqb (PrimFloat.sub max (min2 0%float min)) 0%float = true ->
     Axis.scatterDistance max min = 100%float)
    /\ (PrimFloat.eqb (PrimFloat.sub max (min2 0%float min)) 0%float = false ->
        Axis.scatterDistance max min = PrimFloat.sub max (min2 0%float min))
    /\ PrimFloat.eqb (Axis.scatterDistance max min) 0%float = false
    /\ (exists numerator scale,
          Axis.getScatterSymbolSizeFn valueIndex max min cycleRatio val
          = max2 3%float
              (PrimFloat.mul
                 (PrimFloat.mul
                    (PrimFloat.mul
                       (PrimFloat.div numerator (Axis.scatterDistance max min))
                       scale)
                    10%float)
                 2%float))
    /\ (no_usable_unit config -> Format.realUnit config = 1%float)
    /\ PrimFloat.eqb (Format.realUnit config) 0%float = false
    /\ (Format.unitFormater value config = value
        \/ Format.unitFormater value config
           = VNum (PrimFloat.div (to_number value) (Format.realUnit config)))
    /\ (Format.currencyFormater value config = value
        \/ exists cur,
             Format.currencyFormater value config
             = VStr (IntlCurrencyFormat cur (decimalPlaces config)
                       (useThousandSeparator config)
                       (PrimFloat.div (to_number value) (Format.realUnit config))
                     ++ " " ++ to_string (Format.unitName config))).
Proof.
  intros valueIndex max min cycleRatio val config value.
  repeat split.
  - intros E. unfold Axis.scatterDistance, Axis.scatterMin. cbv zeta.
    rewrite E. reflexivity.
  - intros E. unfold Axis.scatterDistance, Axis.scatterMin. cbv zeta.
    rewrite E. reflexivity.
  - apply scatterDistance_not_zero.
  - unfold Axis.getScatterSymbolSizeFn. cbv zeta. eauto.
  - apply realUnit_one.
  - apply realUnit_not_zero.
  - unfold Format.unitFormater.
    destruct (isEmpty (unitKey config)); [left; reflexivity|].
    destruct (PrimFloat.is_nan (to_number value)); [left|right]; reflexivity.
  - unfold Format.currencyFormater.
    destruct (PrimFloat.is_nan (to_number value)); [left; reflexivity|].
    right. eauto.
Qed.
End DivisorProperties.

(** As the specification words it the property fails when [max] and [min]
    are equal and positive:
    their difference is [0], yet the divisor is [max - 0] and not [100]. *)
Lemma scatterDistance_equal_bounds :
  PrimFloat.eqb (PrimFloat.sub 5%float 5%float) 0%float = true
  /\ Axis.scatterDistance 5%float 5%float = 5%float
  /\ PrimFloat.eqb (Axis.scatterDistance 5%float 5%float) 100%float = false.
Proof. repeat split. Qed.

Lemma divisors_never_zero_witness :
  Axis.scatterDistance 0%float 0%float = 100%float
  /\ Axis.scatterDistance 7%float 2%float = 7%float
  /\ @Format.realUnit demoHost brokenUnitEntry = 1%float.
Proof.
  destruct (@divisors_never_zero demoHost 0%nat 0%float 0%float None None
              brokenUnitEntry (VStr "3"))
    as (Hzero & _ & _ & _ & Hunit & _).
  destruct (@divisors_never_zero demoHost 0%nat 7%float 2%float None None
              brokenUnitEntry (VStr "3"))
    as (_ & Hdiff & _).
  split; [apply Hzero; reflexivity|].
  split; [rewrite Hdiff; reflexivity|].
  apply Hunit. right. exists 0%float, "?"%string. split; reflexivity.
Defined.

(** ** Mark lines *)

Section MarkLineProperties.
Context `{Host}.

Lemma derivedAxisValue_constant constantValue metricDatas :
  Mark.derivedAxisValue (VStr "constant") constantValue metricDatas = constantValue.
Proof. reflexivity. Qed.

Lemma derivedAxisValue_average constantValue metricDatas :
  Mark.derivedAxisValue (VStr "average") constantValue metricDatas
  = VNum (meanValue metricDatas).
Proof. reflexivity. Qed.

Lemma derivedAxisValue_max constantValue metricDatas :
  Mark.derivedAxisValue (VStr "max") constantValue metricDatas
  = VNum (Math_max metricDatas).
Proof. reflexivity. Qed.

Lemma derivedAxisValue_min constantValue metricDatas :
  Mark.derivedAxisValue (VStr "min") constantValue metricDatas
  = VNum (Math_min metricDatas).
Proof. reflexivity. Qed.

Ltac mark_line_by_flag Hen :=
  cbv zeta; rewrite Hen; simpl negb; cbv iota.

(** What the two helpers yield, by the enabling flag. *)
Lemma getMarkLineData_enabled mark dataColumns vk ck mk dataConfig h :
  to_boolean (Config.getSettingValue (Config.rows mark) "enableMarkLine" "value")
  = true ->
  exists e,
    Mark.getMarkLineData mark dataColumns vk ck mk dataConfig h = Some e
    /\ Mark.lineAxis e = Mark.valueKey h
    /\ Mark.lineAxisValue e
       = Mark.derivedAxisValue
           (Config.getSettingValue (Config.rows mark) vk "value")
           (Config.getSettingValue (Config.rows mark) ck "value")
           (Mark.metricDatasOfColumns dataColumns dataConfig
              (Config.getSettingValue (Config.rows mark) mk "value")).
Proof.
  intros Hen. unfold Mark.getMarkLineData. mark_line_by_flag Hen.
  eexists. split; [reflexivity|]. split; reflexivity.
Qed.

Lemma getMarkLineData2_enabled mark dataSetRows vk ck mk dataConfig h :
  to_boolean (Config.getSettingValue (Config.rows mark) "enableMarkLine" "value")
  = true ->
  exists e,
    Mark.getMarkLineData2 mark dataSetRows vk ck mk dataConfig h = Some e
    /\ Mark.lineAxis e = Mark.valueKey h
    /\ Mark.lineAxisValue e
       = Mark.derivedAxisValue
           (Config.getSettingValue (Config.rows mark) vk "value")
           (Config.getSettingValue (Config.rows mark) ck "value")
           (Mark.metricDatasOfRows dataSetRows dataConfig
              (Config.getSettingValue (Config.rows mark) mk "value")).
Proof.
  intros Hen. unfold Mark.getMarkLineData2. mark_line_by_flag Hen.
  eexists. split; [reflexivity|]. split; reflexivity.
Qed.

Lemma getMarkLineData_disabled mark dataColumns vk ck mk dataConfig h :
  to_boolean (Config.getSettingValue (Config.rows mark) "enableMarkLine" "value")
  = false ->
  Mark.getMarkLineData mark dataColumns vk ck mk dataConfig h = None.
Proof.
  intros Hen. unfold Mark.getMarkLineData. mark_line_by_flag Hen. reflexivity.
Qed.

Lemma getMarkLineData2_disabled mark dataSetRows vk ck mk dataConfig h :
  to_boolean (Config.getSettingValue (Config.rows mark) "enableMarkLine" "value")
  = false ->
  Mark.getMarkLineData2 mark dataSetRows vk ck mk dataConfig h = None.
Proof.
  intros Hen. unfold Mark.getMarkLineData2. mark_line_by_flag Hen. reflexivity.
Qed.

(** C2: for a mark-line configuration, both [getMarkLineData] and
    [getMarkLineData2] produce an entry exactly when [enableMarkLine] is set;
    the entry carries its value under ['xAxis'] for a horizontal display and
    under ['yAxis'] otherwise; the value is the configured constant for value
    type ['constant'], and for ['average'], ['max'], ['min'] the average,
    maximum, minimum of the numeric values of the metric column, which are
    taken from the bound data config when its uid is the metric uid of the
    mark. *)
Theorem markLine_derived_value :
  forall (mark : ChartStyleConfig) (dataColumns : list Mark.DataColumn)
         (dataSetRows : list IChartDataSetRow)
         (valueTypeKey constantValueKey metricKey : string)
         (dataConfig : ChartDataSectionField) (isHorizonDisplay : bool),
    let setting := fun k => Config.getSettingValue (Config.rows mark) k "value" in
    let line := Mark.getMarkLineData mark dataColumns valueTypeKey
                  constantValueKey metricKey dataConfig isHorizonDisplay in
    let line2 := Mark.getMarkLineData2 mark dataSetRows valueTypeKey
                   constantValueKey metricKey dataConfig isHorizonDisplay in
    let column := Mark.getValueByColumnKey (Some dataConfig) in
    let values :=
      if Mark.uid_matches dataConfig (setting metricKey)
      then map (fun d => to_number (assoc column d)) dataColumns else [] in
    let values2 :=
      if Mark.uid_matches dataConfig (setting metricKey)
      then map (fun d => to_number (getCell d dataConfig)) dataSetRows else [] in
    (to_boolean (setting "enableMarkLine") = false ->
     line = None /\ line2 = None)
    /\ (to_boolean (setting "enableMarkLine") = true ->
        exists e e2,
          line = Some e /\ line2 = Some e2
          /\ Mark.lineAxis e = (if isHorizonDisplay then "xAxis" else "yAxis")
          /\ Mark.lineAxis e2 = (if isHorizonDisplay then "xAxis" else "yAxis")
          /\ (setting valueTypeKey = VStr "constant" ->
              Mark.lineAxisValue e = setting constantValueKey
              /\ Mark.lineAxisValue e2 = setting constantValueKey)
          /\ (setting valueTypeKey = VStr "average" ->
              Mark.lineAxisValue e = VNum (meanValue values)
              /\ Mark.lineAxisValue e2 = VNum (meanValue values2))
          /\ (setting valueTypeKey = VStr "max" ->
              Mark.lineAxisValue e = VNum (Math_max values)
              /\ Mark.lineAxisValue e2 = VNum (Math_max values2))
          /\ (setting valueTypeKey = VStr "min" ->
              Mark.lineAxisValue e = VNum (Math_min values)
              /\ Mark.lineAxisValue e2 = VNum (Math_min values2)))
    /\ (forall (refTabs : list ChartStyleConfig) (data : list Mark.MarkLineData)
               (entry : Mark.MarkLineData),
          Mark.getMarkLine2 (Some refTabs) dataSetRows dataConfig isHorizonDisplay
            = Normal (Some data) ->
          In entry data ->
          exists ml,
            Mark.getMarkLineData2 ml dataSetRows "valueType" "constantValue"
              "metric" dataConfig isHorizonDisplay = Some entry
            /\ to_boolean
                 (Config.getSettingValue (Config.rows ml) "enableMarkLine" "value")
               = true).
Proof.
  intros mark dataColumns dataSetRows valueTypeKey constantValueKey metricKey
         dataConfig isHorizonDisplay setting line line2 column values values2.
  split; [|split].
  - intros Hen. split;
      [apply getMarkLineData_disabled | apply getMarkLineData2_disabled];
      exact Hen.
  - intros Hen.
    destruct (getMarkLineData_enabled mark dataColumns valueTypeKey
                constantValueKey metricKey dataConfig isHorizonDisplay Hen)
      as (e & He & Haxis & Hval).
    destruct (getMarkLineData2_enabled mark dataSetRows valueTypeKey
                constantValueKey metricKey dataConfig isHorizonDisplay Hen)
      as (e2 & He2 & Haxis2 & Hval2).
    exists e, e2.
    split; [exact He|]. split; [exact He2|].
    split; [exact Haxis|]. split; [exact Haxis2|].
    fold (setting valueTypeKey) in Hval, Hval2.
    fold (setting constantValueKey) in Hval, Hval2.
    rewrite Hval, Hval2.
    split; [|split; [|split]]; intros ->; split; reflexivity.
  - intros refTabs data entry Hrun Hin. unfold Mark.getMarkLine2 in Hrun.
    destruct (Mark.collectByPush "markLine" refTabs []) as [marks|];
      simpl in Hrun; [|discriminate].
    injection Hrun as <-.
    apply list_elem_of_In, list_elem_of_omap in Hin as (ml & _ & Hml).
    exists ml. split; [exact Hml|].
    destruct (to_boolean
                (Config.getSettingValue (Config.rows ml) "enableMarkLine" "value"))
      eqn:Hen; [reflexivity|].
    rewrite (getMarkLineData2_disabled ml dataSetRows "valueType" "constantValue"
               "metric" dataConfig isHorizonDisplay Hen) in Hml.
    discriminate.
Qed.
End MarkLineProperties.

Lemma markLine_derived_value_witness :
  exists e2,
    @Mark.getMarkLineData2 demoHost maxMarkLine twoRows "valueType"
      "constantValue" "metric" metricField false = Some e2
    /\ Mark.lineAxis e2 = "yAxis"
    /\ Mark.lineAxisValue e2 = VNum 3%float.
Proof.
  destruct (@markLine_derived_value demoHost maxMarkLine twoColumns twoRows
              "valueType" "constantValue" "metric" metricField false)
    as (_ & Henabled & _).
  destruct (Henabled eq_refl)
    as (e & e2 & _ & He2 & _ & Haxis2 & _ & _ & Hmax & _).
  exists e2. split; [exact He2|]. split; [exact Haxis2|].
  destruct (Hmax eq_refl) as [_ Hv2]. rewrite Hv2. reflexivity.
Defined.

(** ** Mark areas *)

Lemma mapM_Normal {A B} (f : A -> Completion B) (l : list A) (ys : list B) :
  mapM f l = Normal ys <-> Forall2 (fun x y => f x = Normal y) l ys.
Proof.
  revert ys. induction l as [|x l IH]; intros ys; simpl.
  - split.
    + intros [= <-]. constructor.
    + intros Hall. inversion Hall. reflexivity.
  - split.
    + destruct (f x) as [y|] eqn:Hfx; simpl; [|discriminate].
      destruct (mapM f l) as [ys'|] eqn:Hm; simpl; [|discriminate].
      intros [= <-]. constructor; [exact Hfx|]. apply IH. reflexivity.
    + intros Hall. inversion Hall as [|x' y l' ys' Hfx Hrest]; subst.
      rewrite Hfx. simpl. apply IH in Hrest. rewrite Hrest. reflexivity.
Qed.

Section MarkAreaProperties.
Context `{Host}.

Lemma getMarkAreaData2_no_point mark dataSetRows vk ck mk dataConfig h :
  to_boolean (Config.getSettingValue (Config.rows mark) "enableMarkArea" "value")
    = false
  \/ Number_isFinite (boundaryAxisValue mark dataSetRows vk ck mk dataConfig) = false
  \/ Number_isNaN (boundaryAxisValue mark dataSetRows vk ck mk dataConfig) = true ->
  Mark.getMarkAreaData2 (Some mark) dataSetRows vk ck mk dataConfig h = Normal None.
Proof.
  intros Hcase. unfold Mark.getMarkAreaData2. cbv zeta.
  fold (boundaryAxisValue mark dataSetRows vk ck mk dataConfig).
  destruct Hcase as [-> | [-> | ->]]; simpl; try reflexivity.
  - rewrite orb_true_r. reflexivity.
  - rewrite orb_true_r. reflexivity.
Qed.

Lemma getMarkAreaData2_point mark dataSetRows vk ck mk dataConfig h p :
  Mark.getMarkAreaData2 mark dataSetRows vk ck mk dataConfig h = Normal (Some p) ->
  exists m,
    mark = Some m
    /\ to_boolean (Config.getSettingValue (Config.rows m) "enableMarkArea" "value")
       = true
    /\ Number_isFinite (boundaryAxisValue m dataSetRows vk ck mk dataConfig) = true
    /\ Mark.areaAxisValue p = boundaryAxisValue m dataSetRows vk ck mk dataConfig.
Proof.
  destruct mark as [m|]; [|discriminate].
  unfold Mark.getMarkAreaData2. cbv zeta.
  fold (boundaryAxisValue m dataSetRows vk ck mk dataConfig).
  destruct (to_boolean (Config.getSettingValue (Config.rows m) "enableMarkArea" "value"))
    eqn:Hen; simpl; [|discriminate].
  destruct (Number_isFinite (boundaryAxisValue m dataSetRows vk ck mk dataConfig))
    eqn:Hfin; simpl; [|discriminate].
  destruct (Number_isNaN (boundaryAxisValue m dataSetRows vk ck mk dataConfig));
    [discriminate|].
  destruct (member _ "color") as [c|]; simpl; [|discriminate].
  destruct (member _ "width") as [w|]; simpl; [|discriminate].
  destruct (member _ "type") as [t|]; simpl; [|discriminate].
  intros [= <-]. exists m. repeat split; assumption.
Qed.

Lemma boundaryPoints_unfold mark dataSetRows dataConfig h :
  Mark.boundaryPoints mark dataSetRows dataConfig h
  = bind (boundaryPoint "start" mark dataSetRows dataConfig h) (fun ps =>
    bind (boundaryPoint "end" mark dataSetRows dataConfig h) (fun pe =>
      Normal (omap id [ps; pe]))).
Proof.
  unfold Mark.boundaryPoints, boundaryPoint. cbn [mapM].
  destruct (Mark.getMarkAreaData2 mark dataSetRows ("start" ++ "ValueType") _ _ _ _);
    [|reflexivity].
  cbn [bind].
  destruct (Mark.getMarkAreaData2 mark dataSetRows ("end" ++ "ValueType") _ _ _ _);
    reflexivity.
Qed.

(** The boundary list of a mark has two entries exactly when both of its
    points are produced. *)
Lemma boundaryPoints_two mark dataSetRows dataConfig h pts :
  Mark.boundaryPoints mark dataSetRows dataConfig h = Normal pts ->
  (length pts = 2%nat
   <-> exists s e,
         boundaryPoint "start" mark dataSetRows dataConfig h = Normal (Some s)
         /\ boundaryPoint "end" mark dataSetRows dataConfig h = Normal (Some e)
         /\ pts = [s; e]).
Proof.
  rewrite boundaryPoints_unfold.
  destruct (boundaryPoint "start" mark dataSetRows dataConfig h)
    as [ps|]; cbn [bind]; [|discriminate].
  destruct (boundaryPoint "end" mark dataSetRows dataConfig h)
    as [pe|]; cbn [bind]; [|discriminate].
  intros [= <-].
  destruct ps as [s|], pe as [e|]; simpl; split;
    try (intros Hlen; discriminate Hlen);
    try (intros (s' & e' & Hs & He & _); discriminate).
  - intros _. exists s, e. auto.
  - reflexivity.
Qed.

(** C10: [getMarkAreaData2] returns no boundary point when [enableMarkArea]
    is falsy or the derived axis value is [NaN] or not finite; and an area in
    the data of [getMarkArea2] is the pair of the ['start'] and ['end'] points
    of one of the marks, both produced, while a mark with both points has its
    area in the data: the areas kept are those of exactly two entries. *)
Theorem markArea_needs_both_points :
  forall (dataSetRows : list IChartDataSetRow)
         (dataConfig : ChartDataSectionField) (isHorizonDisplay : bool),
    (forall mark vk ck mk,
        to_boolean (Config.getSettingValue (Config.rows mark) "enableMarkArea" "value")
          = false
        \/ Number_isFinite (boundaryAxisValue mark dataSetRows vk ck mk dataConfig)
           = false
        \/ Number_isNaN (boundaryAxisValue mark dataSetRows vk ck mk dataConfig)
           = true ->
        Mark.getMarkAreaData2 (Some mark) dataSetRows vk ck mk dataConfig
          isHorizonDisplay = Normal None)
    /\ (forall (tabs : list ChartStyleConfig)
               (areas : list (list Mark.MarkAreaData)),
          Mark.getMarkArea2 (Some tabs) dataSetRows dataConfig isHorizonDisplay
            = Normal (Some areas) ->
          (forall area,
              In area areas ->
              length area = 2%nat
              /\ exists mark s e,
                   In mark (Mark.collectByConcat "markArea" tabs)
                   /\ boundaryPoint "start" mark dataSetRows dataConfig
                        isHorizonDisplay = Normal (Some s)
                   /\ boundaryPoint "end" mark dataSetRows dataConfig
                        isHorizonDisplay = Normal (Some e)
                   /\ area = [s; e])
          /\ (forall mark s e,
                In mark (Mark.collectByConcat "markArea" tabs) ->
                boundaryPoint "start" mark dataSetRows dataConfig isHorizonDisplay
                  = Normal (Some s) ->
                boundaryPoint "end" mark dataSetRows dataConfig isHorizonDisplay
                  = Normal (Some e) ->
                In [s; e] areas)).
Proof.
  intros dataSetRows dataConfig h.
  split; [intros; apply getMarkAreaData2_no_point; assumption|].
  intros tabs areas Hrun.
  unfold Mark.getMarkArea2 in Hrun.
  destruct (mapM _ (Mark.collectByConcat "markArea" tabs)) as [all|] eqn:Hall;
    simpl in Hrun; [|discriminate].
  injection Hrun as <-.
  apply mapM_Normal in Hall.
  split.
  - intros area Hin. apply filter_In in Hin as [Hin Hlen].
    apply Nat.eqb_eq in Hlen. split; [exact Hlen|].
    induction Hall as [|mark pts marks all' Hpts Hrest IH]; [contradiction|].
    destruct Hin as [-> | Hin].
    + apply (boundaryPoints_two _ _ _ _ _ Hpts) in Hlen
        as (s & e & Hs & He & ->).
      exists mark, s, e. simpl. auto.
    + destruct (IH Hin) as (m & s & e & Hm & Hs & He & ->).
      exists m, s, e. simpl. auto.
  - intros mark s e Hin Hs He. apply filter_In.
    induction Hall as [|mark' pts marks all' Hpts Hrest IH]; [contradiction|].
    destruct Hin as [-> | Hin].
    + rewrite boundaryPoints_unfold, Hs, He in Hpts. simpl in Hpts.
      injection Hpts as <-. split; [left; reflexivity | reflexivity].
    + destruct (IH Hin) as [Hin' Hlen]. split; [right; exact Hin' | exact Hlen].
Qed.
End MarkAreaProperties.

Lemma markArea_needs_both_points_witness :
  (exists s e,
     @Mark.getMarkArea2 demoHost (Some referenceTabs) twoRows metricField false
     = Normal (Some [[s; e]])
     /\ Mark.areaAxisValue s = VNum 1%float
     /\ Mark.areaAxisValue e = VNum 3%float)
  /\ @Mark.getMarkAreaData2 demoHost (Some disabledMarkArea) twoRows
       "startValueType" "startConstantValue" "startMetric" metricField false
     = Normal None.
Proof.
  destruct (@markArea_needs_both_points demoHost twoRows metricField false)
    as [Hnone Hareas].
  split.
  - destruct (Hareas referenceTabs _ eq_refl) as [Hin _].
    destruct (Hin _ (or_introl eq_refl)) as (_ & mark & s & e & _ & _ & _ & Heq).
    injection Heq as <- <-.
    eexists. eexists. split; [reflexivity|]. split; reflexivity.
  - apply Hnone. left. reflexivity.
Defined.

(** ** Tooltips *)

Lemma join_concat sep parts : join sep parts = String.concat sep parts.
Proof.
  induction parts as [|p rest IH]; [reflexivity|].
  destruct rest as [|q rest]; [reflexivity|].
  simpl in *. rewrite IH. reflexivity.
Qed.

Section TooltipProperties.
Context `{Host}.

(** C6: for a tooltip parameter of component type ['series'] the result of
    [getSeriesTooltips4Rectangular2] is the lines of the configured fields
    joined by ['<br />'], the fields taken in the order group, color, the
    aggregate fields whose render name is the hovered data or series name,
    size, info, each line as [valueFormatter] writes it; for any other
    parameter the result is the empty string. *)
Theorem tooltip_lines_in_order :
  forall (chartDataSet : IChartDataSet)
         (tooltipParam : option Tooltip.TooltipParam)
         (groupConfigs colorConfigs : option (list ChartDataSectionField))
         (aggConfigs : list ChartDataSectionField)
         (infoConfigs sizeConfigs : option (list ChartDataSectionField)),
    let result :=
      Tooltip.getSeriesTooltips4Rectangular2 chartDataSet tooltipParam
        groupConfigs colorConfigs aggConfigs infoConfigs sizeConfigs in
    (forall p,
        tooltipParam = Some p ->
        Tooltip.componentType p = Some "series" ->
        let hovered :=
          Tooltip.str_or
            (match Tooltip.data p with
             | Some d => Tooltip.dataName d
             | None => None
             end)
            (Tooltip.seriesName p) in
        let row :=
          match Tooltip.data p with
          | Some d => Config.or_empty (Tooltip.rowData d)
          | None => []
          end in
        result
        = String.concat "<br />"
            (map (tooltipLine chartDataSet row)
                 (Config.or_empty groupConfigs
                  ++ Config.or_empty colorConfigs
                  ++ List.filter
                       (fun agg =>
                          match hovered with
                          | Some n =>
                              String.eqb (Tooltip.getColumnRenderName (Some agg)) n
                          | None => false
                          end) aggConfigs
                  ++ Config.or_empty sizeConfigs
                  ++ Config.or_empty infoConfigs)))
    /\ ((tooltipParam = None
         \/ exists p, tooltipParam = Some p
                      /\ Tooltip.componentType p <> Some "series") ->
        result = EmptyString)
    /\ (forall config value,
          Tooltip.valueFormatter (Some config) value
          = (Tooltip.getColumnRenderName (Some config) ++ ": "
             ++ to_string (Format.toFormattedValue value (format config)))%string).
Proof.
  intros chartDataSet tooltipParam groupConfigs colorConfigs aggConfigs
         infoConfigs sizeConfigs result.
  split; [|split].
  - intros p -> Hseries hovered row.
    unfold result, Tooltip.getSeriesTooltips4Rectangular2.
    unfold Tooltip.not_series. rewrite Hseries. simpl negb. cbv iota.
    rewrite join_concat. f_equal.
    rewrite app_nil_l, <- !app_assoc. reflexivity.
  - intros Hother. unfold result, Tooltip.getSeriesTooltips4Rectangular2.
    destruct Hother as [-> | (p & -> & Hp)]; [reflexivity|].
    unfold Tooltip.not_series.
    destruct (Tooltip.componentType p) as [t|]; [|reflexivity].
    destruct (String.eqb t "series") eqn:E; [|reflexivity].
    apply String.eqb_eq in E. subst t. congruence.
  - reflexivity.
Qed.
End TooltipProperties.

Lemma tooltip_lines_in_order_witness :
  @Tooltip.getSeriesTooltips4Rectangular2 demoHost byColName (Some hoveredBar)
    (Some [plainField "g" "city"]) None
    [ {| uid := Some "a"; colName := Some "amount"; category := None;
         fieldType := None; aggregate := Some "SUM"; aliasName := None;
         format := None; sort := None |};
      {| uid := Some "b"; colName := Some "cost"; category := None;
         fieldType := None; aggregate := Some "SUM"; aliasName := None;
         format := None; sort := None |} ]
    None None
  = "city: Oslo<br />SUM(amount): 3"
  /\ @Tooltip.getSeriesTooltips4Rectangular2 demoHost byColName (Some hoveredAxis)
       (Some [plainField "g" "city"]) None [] None None
     = EmptyString.
Proof.
  split.
  - match goal with
    | |- @Tooltip.getSeriesTooltips4Rectangular2 _ ?ds ?p ?g ?c ?a ?i ?s = _ =>
        destruct (@tooltip_lines_in_order demoHost ds p g c a i s) as [Hseries _]
    end.
    rewrite (Hseries hoveredBar eq_refl eq_refl). reflexivity.
  - match goal with
    | |- @Tooltip.getSeriesTooltips4Rectangular2 _ ?ds ?p ?g ?c ?a ?i ?s = _ =>
        destruct (@tooltip_lines_in_order demoHost ds p g c a i s) as (_ & Hother & _)
    end.
    apply Hother. right. exists hoveredAxis. split; [reflexivity | discriminate].
Defined.

(** ** Arrays updated in place *)

Section ArrayFacts.
Context {A : Type} (undef : A).

Lemma arr_get_app (pre l : list A) (i : nat) :
  arr_get undef (pre ++ l) (length pre + i) = arr_get undef l i.
Proof.
  unfold arr_get. rewrite lookup_app_r by lia.
  replace (length pre + i - length pre)%nat with i by lia. reflexivity.
Qed.

Lemma arr_set_app (pre l : list A) (i : nat) (v : A) :
  (i < length l)%nat ->
  arr_set undef (pre ++ l) (length pre + i) v = pre ++ arr_set undef l i v.
Proof.
  intros Hi. unfold arr_set.
  destruct (decide (length pre + i < length (pre ++ l))%nat) as [_|Hn];
    [|rewrite length_app in Hn; lia].
  destruct (decide (i < length l)%nat) as [_|Hn]; [|lia].
  rewrite insert_app_r. reflexivity.
Qed.

Lemma arr_set_length (l : list A) (i : nat) (v : A) :
  (i < length l)%nat -> length (arr_set undef l i v) = length l.
Proof.
  intros Hi. unfold arr_set. destruct (decide (i < length l)%nat); [|lia].
  apply length_insert.
Qed.

Lemma swap_app (pre l : list A) (i j : nat) :
  (i < length l)%nat -> (j < length l)%nat ->
  Sorting.swap undef (pre ++ l) (length pre + i) (length pre + j)
  = pre ++ Sorting.swap undef l i j.
Proof.
  intros Hi Hj. unfold Sorting.swap. cbv zeta.
  rewrite !arr_get_app, arr_set_app by exact Hi.
  rewrite arr_set_app by (rewrite arr_set_length; assumption).
  reflexivity.
Qed.

Lemma swap_up (pre post : list A) (x y : A) :
  Sorting.swap undef (pre ++ x :: y :: post) (length pre) (S (length pre))
  = pre ++ y :: x :: post.
Proof.
  replace (length pre) with (length pre + 0)%nat at 1 by lia.
  replace (S (length pre)) with (length pre + 1)%nat by lia.
  rewrite swap_app by (simpl; lia). reflexivity.
Qed.

Lemma swap_down (pre post : list A) (x y : A) :
  Sorting.swap undef (pre ++ y :: x :: post) (S (length pre)) (length pre)
  = pre ++ x :: y :: post.
Proof.
  replace (length pre) with (length pre + 0)%nat at 2 by lia.
  replace (S (length pre)) with (length pre + 1)%nat by lia.
  rewrite swap_app by (simpl; lia). reflexivity.
Qed.

(** Bubbling upwards carries the row over the rows in between. *)
Lemma rowBubbleMove_loop_up (mid : list A) :
  forall (pre post : list A) (x : A) (fuel : nat),
    (length mid < fuel)%nat ->
    Sorting.rowBubbleMove_loop undef fuel (pre ++ x :: mid ++ post)
      (length pre) (length pre + length mid) true
    = Some (pre ++ mid ++ x :: post).
Proof.
  induction mid as [|y mid IH]; intros pre post x fuel Hfuel.
  - destruct fuel as [|fuel]; [simpl in Hfuel; lia|]. simpl.
    replace (length pre + 0)%nat with (length pre) by lia.
    rewrite Nat.eqb_refl. reflexivity.
  - destruct fuel as [|fuel]; [simpl in Hfuel; lia|].
    simpl in Hfuel. cbn [Sorting.rowBubbleMove_loop Sorting.step].
    destruct (Nat.eqb_spec (length pre) (length pre + length (y :: mid))) as [E|_];
      [simpl in E; lia|].
    change ((y :: mid) ++ post) with (y :: mid ++ post).
    rewrite swap_up.
    specialize (IH (pre ++ [y]) post x fuel ltac:(lia)).
    rewrite length_app in IH. simpl in IH.
    replace (length pre + 1)%nat with (S (length pre)) in IH by lia.
    replace (length pre + length (y :: mid))%nat
      with (S (length pre) + length mid)%nat by (simpl; lia).
    rewrite <- !app_assoc in IH. simpl in IH. exact IH.
Qed.

(** Bubbling downwards does the same in the other direction. *)
Lemma rowBubbleMove_loop_down (mid : list A) :
  forall (pre post : list A) (x : A) (fuel : nat),
    (length mid < fuel)%nat ->
    Sorting.rowBubbleMove_loop undef fuel (pre ++ mid ++ x :: post)
      (length pre + length mid) (length pre) false
    = Some (pre ++ x :: mid ++ post).
Proof.
  induction mid as [|y mid IH] using rev_ind; intros pre post x fuel Hfuel.
  - destruct fuel as [|fuel]; [simpl in Hfuel; lia|]. simpl.
    replace (length pre + 0)%nat with (length pre) by lia.
    rewrite Nat.eqb_refl. reflexivity.
  - destruct fuel as [|fuel]; [rewrite length_app in Hfuel; simpl in Hfuel; lia|].
    rewrite length_app in Hfuel. simpl in Hfuel.
    cbn [Sorting.rowBubbleMove_loop Sorting.step].
    rewrite length_app. simpl length.
    destruct (Nat.eqb_spec (length pre + (length mid + 1)) (length pre)) as [E|_];
      [lia|].
    replace (length pre + (length mid + 1))%nat
      with (S (length (pre ++ mid))) by (rewrite length_app; lia).
    cbn [Nat.pred].
    replace (pre ++ (mid ++ [y]) ++ x :: post)
      with ((pre ++ mid) ++ y :: x :: post)
      by (rewrite <- !app_assoc; reflexivity).
    rewrite swap_down.
    rewrite length_app, <- app_assoc.
    rewrite (IH pre (y :: post) x fuel) by lia.
    rewrite <- app_assoc. reflexivity.
Qed.

(** [rowBubbleMove] returns (the loop has fuel enough) and moves the row at
    [idx] to [targetIdx], the rows between sliding one place the other way
    and all others staying. *)
Lemma rowBubbleMove_up (pre mid post : list A) (x : A) :
  Sorting.rowBubbleMove undef (pre ++ x :: mid ++ post)
    (length pre) (length pre + length mid)
  = Some (pre ++ mid ++ x :: post).
Proof.
  unfold Sorting.rowBubbleMove.
  destruct mid as [|y mid].
  - simpl. replace (length pre + 0)%nat with (length pre) by lia.
    rewrite Nat.eqb_refl. reflexivity.
  - replace (length pre <? length pre + length (y :: mid))%nat with true
      by (symmetry; apply Nat.ltb_lt; simpl; lia).
    apply rowBubbleMove_loop_up. lia.
Qed.

Lemma rowBubbleMove_down (pre mid post : list A) (x : A) :
  Sorting.rowBubbleMove undef (pre ++ mid ++ x :: post)
    (length pre + length mid) (length pre)
  = Some (pre ++ x :: mid ++ post).
Proof.
  unfold Sorting.rowBubbleMove.
  replace (length pre + length mid <? length pre)%nat with false
    by (symmetry; apply Nat.ltb_ge; lia).
  apply rowBubbleMove_loop_down. lia.
Qed.
End ArrayFacts.

(** A target past the end makes the array grow. *)
Example rowBubbleMove_past_the_end :
  Sorting.rowBubbleMove VUndef [VStr "a"] 0 2 = Some [VUndef; VUndef; VStr "a"].
Proof. reflexivity. Qed.

(** ** Sorting in place *)

Section SortFacts.
Context {A : Type} (position : A -> Z).

Local Abbreviation byPosition := (fun a b : A => (position a - position b)%Z).
Local Abbreviation inOrder := (fun a b : A => (position a <= position b)%Z).

Lemma sort_insert_perm (x : A) (l : list A) :
  Permutation (sort_insert byPosition x l) (x :: l).
Proof.
  induction l as [|y l IH]; simpl; [reflexivity|].
  destruct (0 <? byPosition x y)%Z; [|reflexivity].
  rewrite IH. apply perm_swap.
Qed.

Lemma sort_perm (l : list A) : Permutation (JS.sort byPosition l) l.
Proof.
  induction l as [|x l IH]; simpl; [reflexivity|].
  rewrite sort_insert_perm. constructor. exact IH.
Qed.

Lemma sort_insert_sorted (x : A) (l : list A) :
  StronglySorted inOrder l -> StronglySorted inOrder (sort_insert byPosition x l).
Proof.
  induction l as [|y l IH]; intros Hs; simpl.
  - constructor; constructor.
  - inversion Hs as [|y' l' Hl Hy]; subst.
    destruct (Z.ltb_spec 0 (byPosition x y)) as [Hlt|Hge].
    + constructor; [apply IH; exact Hl|].
      eapply Permutation_Forall; [symmetry; apply sort_insert_perm|].
      constructor; [cbv beta in *; lia | exact Hy].
    + constructor; [exact Hs|].
      constructor; [cbv beta in *; lia|].
      eapply Forall_impl; [exact Hy|].
      intros z Hz. cbv beta in *; lia.
Qed.

Lemma sort_sorted (l : list A) : StronglySorted inOrder (JS.sort byPosition l).
Proof.
  induction l as [|x l IH]; simpl; [constructor|].
  apply sort_insert_sorted. exact IH.
Qed.

(** An array already in order is left as it is. *)
Lemma sort_of_sorted (l : list A) :
  StronglySorted inOrder l -> JS.sort byPosition l = l.
Proof.
  induction l as [|x l IH]; intros Hs; [reflexivity|].
  inversion Hs as [|x' l' Hl Hx]; subst. simpl.
  fold (JS.sort byPosition l). rewrite (IH Hl).
  destruct l as [|y l]; [reflexivity|]. simpl.
  inversion Hx as [|y' l' Hxy _]; subst.
  destruct (Z.ltb_spec 0 (byPosition x y)) as [Hlt|_]; [|reflexivity].
  cbv beta in *; lia.
Qed.
End SortFacts.




Lemma split_at_upwards {A} (l : list A) (i j : nat) :
  (i <= j)%nat -> (j < length l)%nat ->
  exists pre x mid post,
    l = pre ++ x :: mid ++ post
    /\ length pre = i /\ length mid = (j - i)%nat /\ l !! i = Some x.
Proof.
  intros Hij Hj.
  destruct (lookup_lt_is_Some_2 l i ltac:(lia)) as [x Hx].
  exists (take i l), x, (take (j - i) (drop (S i) l)), (drop (j - i) (drop (S i) l)).
  split; [|split; [|split]].
  - rewrite take_drop. symmetry. apply take_drop_middle. exact Hx.
  - rewrite length_take. lia.
  - rewrite length_take, length_drop. lia.
  - exact Hx.
Qed.

Lemma split_at_downwards {A} (l : list A) (i j : nat) :
  (j <= i)%nat -> (i < length l)%nat ->
  exists pre mid x post,
    l = pre ++ mid ++ x :: post
    /\ length pre = j /\ length mid = (i - j)%nat /\ l !! i = Some x.
Proof.
  intros Hji Hi.
  destruct (lookup_lt_is_Some_2 l i ltac:(lia)) as [x Hx].
  exists (take j (take i l)), (drop j (take i l)), x, (drop (S i) l).
  split; [|split; [|split]].
  - rewrite app_assoc, take_drop. symmetry. apply take_drop_middle. exact Hx.
  - rewrite !length_take. lia.
  - rewrite length_drop, length_take. lia.
  - exact Hx.
Qed.





(** ** The drop handler *)

Lemma findIndex_from_first {A} (p : A -> bool) (pre : list A) (r : A)
    (post : list A) (i : Z) :
  p r = true ->
  Forall (fun q => p q = false) pre ->
  findIndex_from p (pre ++ r :: post) i = (i + Z.of_nat (length pre))%Z.
Proof.
  intros Hr Hpre. revert i.
  induction Hpre as [|q pre Hq Hpre IH]; intros i; simpl.
  - rewrite Hr. lia.
  - rewrite Hq, IH. lia.
Qed.

Lemma splice_remove_one {A} (pre post : list A) (r : A) :
  splice (pre ++ r :: post) (Some (Z.of_nat (length pre))) 1 [] = pre ++ post.
Proof.
  unfold splice, splice_start.
  destruct (Z.ltb_spec (Z.of_nat (length pre)) 0) as [Hneg|_]; [lia|].
  rewrite Nat2Z.id, length_app. simpl length.
  replace (Nat.min (length pre) (length pre + S (length post))) with (length pre)
    by lia.
  rewrite take_app_length. simpl.
  replace (length pre + 1)%nat with (length (pre ++ [r]))
    by (rewrite length_app; reflexivity).
  replace (pre ++ r :: post) with ((pre ++ [r]) ++ post)
    by (rewrite <- app_assoc; reflexivity).
  rewrite drop_app_length. reflexivity.
Qed.

Lemma splice_insert_one {A} (l : list A) (index : option Z) (x : A) :
  splice l index 0 [x]
  = take (splice_start (length l) index) l
    ++ x :: drop (splice_start (length l) index) l.
Proof.
  unfold splice. cbv zeta. rewrite Nat.add_0_r. reflexivity.
Qed.

Section DropProperties.
Context `{Host}.

Lemma newColumns_length config items n :
  length (DragTarget.newColumns config items n) = length items.
Proof.
  revert n. induction items as [|val items IH]; intros n; simpl; [reflexivity|].
  rewrite IH. reflexivity.
Qed.

Lemma newColumns_lookup config items :
  forall (n i : nat) val,
    items !! i = Some val ->
    DragTarget.newColumns config items n !! i
    = Some (DragTarget.getConfigColumn config val (Some (uuidv4 (n + i)))).
Proof.
  induction items as [|v items IH]; intros n i val Hi; [discriminate|].
  destruct i as [|i]; simpl in *.
  - injection Hi as ->. rewrite Nat.add_0_r. reflexivity.
  - rewrite (IH (S n) i val Hi).
    replace (S n + i)%nat with (n + S i)%nat by lia. reflexivity.
Qed.

(** The config-column branch of [drop] when the item is among the rows. *)
Lemma drop_present config n item pre r post :
  Config.or_empty (sectionRows config) = pre ++ r :: post ->
  DragTarget.same_uid (uid r) (uid (DragTarget.itemField item)) = true ->
  Forall (fun q => DragTarget.same_uid (uid q) (uid (DragTarget.itemField item))
                   = false) pre ->
  DragTarget.drop config n item DATA_CONFIG_COLUMN
  = {| DragTarget.currentConfig :=
         with_rows config
           (Some (splice (pre ++ post) (DragTarget.itemIndex item) 0
                    [DragTarget.getConfigColumn config (DragTarget.itemField item)
                       None]));
       DragTarget.announced := Some false;
       DragTarget.needDelete := false;
       DragTarget.uuidsDrawn := n |}.
Proof.
  intros Hrows Hr Hpre. unfold DragTarget.drop. cbv zeta.
  rewrite Hrows. unfold findIndex.
  rewrite (findIndex_from_first _ pre r post 0%Z Hr Hpre).
  destruct (Z.ltb_spec (-1) (0 + Z.of_nat (length pre))) as [_|Hbad]; [|lia].
  unfold DragTarget.updateBy, DragTarget.updateByKey_rows.
  rewrite Z.add_0_l, splice_remove_one. reflexivity.
Qed.

(** What the drop handler and the delete handler do to the rows of their
    section.  Dropping dataset columns appends to the rows one new field per
    dropped item, built by [getConfigColumn] with the identifier drawn from
    [uuidv4] for it.  Dropping a config column whose uid is that of a row
    removes the first such row and inserts, at the drop index in what
    remains, the column [getConfigColumn] builds from the dropped item.
    Deleting by a non-empty uid keeps exactly the rows of another uid, in
    order; without uid, or with the empty one, it changes nothing. *)
Theorem drop_handler_updates_rows :
  forall (config : ChartDataConfig) (n : nat),
    (forall item,
        let added := DragTarget.newColumns config (DragTarget.itemsOf item) n in
        sectionRows (DragTarget.currentConfig
                       (DragTarget.drop config n item DATASET_COLUMN))
        = Some (Config.or_empty (sectionRows config) ++ added)
        /\ length added = length (DragTarget.itemsOf item)
        /\ forall i val,
             DragTarget.itemsOf item !! i = Some val ->
             exists c,
               added !! i = Some c
               /\ colName c = colName val
               /\ category c = category val
               /\ fieldType c = fieldType val
               /\ aggregate c = DragTarget.getDefaultAggregate config val
               /\ (str_nonempty (uuidv4 (n + i)) = true ->
                   uid c = Some (uuidv4 (n + i))))
    /\ (forall item pre r post,
          Config.or_empty (sectionRows config) = pre ++ r :: post ->
          DragTarget.same_uid (uid r) (uid (DragTarget.itemField item)) = true ->
          Forall (fun q => DragTarget.same_uid (uid q)
                             (uid (DragTarget.itemField item)) = false) pre ->
          let out := DragTarget.drop config n item DATA_CONFIG_COLUMN in
          let rest := pre ++ post in
          let at_ := splice_start (length rest) (DragTarget.itemIndex item) in
          let column :=
            DragTarget.getConfigColumn config (DragTarget.itemField item) None in
          sectionRows (DragTarget.currentConfig out)
          = Some (take at_ rest ++ column :: drop at_ rest)
          /\ uid column = uid (DragTarget.itemField item)
          /\ colName column = colName (DragTarget.itemField item)
          /\ category column = category (DragTarget.itemField item)
          /\ fieldType column = fieldType (DragTarget.itemField item)
          /\ aggregate column
             = DragTarget.getDefaultAggregate config (DragTarget.itemField item)
          /\ aliasName column = None /\ format column = None /\ sort column = None
          /\ DragTarget.needDelete out = false)
    /\ (forall u rows,
          str_nonempty u = true ->
          sectionRows config = Some rows ->
          exists kept,
            sectionRows (DragTarget.handleOnDeleteItem config (Some u)) = Some kept
            /\ kept = List.filter (fun c => negb (DragTarget.same_uid (uid c) (Some u)))
                        rows
            /\ forall c, In c kept <-> In c rows /\ uid c <> Some u)
    /\ DragTarget.handleOnDeleteItem config None = config
    /\ DragTarget.handleOnDeleteItem config (Some EmptyString) = config.
Proof.
  intros config n. split; [|split; [|split; [|split]]].
  - intros item added. split; [reflexivity|].
    split; [apply newColumns_length|].
    intros i val Hi. eexists. split; [apply newColumns_lookup; exact Hi|].
    simpl. repeat split. intros Hne. rewrite Hne. reflexivity.
  - intros item pre r post Hrows Hr Hpre out rest at_ column.
    unfold out. rewrite (drop_present config n item pre r post Hrows Hr Hpre).
    simpl. rewrite splice_insert_one. repeat split.
  - intros u rows Hu Hrows. eexists. split; [|split; [reflexivity|]].
    + unfold DragTarget.handleOnDeleteItem. rewrite Hu.
      unfold DragTarget.updateBy. simpl. rewrite Hrows. reflexivity.
    + intros c. rewrite filter_In, negb_true_iff.
      assert (Hiff : DragTarget.same_uid (uid c) (Some u) = false <-> uid c <> Some u).
      { destruct (uid c) as [x|]; simpl.
        - destruct (String.eqb_spec x u) as [->|Hne].
          + split; [discriminate | congruence].
          + split; [congruence | reflexivity].
        - split; [discriminate | reflexivity]. }
      rewrite Hiff. reflexivity.
  - reflexivity.
  - reflexivity.
Qed.
End DropProperties.

(** C7: the drop handler on a column dragged inside its own section.  The
    rows are [renamedField] (uid [a], renamed [Total] by the user, aggregate
    [AVG]) and a second field, and [renamedField] is dropped at index 1.
    The row that arrives at index 1 is not the row taken out at index 0: it
    is the column [getConfigColumn] builds from it, with the uid, the column
    name, the category and the type of the dragged row, the default
    aggregate of the section in place of its own, and neither alias, format
    nor sort.  On the same rows [handleDraggableItemMove], the reordering
    of the same container, moves the row itself. *)
Theorem drop_moves_a_rebuilt_row `{Host} :
  let section := aggregateSection [renamedField; plainField "b" "cost"] in
  let out :=
    DragTarget.drop section 0 (DragTarget.OneItem renamedField (Some 1%Z))
      DATA_CONFIG_COLUMN in
  (exists column,
      sectionRows (DragTarget.currentConfig out)
      = Some [plainField "b" "cost"; column]
      /\ uid column = uid renamedField
      /\ colName column = colName renamedField
      /\ category column = category renamedField
      /\ fieldType column = fieldType renamedField
      /\ aggregate column = DragTarget.getDefaultAggregate section renamedField
      /\ aliasName renamedField = Some "Total"%string
      /\ aliasName column = None
      /\ format column = None
      /\ sort column = None)
  /\ sectionRows (DragTarget.currentConfig out)
     <> Some [plainField "b" "cost"; renamedField]
  /\ DragTarget.needDelete out = false
  /\ SectionRows.handleDraggableItemMove section None 0 1
     = (aggregateSection [plainField "b" "cost"; renamedField], true).
Proof.
  intros section out.
  assert (Hout : sectionRows (DragTarget.currentConfig out)
                 = Some [plainField "b" "cost";
                         DragTarget.getConfigColumn section renamedField None]).
  { unfold out.
    rewrite (drop_present section 0 (DragTarget.OneItem renamedField (Some 1%Z))
               [] renamedField [plainField "b" "cost"]
               eq_refl eq_refl ltac:(constructor)).
    reflexivity. }
  split; [|split; [|split]].
  - eexists. split; [exact Hout|]. repeat split.
  - rewrite Hout. intros Heq.
    apply (f_equal (fun rows => match rows with
                                | Some [_; c] => aliasName c
                                | _ => None
                                end)) in Heq.
    discriminate Heq.
  - reflexivity.
  - reflexivity.
Qed.

Lemma drop_handler_updates_rows_witness :
  sectionRows (DragTarget.currentConfig
                 (@DragTarget.drop demoHost
                    (aggregateSection [renamedField; plainField "b" "cost"]) 0
                    (DragTarget.OneItem renamedField (Some 1%Z))
                    DATA_CONFIG_COLUMN))
    = Some [ plainField "b" "cost";
             {| uid := Some "a"; colName := Some "amount"; category := None;
                fieldType := Some "NUMERIC"; aggregate := Some "SUM";
                aliasName := None; format := None; sort := None |} ]
  /\ (exists kept,
        sectionRows (DragTarget.handleOnDeleteItem
                       (aggregateSection [renamedField; plainField "b" "cost"])
                       (Some "a"))
        = Some kept
        /\ kept = [plainField "b" "cost"]).
Proof.
  destruct (@drop_handler_updates_rows demoHost
              (aggregateSection [renamedField; plainField "b" "cost"]) 0%nat)
    as (_ & Hmove & Hdelete & _).
  split.
  - destruct (Hmove (DragTarget.OneItem renamedField (Some 1%Z))
                [] renamedField [plainField "b" "cost"]
                eq_refl eq_refl ltac:(constructor)) as [Hrows _].
    rewrite Hrows. reflexivity.
  - destruct (Hdelete "a" [renamedField; plainField "b" "cost"] eq_refl eq_refl)
      as (kept & Hkept & Heq & _).
    exists kept. split; [exact Hkept|]. rewrite Heq. reflexivity.
Defined.

(** * Further properties of the helpers *)

(** ** Groups of style values *)

Lemma walk_rows_shape (path : list string) :
  forall level,
    Config.walk level path "rows" = VUndef
    \/ exists r, Config.walk level path "rows" = VRows r.
Proof.
  induction path as [|k rest IH]; intros level; [left; reflexivity|].
  cbn [Config.walk].
  destruct (List.find _ level) as [node|]; [|left; reflexivity].
  destruct rest as [|k' rest'].
  - unfold Config.get. simpl.
    destruct (Config.rows node) as [r|]; [right; eauto | left; reflexivity].
  - apply IH.
Qed.

(** A walk one element further than a non-empty parent path is a lookup in
    the rows the parent path leads to. *)
Lemma walk_snoc (k targetKey : string) (parent : list string) :
  forall level,
    parent <> [] ->
    Config.walk level (parent ++ [k]) targetKey
    = match Config.walk level parent "rows" with
      | VRows r => Config.walk r [k] targetKey
      | _ => VUndef
      end.
Proof.
  induction parent as [|p rest IH]; intros level Hne; [congruence|].
  change ((p :: rest) ++ [k]) with (p :: rest ++ [k]).
  cbn [Config.walk].
  destruct (List.find _ level) as [node|]; [|reflexivity].
  destruct rest as [|r1 rest'].
  - cbn [app]. unfold Config.get. simpl String.eqb. cbv iota.
    destruct (Config.rows node) as [r|]; reflexivity.
  - change ((r1 :: rest') ++ [k]) with (r1 :: rest' ++ [k]).
    change (r1 :: rest' ++ [k]) with ((r1 :: rest') ++ [k]).
    rewrite <- IH by discriminate.
    reflexivity.
Qed.

Lemma getStyles_per_key configs parent keys :
  parent <> [] ->
  Styles.getStyles configs parent keys
  = map (fun k => Config.getValue configs (parent ++ [k]) "value") keys.
Proof.
  intros Hne. unfold Styles.getStyles. cbv zeta. rewrite getValue_walk.
  destruct (walk_rows_shape parent (Config.or_empty configs)) as [Hu | [r Hr]].
  - rewrite Hu. simpl.
    induction keys as [|k keys IH]; [reflexivity|].
    simpl. rewrite IH. f_equal.
    rewrite getValue_walk, walk_snoc, Hu by exact Hne. reflexivity.
  - rewrite Hr. simpl. apply map_ext. intros k.
    rewrite !getValue_walk, walk_snoc, Hr by exact Hne. reflexivity.
Qed.

(** X1: [getStyles] answers one value per child key, in their order, and for
    a non-empty parent path each is what [getValue] finds on the parent path
    extended by that key. *)
Theorem getStyles_is_getValue_per_key :
  forall (configs : option (list ChartStyleConfig))
         (parentKeyPaths childTargetKeys : list string),
    parentKeyPaths <> [] ->
    length (Styles.getStyles configs parentKeyPaths childTargetKeys)
      = length childTargetKeys
    /\ Styles.getStyles configs parentKeyPaths childTargetKeys
       = map (fun k => Config.getValue configs (parentKeyPaths ++ [k]) "value")
             childTargetKeys.
Proof.
  intros configs parent keys Hne.
  split; [|apply getStyles_per_key; exact Hne].
  rewrite (getStyles_per_key configs parent keys Hne). apply length_map.
Qed.

Lemma getStyles_is_getValue_per_key_witness :
  Styles.getStyles (Some exampleStyleConfigs) ["label"] ["font"; "size"; "color"]
  = [VStr "sans-serif"; VUndef; VStr "red"].
Proof.
  destruct (getStyles_is_getValue_per_key (Some exampleStyleConfigs) ["label"]
              ["font"; "size"; "color"] ltac:(discriminate)) as [_ Heq].
  rewrite Heq. reflexivity.
Defined.

Lemma split_app (sep : ascii) (a b : string) :
  split sep (a ++ String sep b)%string = split sep a ++ split sep b.
Proof.
  induction a as [|c a IH]; simpl.
  - rewrite Ascii.eqb_refl. reflexivity.
  - destruct (Ascii.eqb c sep).
    + rewrite IH. reflexivity.
    + rewrite IH. destruct (split sep a) as [|w ws] eqn:Hs.
      * exfalso. eapply split_not_nil; eauto.
      * reflexivity.
Qed.

Lemma split_without_separator (sep : ascii) (s : string) :
  Styles.has_char sep s = false -> split sep s = [s].
Proof.
  induction s as [|c s IH]; simpl; [reflexivity|].
  intros H. apply orb_false_iff in H as [Hc Hs].
  rewrite Hc, (IH Hs). reflexivity.
Qed.

(** X2: for a group path without a dot, [getStyleValueByGroup(styles, group,
    child)] is [getSettingValue] at the path ['group.child'] with target key
    ['value']. *)
Theorem getStyleValueByGroup_is_dotted_path :
  forall (styles : option (list ChartStyleConfig)) (groupPath childPath : string),
    Styles.has_char "." groupPath = false ->
    Styles.getStyleValueByGroup styles groupPath childPath
    = Config.getSettingValue styles (groupPath ++ "." ++ childPath)%string "value".
Proof.
  intros styles g c Hg.
  unfold Styles.getStyleValueByGroup, Config.getSettingValue. cbv zeta.
  change ("." ++ c)%string with (String "." c).
  rewrite split_app, (split_without_separator _ _ Hg). reflexivity.
Qed.

Lemma getStyleValueByGroup_is_dotted_path_witness :
  Styles.getStyleValueByGroup (Some exampleStyleConfigs) "label" "color"
  = VStr "red".
Proof.
  rewrite (getStyleValueByGroup_is_dotted_path (Some exampleStyleConfigs)
             "label" "color" eq_refl).
  reflexivity.
Defined.

(** X3: the five properties of [getGridStyle(styles)] are the settings
    ['margin.marginLeft'], ['margin.marginRight'], ['margin.marginBottom'],
    ['margin.marginTop'] and ['margin.containLabel']. *)
Theorem getGridStyle_reads_margin_settings :
  forall (styles : option (list ChartStyleConfig)),
    Styles.getGridStyle styles
    = {| Styles.gridLeft :=
           Config.getSettingValue styles "margin.marginLeft" "value";
         Styles.gridRight :=
           Config.getSettingValue styles "margin.marginRight" "value";
         Styles.gridBottom :=
           Config.getSettingValue styles "margin.marginBottom" "value";
         Styles.gridTop :=
           Config.getSettingValue styles "margin.marginTop" "value";
         Styles.gridContainLabel :=
           Config.getSettingValue styles "margin.containLabel" "value" |}.
Proof.
  intros styles. unfold Styles.getGridStyle. cbv zeta.
  rewrite (getStyles_per_key styles ["margin"]
             ["containLabel"; "marginLeft"; "marginRight"; "marginBottom";
              "marginTop"] ltac:(discriminate)).
  reflexivity.
Qed.

(** X4: a key-path array serves one lookup.  When [getValue] has consumed the
    whole array, a second call with that same array finds nothing, whatever
    the first one returned. *)
Theorem getValue_second_lookup_finds_nothing :
  forall (configs : option (list ChartStyleConfig)) (keyPaths : list string)
         (targetKey : string),
    Config.getValue_keyPaths_after configs keyPaths targetKey = [] ->
    Config.getValue_st configs
      (Config.getValue_keyPaths_after configs keyPaths targetKey) targetKey
    = Some (VUndef, []).
Proof.
  intros configs keyPaths targetKey ->.
  rewrite getValue_st_walk. simpl.
  destruct (Config.or_empty configs); reflexivity.
Qed.

Lemma getValue_second_lookup_finds_nothing_witness :
  Config.getValue (Some exampleStyleConfigs) ["label"; "color"] "value" = VStr "red"
  /\ Config.getValue_st (Some exampleStyleConfigs)
       (Config.getValue_keyPaths_after (Some exampleStyleConfigs)
          ["label"; "color"] "value") "value"
     = Some (VUndef, []).
Proof.
  split; [reflexivity|].
  apply (getValue_second_lookup_finds_nothing (Some exampleStyleConfigs)
           ["label"; "color"] "value").
  reflexivity.
Defined.

(** ** Formatting of values that are not numbers, and digit counts *)

Section MoreFormatProperties.
Context `{Host}.

Lemma pipe_single (f : Val -> FormatEntry -> Val) value config :
  pipe [f] value config = f value config.
Proof. reflexivity. Qed.

(** X5: a value other than [null] and [undefined] whose conversion to a
    number is [NaN] comes back from [toFormattedValue] as it is, under every
    format config, the date format included. *)
Theorem toFormattedValue_keeps_non_numbers :
  forall (value : Val) (format : option IFieldFormatConfig),
    is_nullish value = false ->
    PrimFloat.is_nan (to_number value) = true ->
    Format.toFormattedValue value format = value.
Proof.
  intros value format Hval Hnan. unfold Format.toFormattedValue. rewrite Hval.
  destruct format as [fmt|]; [|reflexivity].
  destruct (formatType fmt) as [ty|]; [|reflexivity].
  destruct ty; try reflexivity;
    match goal with
    | |- (if ?c then _ else _) = _ => destruct c; [reflexivity|]
    end;
    match goal with
    | |- match formatEntry fmt ?t with _ => _ end = _ =>
        destruct (formatEntry fmt t) as [config|]; [|reflexivity]
    end;
    try reflexivity.
  - unfold pipe. simpl.
    assert (Hunit : Format.unitFormater value config = value).
    { unfold Format.unitFormater. rewrite Hnan.
      destruct (isEmpty (unitKey config)); reflexivity. }
    rewrite Hunit.
    assert (Hdec : Format.decimalPlacesFormater value config = value).
    { unfold Format.decimalPlacesFormater, isNaN. rewrite Hnan.
      destruct (decimalPlaces config); reflexivity. }
    rewrite Hdec. unfold Format.numericFormater. rewrite Hnan. reflexivity.
  - rewrite pipe_single. unfold Format.currencyFormater. rewrite Hnan. reflexivity.
  - rewrite pipe_single. unfold Format.percentageFormater. rewrite Hnan. reflexivity.
  - rewrite pipe_single. unfold Format.scientificNotationFormater.
    rewrite Hnan. reflexivity.
  - rewrite pipe_single. unfold Format.dateFormater. rewrite Hnan. reflexivity.
Qed.

(** X6: the percentage and scientific formatters ask for a number of
    fraction digits between [0] and [20] whatever [decimalPlaces] the config
    holds, and their result is the value itself or the string built from
    [toFixed] (with a percent sign) or [toExponential] at that number of
    digits. *)
Theorem fraction_digits_within_bounds :
  forall (value : Val) (config : FormatEntry),
    PrimFloat.leb 0%float (Format.fractionDigits config) = true
    /\ PrimFloat.leb (Format.fractionDigits config) 20%float = true
    /\ (Format.percentageFormater value config = value
        \/ Format.percentageFormater value config
           = VStr (toFixed (PrimFloat.mul (to_number value) 100%float)
                     (Format.fractionDigits config) ++ "%"))
    /\ (Format.scientificNotationFormater value config = value
        \/ Format.scientificNotationFormater value config
           = VStr (toExponential (to_number value) (Format.fractionDigits config))).
Proof.
  intros value config.
  assert (Hfd : PrimFloat.leb 0%float (Format.fractionDigits config) = true
                /\ PrimFloat.leb (Format.fractionDigits config) 20%float = true).
  { unfold Format.fractionDigits.
    destruct (decimalPlaces config) as [dp|]; [|split; reflexivity].
    destruct (PrimFloat.leb 0%float dp && PrimFloat.leb dp 20%float) eqn:E.
    - apply andb_true_iff in E. exact E.
    - split; reflexivity. }
  destruct Hfd as [Hlo Hhi].
  split; [exact Hlo|]. split; [exact Hhi|]. split.
  - unfold Format.percentageFormater.
    destruct (PrimFloat.is_nan (to_number value)); [left|right]; reflexivity.
  - unfold Format.scientificNotationFormater.
    destruct (PrimFloat.is_nan (to_number value)); [left|right]; reflexivity.
Qed.

(** X7: [decimalPlacesFormater] rounds only with a digit count that is
    neither below [0] nor above [100]; with any other count, with none, or
    on a value that is not a number, it hands the value back. *)
Theorem decimalPlacesFormater_digits_in_range :
  forall (value : Val) (config : FormatEntry),
    Format.decimalPlacesFormater value config = value
    \/ exists dp,
         decimalPlaces config = Some dp
         /\ PrimFloat.ltb dp 0%float = false
         /\ PrimFloat.ltb 100%float dp = false
         /\ PrimFloat.is_nan (to_number value) = false
         /\ Format.decimalPlacesFormater value config
            = VStr (toFixed (to_number value) dp).
Proof.
  intros value config. unfold Format.decimalPlacesFormater, isNaN.
  destruct (decimalPlaces config) as [dp|]; [|left; reflexivity].
  destruct (PrimFloat.is_nan (to_number value)) eqn:Hnan; [left; reflexivity|].
  destruct (PrimFloat.ltb dp 0%float) eqn:Hlo; [left; reflexivity|].
  destruct (PrimFloat.ltb 100%float dp) eqn:Hhi; [left; reflexivity|].
  right. exists dp. repeat split; assumption.
Qed.
End MoreFormatProperties.

Lemma toFormattedValue_keeps_non_numbers_witness :
  @Format.toFormattedValue demoHost (VObj [("a", VNull)])
     (Some {| formatType := Some DATE;
              formatEntry := fun _ =>
                Some {| decimalPlaces := None; unitKey := None;
                        useThousandSeparator := None; prefix := None;
                        suffix := None; currency := None;
                        dateFormat := Some "YYYY" |} |})
  = VObj [("a", VNull)].
Proof.
  apply (@toFormattedValue_keeps_non_numbers demoHost); reflexivity.
Defined.

(** ** Extremes of a data column *)

Lemma min2_nan_l a b : PrimFloat.is_nan a = true -> min2 a b = PrimFloat.nan.
Proof. intros Ha. unfold min2. rewrite Ha. reflexivity. Qed.

Lemma min2_nan_r a b : PrimFloat.is_nan b = true -> min2 a b = PrimFloat.nan.
Proof. intros Hb. unfold min2. rewrite Hb, orb_true_r. reflexivity. Qed.

Lemma max2_nan_l a b : PrimFloat.is_nan a = true -> max2 a b = PrimFloat.nan.
Proof. intros Ha. unfold max2. rewrite Ha. reflexivity. Qed.

Lemma max2_nan_r a b : PrimFloat.is_nan b = true -> max2 a b = PrimFloat.nan.
Proof. intros Hb. unfold max2. rewrite Hb, orb_true_r. reflexivity. Qed.

(** [NaN] is contagious in a fold of [Math.min] or [Math.max]. *)
Lemma fold_nan (op : float -> float -> float) (xs : list float) :
  (forall a b, PrimFloat.is_nan a = true -> op a b = PrimFloat.nan) ->
  (forall a b, PrimFloat.is_nan b = true -> op a b = PrimFloat.nan) ->
  forall acc,
    PrimFloat.is_nan acc = true
    \/ Exists (fun x => PrimFloat.is_nan x = true) xs ->
    fold_left op xs acc = PrimFloat.nan \/ (xs = [] /\ PrimFloat.is_nan acc = true).
Proof.
  intros Hl Hr. induction xs as [|x xs IH]; intros acc Hnan.
  - destruct Hnan as [Hacc | Hex]; [right; auto | inversion Hex].
  - left. simpl.
    assert (Hstep : PrimFloat.is_nan (op acc x) = true
                    \/ Exists (fun y => PrimFloat.is_nan y = true) xs).
    { destruct Hnan as [Hacc | Hex].
      - left. rewrite (Hl _ _ Hacc). reflexivity.
      - inversion Hex as [? ? Hx | ? ? Hxs]; subst.
        + left. rewrite (Hr _ _ Hx). reflexivity.
        + right. exact Hxs. }
    destruct (IH (op acc x) Hstep) as [Hfold | [-> Hacc]]; [exact Hfold|].
    simpl. destruct Hnan as [Ha | Hex].
    + apply Hl. exact Ha.
    + inversion Hex as [? ? Hx | ? ? Hxs]; subst; [apply Hr; exact Hx | inversion Hxs].
Qed.

Lemma Math_min_nan (xs : list float) :
  Exists (fun x => PrimFloat.is_nan x = true) xs -> Math_min xs = PrimFloat.nan.
Proof.
  intros Hex. unfold Math_min.
  destruct (fold_nan min2 xs min2_nan_l min2_nan_r PrimFloat.infinity (or_intror Hex))
    as [Hfold | [_ Hinf]]; [exact Hfold | discriminate Hinf].
Qed.

Lemma Math_max_nan (xs : list float) :
  Exists (fun x => PrimFloat.is_nan x = true) xs -> Math_max xs = PrimFloat.nan.
Proof.
  intros Hex. unfold Math_max.
  destruct (fold_nan max2 xs max2_nan_l max2_nan_r PrimFloat.neg_infinity
              (or_intror Hex))
    as [Hfold | [_ Hinf]]; [exact Hfold | discriminate Hinf].
Qed.

Section MaxAndMinProperties.
Context `{Host}.

Lemma bounds_not_NaN (chartDataSetRows : option (list IChartDataSetRow))
    (config : option ChartDataSectionField) :
  PrimFloat.is_nan
    (DataColumns.min (DataColumns.getDataColumnMaxAndMin2 chartDataSetRows config))
  = false
  /\ PrimFloat.is_nan
       (DataColumns.max (DataColumns.getDataColumnMaxAndMin2 chartDataSetRows config))
     = false.
Proof.
  unfold DataColumns.getDataColumnMaxAndMin2.
  destruct config as [cfg|]; [|split; reflexivity].
  destruct (isEmptyArray (Config.or_empty chartDataSetRows)); [split; reflexivity|].
  cbv zeta. simpl. split.
  - destruct (PrimFloat.is_nan (Math_min _)) eqn:E; [reflexivity | exact E].
  - destruct (PrimFloat.is_nan (Math_max _)) eqn:E; [reflexivity | exact E].
Qed.

(** X8: the bounds [getDataColumnMaxAndMin2] returns are never [NaN]; they
    are [0] and [100] when there is no field config or no row, and also as
    soon as one cell of the column does not convert to a number. *)
Theorem getDataColumnMaxAndMin2_never_NaN :
  forall (chartDataSetRows : option (list IChartDataSetRow))
         (config : option ChartDataSectionField),
    let bounds := DataColumns.getDataColumnMaxAndMin2 chartDataSetRows config in
    PrimFloat.is_nan (DataColumns.min bounds) = false
    /\ PrimFloat.is_nan (DataColumns.max bounds) = false
    /\ (config = None \/ Config.or_empty chartDataSetRows = [] ->
        bounds = {| DataColumns.min := 0%float; DataColumns.max := 100%float |})
    /\ (forall cfg,
          config = Some cfg ->
          Exists (fun row => PrimFloat.is_nan (to_number (getCell row cfg)) = true)
                 (Config.or_empty chartDataSetRows) ->
          bounds = {| DataColumns.min := 0%float; DataColumns.max := 100%float |}).
Proof.
  intros rows config bounds.
  split; [apply bounds_not_NaN|]. split; [apply bounds_not_NaN|].
  unfold bounds, DataColumns.getDataColumnMaxAndMin2.
  split.
  - intros [-> | Hrows]; [reflexivity|].
    destruct config as [cfg|]; [|reflexivity].
    rewrite Hrows. reflexivity.
  - intros cfg -> Hex.
    destruct (Config.or_empty rows) as [|row rest] eqn:Hrows; [inversion Hex|].
    cbn [isEmptyArray]. cbv zeta.
    assert (Hnan : Exists (fun x => PrimFloat.is_nan x = true)
                     (map (fun r => to_number (getCell r cfg)) (row :: rest))).
    { clear Hrows. induction Hex as [r l Hr | r l _ IH]; simpl.
      - apply Exists_cons_hd. exact Hr.
      - apply Exists_cons_tl. exact IH. }
    rewrite (Math_min_nan _ Hnan), (Math_max_nan _ Hnan). reflexivity.
Qed.
End MaxAndMinProperties.

Lemma getDataColumnMaxAndMin2_never_NaN_witness :
  @DataColumns.getDataColumnMaxAndMin2 demoHost
     (Some [cellRow (VStr "1"); cellRow (VStr "abc")]) (Some metricField)
  = {| DataColumns.min := 0%float; DataColumns.max := 100%float |}
  /\ @DataColumns.getDataColumnMaxAndMin2 demoHost (Some twoRows) (Some metricField)
     = {| DataColumns.min := 1%float; DataColumns.max := 3%float |}.
Proof.
  split; [|reflexivity].
  destruct (@getDataColumnMaxAndMin2_never_NaN demoHost
              (Some [cellRow (VStr "1"); cellRow (VStr "abc")]) (Some metricField))
    as (_ & _ & _ & Hnan).
  apply (Hnan metricField eq_refl).
  apply Exists_cons_tl, Exists_cons_hd. reflexivity.
Defined.

(** X9: the symbol size [getScatterSymbolSizeFn] computes is never below
    three pixels: it is [NaN] (a missing value or bound), exactly [3], or
    above [3]. *)
Theorem scatter_symbol_at_least_three :
  forall (valueIndex : nat) (max min : float) (cycleRatio : option float)
         (val : option (list float)),
    let size := Axis.getScatterSymbolSizeFn valueIndex max min cycleRatio val in
    PrimFloat.is_nan size = true
    \/ size = 3%float
    \/ PrimFloat.ltb 3%float size = true.
Proof.
  intros valueIndex max min cycleRatio val size.
  unfold size, Axis.getScatterSymbolSizeFn. cbv zeta.
  match goal with |- context [max2 3%float ?x] => generalize x end.
  intros x. unfold max2.
  change (PrimFloat.is_nan 3%float) with false. cbn [orb].
  destruct (PrimFloat.is_nan x); [left; reflexivity|].
  destruct (PrimFloat.ltb 3%float x) eqn:Hlt; [right; right; exact Hlt|].
  destruct (PrimFloat.ltb x 3%float); [right; left; reflexivity|].
  change (is_neg_zero 3%float) with false. right. left. reflexivity.
Qed.

(** ** Rows and their brothers *)

Lemma firstNonEmpty_found {A B} (search : A -> list B) (good : A -> bool)
    (hit : B -> bool) (rows : list A) :
  Forall (fun r => (good r = false -> search r = [])
                   /\ (good r = true -> existsb hit (search r) = true)) rows ->
  (existsb good rows = false -> DataColumns.firstNonEmpty search rows = [])
  /\ (existsb good rows = true ->
      existsb hit (DataColumns.firstNonEmpty search rows) = true).
Proof.
  induction 1 as [|r rest [Hbad Hgood] _ [IHbad IHgood]]; simpl.
  - split; [reflexivity | discriminate].
  - destruct (good r) eqn:Hr; simpl.
    + split; [discriminate|]. intros _.
      specialize (Hgood eq_refl).
      destruct (search r) as [|b bs]; [discriminate Hgood | exact Hgood].
    + rewrite (Hbad eq_refl). split; assumption.
Qed.

Lemma findRowBrothers_below_found (uid : string) (r : DataColumns.RowValue) :
  (DataColumns.occurs_below uid r = false ->
   DataColumns.findRowBrothers_below uid r = [])
  /\ (DataColumns.occurs_below uid r = true ->
      existsb (DataColumns.uid_is uid) (DataColumns.findRowBrothers_below uid r)
      = true).
Proof.
  induction r as [u c ch IH] using DataColumns.RowValue_forest_ind.
  destruct ch as [rows|]; simpl; [|split; [reflexivity | discriminate]].
  simpl in IH.
  destruct (existsb (DataColumns.uid_is uid) rows) eqn:Htop; simpl.
  - split; [discriminate | intros _; exact Htop].
  - apply firstNonEmpty_found. exact IH.
Qed.

(** X10: [findRowBrothers(uid, rows)] answers an empty array when no row of
    that uid occurs in the forest, at any depth; when one occurs, the array
    it answers holds a row of that uid, and is [rows] itself if the row is at
    the top level. *)
Theorem findRowBrothers_holds_the_row :
  forall (uid : string) (rows : list DataColumns.RowValue),
    (DataColumns.occurs uid rows = false ->
     DataColumns.findRowBrothers uid rows = [])
    /\ (DataColumns.occurs uid rows = true ->
        existsb (DataColumns.uid_is uid) (DataColumns.findRowBrothers uid rows)
        = true)
    /\ (existsb (DataColumns.uid_is uid) rows = true ->
        DataColumns.findRowBrothers uid rows = rows).
Proof.
  intros uid rows. unfold DataColumns.findRowBrothers, DataColumns.occurs.
  destruct (existsb (DataColumns.uid_is uid) rows) eqn:Htop; simpl.
  - split; [discriminate|]. split; [intros _; exact Htop | reflexivity].
  - assert (Hscan := firstNonEmpty_found (DataColumns.findRowBrothers_below uid)
                       (DataColumns.occurs_below uid) (DataColumns.uid_is uid) rows).
    destruct Hscan as [Hbad Hgood].
    { apply Forall_forall. intros r _. apply findRowBrothers_below_found. }
    split; [exact Hbad|]. split; [exact Hgood | discriminate].
Qed.

Lemma findRowBrothers_holds_the_row_witness :
  DataColumns.findRowBrothers "c2" headerRows
  = [ DataColumns.Row (Some "c1") "first" None;
      DataColumns.Row (Some "c2") "second" None ]
  /\ DataColumns.findRowBrothers "zz" headerRows = [].
Proof.
  destruct (findRowBrothers_holds_the_row "zz" headerRows) as [Hnone _].
  split; [reflexivity | apply Hnone; reflexivity].
Defined.

(** ** The other tooltips *)

Lemma filter_all {A} (p : A -> bool) (l : list A) :
  Forall (fun x => p x = true) l -> List.filter p l = l.
Proof.
  induction 1 as [|x l Hx _ IH]; simpl; [reflexivity|].
  rewrite Hx, IH. reflexivity.
Qed.

Section MoreTooltipProperties.
Context `{Host}.

(** X11: on a parameter of component type ['series'], the rectangular
    tooltip is the polar tooltip of the same fields whenever every aggregate
    field carries the hovered name; the two differ only by the aggregate
    fields of another name, which the rectangular one leaves out. *)
Theorem rectangular_tooltip_is_polar_on_hovered_series :
  forall (chartDataSet : IChartDataSet) (p : Tooltip.TooltipParam)
         (groupConfigs colorConfigs : option (list ChartDataSectionField))
         (aggConfigs : list ChartDataSectionField)
         (infoConfigs sizeConfigs : option (list ChartDataSectionField)),
    Tooltip.componentType p = Some "series" ->
    Tooltip.getSeriesTooltips4Rectangular2 chartDataSet (Some p)
      groupConfigs colorConfigs aggConfigs infoConfigs sizeConfigs
    = Tooltips.getSeriesTooltips4Polar2 chartDataSet (Some p)
        groupConfigs colorConfigs
        (Some (List.filter (Tooltip.names_series (Tooltip.aggConfigName (Some p)))
                 aggConfigs))
        infoConfigs sizeConfigs
    /\ (Forall (fun agg => Tooltip.names_series (Tooltip.aggConfigName (Some p)) agg
                           = true) aggConfigs ->
        Tooltip.getSeriesTooltips4Rectangular2 chartDataSet (Some p)
          groupConfigs colorConfigs aggConfigs infoConfigs sizeConfigs
        = Tooltips.getSeriesTooltips4Polar2 chartDataSet (Some p)
            groupConfigs colorConfigs (Some aggConfigs) infoConfigs sizeConfigs).
Proof.
  intros ds p g c aggs i s Hseries.
  assert (Heq : Tooltip.getSeriesTooltips4Rectangular2 ds (Some p) g c aggs i s
                = Tooltips.getSeriesTooltips4Polar2 ds (Some p) g c
                    (Some (List.filter
                             (Tooltip.names_series (Tooltip.aggConfigName (Some p)))
                             aggs)) i s).
  { unfold Tooltip.getSeriesTooltips4Rectangular2, Tooltips.getSeriesTooltips4Polar2.
    unfold Tooltip.not_series. rewrite Hseries. reflexivity. }
  split; [exact Heq|].
  intros Hall. rewrite Heq, (filter_all _ _ Hall). reflexivity.
Qed.

Lemma valueFormatter_placeholder (config : ChartDataSectionField) :
  Tooltip.valueFormatter (Some config) VUndef
  = (Tooltip.getColumnRenderName (Some config) ++ ": -")%string.
Proof. reflexivity. Qed.

(** X12: the older rectangular tooltip has no line without aggregate fields,
    whatever the group fields and the data columns, and one line per
    aggregate field whenever it returns.  Without group field each line
    formats the field's cell of the first data column, or [undefined] when
    there is no data column.  With a group field each line formats the
    field's cell of the first data column that holds the hovered axis value
    in the group's column; when no data column holds it every line shows the
    placeholder ['-'] after the field's name.  It throws exactly when there
    are aggregate fields and a group field but no data columns at all. *)
Theorem rectangular_tooltip_without_matching_row :
  forall (axisValue : Val) (groupConfig : ChartDataSectionField)
         (groupConfigs aggConfigs : list ChartDataSectionField)
         (dataColumns : list Mark.DataColumn)
         (anyGroups : option (list ChartDataSectionField))
         (anyColumns : option (list Mark.DataColumn)),
    Tooltips.getSeriesTooltips4Rectangular axisValue anyGroups None anyColumns
      = Normal []
    /\ Tooltips.getSeriesTooltips4Rectangular axisValue anyGroups (Some [])
         anyColumns = Normal []
    /\ (forall lines,
          Tooltips.getSeriesTooltips4Rectangular axisValue anyGroups
            (Some aggConfigs) anyColumns = Normal lines ->
          length lines = length aggConfigs)
    /\ (Config.or_empty anyGroups = [] ->
        Tooltips.getSeriesTooltips4Rectangular axisValue anyGroups
          (Some aggConfigs) anyColumns
        = Normal (map (fun config =>
                         Tooltip.valueFormatter (Some config)
                           (Tooltips.cellOf (head (Config.or_empty anyColumns))
                              (Mark.getValueByColumnKey (Some config))))
                      aggConfigs))
    /\ Tooltips.getSeriesTooltips4Rectangular axisValue
         (Some (groupConfig :: groupConfigs)) (Some aggConfigs) (Some dataColumns)
       = Normal (map (fun config =>
                        Tooltip.valueFormatter (Some config)
                          (Tooltips.cellOf
                             (List.find
                                (fun dc =>
                                   strict_eq
                                     (assoc (Mark.getValueByColumnKey
                                               (Some groupConfig)) dc)
                                     axisValue) dataColumns)
                             (Mark.getValueByColumnKey (Some config))))
                     aggConfigs)
    /\ (Forall (fun dc =>
                  strict_eq (assoc (Mark.getValueByColumnKey (Some groupConfig)) dc)
                            axisValue = false) dataColumns ->
        Tooltips.getSeriesTooltips4Rectangular axisValue
          (Some (groupConfig :: groupConfigs)) (Some aggConfigs) (Some dataColumns)
        = Normal (map (fun config =>
                         (Tooltip.getColumnRenderName (Some config) ++ ": -")%string)
                      aggConfigs))
    /\ (Tooltips.getSeriesTooltips4Rectangular axisValue anyGroups
          (Some aggConfigs) anyColumns = TypeError
        <-> aggConfigs <> [] /\ Config.or_empty anyGroups <> []
            /\ anyColumns = None).
Proof.
  intros axisValue groupConfig groupConfigs aggs columns anyGroups anyColumns.
  assert (Hgroup :
    Tooltips.getSeriesTooltips4Rectangular axisValue
      (Some (groupConfig :: groupConfigs)) (Some aggs) (Some columns)
    = Normal (map (fun config =>
                     Tooltip.valueFormatter (Some config)
                       (Tooltips.cellOf
                          (List.find
                             (fun dc =>
                                strict_eq
                                  (assoc (Mark.getValueByColumnKey
                                            (Some groupConfig)) dc)
                                  axisValue) columns)
                          (Mark.getValueByColumnKey (Some config))))
                  aggs)).
  { unfold Tooltips.getSeriesTooltips4Rectangular. cbn [Config.or_empty].
    destruct aggs as [|a aggs]; reflexivity. }
  split; [reflexivity|]. split; [reflexivity|].
  split; [|split; [|split; [|split]]].
  - intros lines. unfold Tooltips.getSeriesTooltips4Rectangular.
    cbn [Config.or_empty].
    destruct aggs as [|a aggs]; [intros [= <-]; reflexivity|].
    destruct (Config.or_empty anyGroups) as [|g gs].
    + intros [= <-]. cbn [length]. rewrite length_map. reflexivity.
    + destruct anyColumns as [cols|]; [|discriminate].
      cbv zeta. intros [= <-]. cbn [length]. rewrite length_map. reflexivity.
  - intros Hnogroup. unfold Tooltips.getSeriesTooltips4Rectangular.
    rewrite Hnogroup. cbn [Config.or_empty].
    destruct aggs as [|a aggs]; reflexivity.
  - exact Hgroup.
  - intros Hnone. rewrite Hgroup. clear Hgroup.
    assert (Hfind : List.find
                      (fun dc => strict_eq
                                   (assoc (Mark.getValueByColumnKey (Some groupConfig)) dc)
                                   axisValue) columns = None).
    { induction Hnone as [|dc l Hdc _ IH]; cbn [List.find]; [reflexivity|].
      rewrite Hdc. exact IH. }
    rewrite Hfind. reflexivity.
  - unfold Tooltips.getSeriesTooltips4Rectangular. cbn [Config.or_empty].
    destruct aggs as [|a aggs].
    + split; [discriminate | intros [Hne _]; congruence].
    + destruct (Config.or_empty anyGroups) as [|g gs].
      * split; [discriminate | intros (_ & Hne & _); congruence].
      * destruct anyColumns as [cols|].
        -- split; [discriminate | intros (_ & _ & Hne); discriminate].
        -- split; [intros _; repeat split; discriminate | reflexivity].
Qed.

Lemma imap_shift {A B} (f : nat -> A -> B) (l : list A) (k : nat) :
  imap (fun i => f (k + i)%nat) l = imap (fun i => f (i + k)%nat) l.
Proof. apply imap_ext. intros i x _. f_equal. lia. Qed.

(** X13: the scatter tooltip has one line per field; a [start] of [0] is the
    same as none, and a start of [s] is the tooltip without start over the
    values after the first [s]. *)
Theorem scatter_tooltip_start_skips_values :
  forall (values : list Val) (tooltipItemConfigs : list ChartDataSectionField)
         (s : nat),
    length (Tooltips.getSeriesTooltips4Scatter (Some values) tooltipItemConfigs
              (Some s)) = length tooltipItemConfigs
    /\ Tooltips.getSeriesTooltips4Scatter (Some values) tooltipItemConfigs (Some 0%nat)
       = Tooltips.getSeriesTooltips4Scatter (Some values) tooltipItemConfigs None
    /\ Tooltips.getSeriesTooltips4Scatter (Some values) tooltipItemConfigs (Some s)
       = Tooltips.getSeriesTooltips4Scatter (Some (drop s values))
           tooltipItemConfigs None.
Proof.
  intros values configs s. unfold Tooltips.getSeriesTooltips4Scatter.
  split; [apply length_imap|]. split; [reflexivity|].
  apply imap_ext. intros i config _. cbv beta zeta.
  destruct s as [|s]; [rewrite drop_0; reflexivity|].
  rewrite lookup_drop. reflexivity.
Qed.
End MoreTooltipProperties.

Lemma rectangular_tooltip_is_polar_on_hovered_series_witness :
  @Tooltips.getSeriesTooltips4Polar2 demoHost byColName (Some hoveredBar)
     (Some [plainField "g" "city"]) None
     (Some [ {| uid := Some "a"; colName := Some "amount"; category := None;
                fieldType := None; aggregate := Some "SUM"; aliasName := None;
                format := None; sort := None |} ])
     None None
  = "city: Oslo<br />SUM(amount): 3".
Proof.
  match goal with
  | |- @Tooltips.getSeriesTooltips4Polar2 _ ?ds (Some ?p) ?g ?c (Some ?a) ?i ?s = _ =>
      destruct (@rectangular_tooltip_is_polar_on_hovered_series demoHost
                  ds p g c a i s eq_refl) as [_ Hall]
  end.
  rewrite <- Hall; [reflexivity|].
  constructor; [reflexivity | constructor].
Defined.

Lemma rectangular_tooltip_without_matching_row_witness :
  @Tooltips.getSeriesTooltips4Rectangular demoHost (VStr "Rome")
     (Some [plainField "g" "city"]) (Some [plainField "a" "amount"])
     (Some [ [("city", VStr "Oslo"); ("amount", VNum 3%float)] ])
  = Normal ["amount: -"]
  /\ @Tooltips.getSeriesTooltips4Rectangular demoHost (VStr "Rome")
       None (Some [plainField "a" "amount"])
       (Some [ [("city", VStr "Oslo"); ("amount", VNum 3%float)] ])
     = Normal ["amount: 3"]
  /\ @Tooltips.getSeriesTooltips4Rectangular demoHost (VStr "Rome")
       (Some [plainField "g" "city"]) (Some [plainField "a" "amount"]) None
     = TypeError.
Proof.
  split; [|split].
  - destruct (@rectangular_tooltip_without_matching_row demoHost (VStr "Rome")
                (plainField "g" "city") [] [plainField "a" "amount"]
                [ [("city", VStr "Oslo"); ("amount", VNum 3%float)] ]
                None None)
      as (_ & _ & _ & _ & _ & Hnone & _).
    apply Hnone.
    constructor; [reflexivity | constructor].
  - destruct (@rectangular_tooltip_without_matching_row demoHost (VStr "Rome")
                (plainField "g" "city") [] [plainField "a" "amount"] []
                None
                (Some [ [("city", VStr "Oslo"); ("amount", VNum 3%float)] ]))
      as (_ & _ & _ & Hnogroup & _).
    rewrite (Hnogroup eq_refl). reflexivity.
  - destruct (@rectangular_tooltip_without_matching_row demoHost (VStr "Rome")
                (plainField "g" "city") [] [plainField "a" "amount"] []
                (Some [plainField "g" "city"]) None)
      as (_ & _ & _ & _ & _ & _ & Hthrows).
    apply Hthrows. repeat split; discriminate.
Defined.

(** ** Moving a row there and back *)

Lemma lookup_middle_after {A} (pre mid post : list A) (x : A) :
  (pre ++ mid ++ x :: post) !! (length pre + length mid)%nat = Some x.
Proof.
  rewrite app_assoc.
  replace (length pre + length mid)%nat with (length (pre ++ mid))
    by (rewrite length_app; reflexivity).
  apply list_lookup_middle. reflexivity.
Qed.

(** X14: for indices inside the array [rowBubbleMove] returns, having moved
    the row at [idx] to [targetIdx]: the array keeps its length and its rows,
    and moving the row back from [targetIdx] to [idx] restores it. *)
Theorem rowBubbleMove_there_and_back :
  forall (A : Type) (undef : A) (rows : list A) (idx targetIdx : nat),
    (idx < length rows)%nat ->
    (targetIdx < length rows)%nat ->
    exists moved,
      Sorting.rowBubbleMove undef rows idx targetIdx = Some moved
      /\ length moved = length rows
      /\ Permutation moved rows
      /\ moved !! targetIdx = rows !! idx
      /\ Sorting.rowBubbleMove undef moved targetIdx idx = Some rows.
Proof.
  intros A undef rows idx target Hidx Htarget.
  destruct (Nat.le_gt_cases idx target) as [Hle | Hgt].
  - destruct (split_at_upwards rows idx target Hle Htarget)
      as (pre & x & mid & post & -> & Hpre & Hmid & Hx).
    exists (pre ++ mid ++ x :: post).
    replace target with (length pre + length mid)%nat by lia.
    rewrite <- Hpre.
    split; [apply rowBubbleMove_up|].
    split; [rewrite !length_app; simpl; rewrite !length_app; simpl; lia|].
    split; [apply Permutation_app_head; symmetry; apply Permutation_middle|].
    split; [rewrite <- Hpre in Hx; rewrite Hx; apply lookup_middle_after|].
    apply rowBubbleMove_down.
  - destruct (split_at_downwards rows idx target ltac:(lia) Hidx)
      as (pre & mid & x & post & -> & Hpre & Hmid & Hx).
    exists (pre ++ x :: mid ++ post).
    replace idx with (length pre + length mid)%nat by lia.
    rewrite <- Hpre.
    split; [apply rowBubbleMove_down|].
    split; [rewrite !length_app; simpl; rewrite !length_app; simpl; lia|].
    split; [apply Permutation_app_head; apply Permutation_middle|].
    split; [|apply rowBubbleMove_up].
    rewrite lookup_middle_after.
    apply list_lookup_middle. reflexivity.
Qed.

Lemma rowBubbleMove_there_and_back_witness :
  exists moved,
    Sorting.rowBubbleMove VUndef [VStr "a"; VStr "b"; VStr "c"; VStr "d"] 3 1
      = Some moved
    /\ moved = [VStr "a"; VStr "d"; VStr "b"; VStr "c"]
    /\ Sorting.rowBubbleMove VUndef moved 1 3
       = Some [VStr "a"; VStr "b"; VStr "c"; VStr "d"].
Proof.
  destruct (rowBubbleMove_there_and_back Val VUndef
              [VStr "a"; VStr "b"; VStr "c"; VStr "d"] 3 1
              ltac:(simpl; lia) ltac:(simpl; lia))
    as (moved & Hmoved & _ & _ & _ & Hback).
  exists moved. split; [exact Hmoved|].
  split; [|exact Hback].
  simpl in Hmoved. injection Hmoved as <-. reflexivity.
Defined.

(** ** Moving, replacing, inserting and deleting rows of a section *)

Lemma splice_insert_at {A} (l : list A) (k : nat) (x : A) :
  (k <= length l)%nat ->
  splice l (Some (Z.of_nat k)) 0 [x] = take k l ++ x :: drop k l.
Proof.
  intros Hk. rewrite splice_insert_one. unfold splice_start.
  destruct (Z.ltb_spec (Z.of_nat k) 0) as [Hneg|_]; [lia|].
  rewrite Nat2Z.id. replace (Nat.min k (length l)) with k by lia. reflexivity.
Qed.

Lemma findIndex_from_none {A} (p : A -> bool) (l : list A) (i : Z) :
  Forall (fun q => p q = false) l -> findIndex_from p l i = (-1)%Z.
Proof.
  intros Hall. revert i.
  induction Hall as [|q l Hq _ IH]; intros i; simpl; [reflexivity|].
  rewrite Hq. apply IH.
Qed.

Lemma insert_at_middle {A} (pre post : list A) (r v : A) :
  <[length pre := v]> (pre ++ r :: post) = pre ++ v :: post.
Proof. induction pre as [|a pre IH]; simpl; [reflexivity|]. rewrite IH. reflexivity. Qed.

Lemma move_by_splice_up {A} (pre mid post : list A) (x : A) :
  splice (splice (pre ++ x :: mid ++ post) (Some (Z.of_nat (length pre))) 1 [])
         (Some (Z.of_nat (length pre + length mid))) 0 [x]
  = pre ++ mid ++ x :: post.
Proof.
  rewrite splice_remove_one.
  rewrite splice_insert_at by (rewrite !length_app; lia).
  rewrite app_assoc.
  replace (length pre + length mid)%nat with (length (pre ++ mid))
    by (rewrite length_app; reflexivity).
  rewrite take_app_length, drop_app_length, <- app_assoc. reflexivity.
Qed.

Lemma move_by_splice_down {A} (pre mid post : list A) (x : A) :
  splice (splice (pre ++ mid ++ x :: post)
            (Some (Z.of_nat (length pre + length mid))) 1 [])
         (Some (Z.of_nat (length pre))) 0 [x]
  = pre ++ x :: mid ++ post.
Proof.
  rewrite (app_assoc pre mid).
  replace (length pre + length mid)%nat with (length (pre ++ mid))
    by (rewrite length_app; reflexivity).
  rewrite splice_remove_one, <- app_assoc.
  rewrite splice_insert_at by (rewrite !length_app; lia).
  rewrite take_app_length, drop_app_length. reflexivity.
Qed.

(** X15: the hover handler [handleDraggableItemMove], with or without a
    [canDraggableItemMove] property.  Without rows in the section, when the
    property refuses the move, or with a drag index past the rows, it answers
    [false] and leaves the section alone.  Inside the rows, without the
    property or when the property allows the move, it moves the dragged row
    exactly as [rowBubbleMove] does: the row itself ends at the hover index,
    the others keep their order, and the handler answers [true]. *)
Theorem handleDraggableItemMove_is_rowBubbleMove :
  forall (undef : ChartDataSectionField) (config : ChartDataConfig)
         (canMove : option (list ChartDataSectionField -> Z -> Z -> bool))
         (dragIndex hoverIndex : nat),
    (sectionRows config = None ->
     SectionRows.handleDraggableItemMove config canMove
       (Z.of_nat dragIndex) (Z.of_nat hoverIndex)
     = (config, false))
    /\ (forall rows : list ChartDataSectionField,
          sectionRows config = Some rows ->
          (moveAllowed canMove rows (Z.of_nat dragIndex) (Z.of_nat hoverIndex)
             = false ->
           SectionRows.handleDraggableItemMove config canMove
             (Z.of_nat dragIndex) (Z.of_nat hoverIndex)
           = (config, false))
          /\ ((length rows <= dragIndex)%nat ->
              SectionRows.handleDraggableItemMove config canMove
                (Z.of_nat dragIndex) (Z.of_nat hoverIndex)
              = (config, false))
          /\ (moveAllowed canMove rows (Z.of_nat dragIndex) (Z.of_nat hoverIndex)
                = true ->
              (dragIndex < length rows)%nat ->
              (hoverIndex < length rows)%nat ->
              exists moved,
                Sorting.rowBubbleMove undef rows dragIndex hoverIndex = Some moved
                /\ SectionRows.handleDraggableItemMove config canMove
                     (Z.of_nat dragIndex) (Z.of_nat hoverIndex)
                   = (with_rows config (Some moved), true))).
Proof.
  intros undef config canMove drag hover. split.
  { intros Hnone. unfold SectionRows.handleDraggableItemMove.
    rewrite Hnone. reflexivity. }
  intros rows Hrows.
  assert (Hguard :
    match canMove with
    | Some can => negb (can rows (Z.of_nat drag) (Z.of_nat hover))
    | None => false
    end = negb (moveAllowed canMove rows (Z.of_nat drag) (Z.of_nat hover))).
  { destruct canMove; reflexivity. }
  split; [|split].
  - intros Hrefused.
    unfold SectionRows.handleDraggableItemMove.
    rewrite Hrows, Hguard, Hrefused. reflexivity.
  - intros Hout.
    unfold SectionRows.handleDraggableItemMove, SectionRows.rowAt.
    rewrite Hrows, Hguard.
    destruct (moveAllowed canMove rows (Z.of_nat drag) (Z.of_nat hover));
      [|reflexivity].
    cbn [negb].
    destruct (Z.ltb_spec (Z.of_nat drag) 0) as [_|_]; [reflexivity|].
    rewrite Nat2Z.id, (lookup_ge_None_2 rows drag Hout). reflexivity.
  - intros Hallowed Hdrag Hhover.
    unfold SectionRows.handleDraggableItemMove, SectionRows.rowAt,
      DragTarget.updateBy.
    rewrite Hrows, Hguard, Hallowed. cbn [negb Config.or_empty].
    clear Hguard Hallowed.
    destruct (Z.ltb_spec (Z.of_nat drag) 0) as [Hneg|_]; [lia|].
    rewrite Nat2Z.id.
    destruct (Nat.le_gt_cases drag hover) as [Hle | Hgt].
    + destruct (split_at_upwards rows drag hover Hle Hhover)
        as (pre & x & mid & post & -> & Hpre & Hmid & Hx).
      exists (pre ++ mid ++ x :: post).
      replace hover with (length pre + length mid)%nat by lia.
      rewrite <- Hpre in *.
      split; [apply rowBubbleMove_up|].
      rewrite Hx, move_by_splice_up. reflexivity.
    + destruct (split_at_downwards rows drag hover ltac:(lia) Hdrag)
        as (pre & mid & x & post & -> & Hpre & Hmid & Hx).
      exists (pre ++ x :: mid ++ post).
      replace drag with (length pre + length mid)%nat in * by lia.
      rewrite <- Hpre in *.
      split; [apply rowBubbleMove_down|].
      rewrite Hx, move_by_splice_down. reflexivity.
Qed.

Lemma handleDraggableItemMove_is_rowBubbleMove_witness :
  SectionRows.handleDraggableItemMove
    (aggregateSection [renamedField; plainField "b" "cost"; anonymousField])
    (Some firstRowStays) 0%Z 2%Z
  = (aggregateSection [plainField "b" "cost"; anonymousField; renamedField], true)
  /\ SectionRows.handleDraggableItemMove
       (aggregateSection [renamedField; plainField "b" "cost"; anonymousField])
       (Some firstRowStays) 2%Z 0%Z
     = (aggregateSection [renamedField; plainField "b" "cost"; anonymousField],
        false)
  /\ SectionRows.handleDraggableItemMove
       (aggregateSection [renamedField; plainField "b" "cost"; anonymousField])
       None 2%Z 0%Z
     = (aggregateSection [anonymousField; renamedField; plainField "b" "cost"],
        true).
Proof.
  split; [|split].
  - destruct (handleDraggableItemMove_is_rowBubbleMove anonymousField
                (aggregateSection [renamedField; plainField "b" "cost"; anonymousField])
                (Some firstRowStays) 0 2) as [_ Hrows].
    destruct (Hrows [renamedField; plainField "b" "cost"; anonymousField] eq_refl)
      as (_ & _ & Hmove).
    destruct (Hmove eq_refl ltac:(simpl; lia) ltac:(simpl; lia))
      as (moved & Hbubble & Hhandle).
    simpl in Hbubble. injection Hbubble as <-.
    exact Hhandle.
  - destruct (handleDraggableItemMove_is_rowBubbleMove anonymousField
                (aggregateSection [renamedField; plainField "b" "cost"; anonymousField])
                (Some firstRowStays) 2 0) as [_ Hrows].
    destruct (Hrows [renamedField; plainField "b" "cost"; anonymousField] eq_refl)
      as (Hrefused & _).
    exact (Hrefused eq_refl).
  - destruct (handleDraggableItemMove_is_rowBubbleMove anonymousField
                (aggregateSection [renamedField; plainField "b" "cost"; anonymousField])
                None 2 0) as [_ Hrows].
    destruct (Hrows [renamedField; plainField "b" "cost"; anonymousField] eq_refl)
      as (_ & _ & Hmove).
    destruct (Hmove eq_refl ltac:(simpl; lia) ltac:(simpl; lia))
      as (moved & Hbubble & Hhandle).
    simpl in Hbubble. injection Hbubble as <-.
    exact Hhandle.
Defined.

(** X16: [handleFieldConfigChanged] announces the section with the first row
    of the given uid replaced by the new field config, every other row where
    it was; when no row has that uid it announces the section unchanged, and
    without a field config it announces nothing. *)
Theorem handleFieldConfigChanged_replaces_one_row :
  forall (config : ChartDataConfig) (columnUid : option string)
         (field : ChartDataSectionField),
    SectionRows.handleFieldConfigChanged config columnUid None = None
    /\ (forall pre r post,
          sectionRows config = Some (pre ++ r :: post) ->
          DragTarget.same_uid (uid r) columnUid = true ->
          Forall (fun q => DragTarget.same_uid (uid q) columnUid = false) pre ->
          SectionRows.handleFieldConfigChanged config columnUid (Some field)
          = Some (with_rows config (Some (pre ++ field :: post))))
    /\ (Forall (fun q => DragTarget.same_uid (uid q) columnUid = false)
               (Config.or_empty (sectionRows config)) ->
        SectionRows.handleFieldConfigChanged config columnUid (Some field)
        = Some config).
Proof.
  intros config columnUid field. split; [reflexivity|]. split.
  - intros pre r post Hrows Hr Hpre.
    unfold SectionRows.handleFieldConfigChanged, DragTarget.updateBy, findIndex.
    rewrite Hrows. cbn [Config.or_empty].
    rewrite (findIndex_from_first _ pre r post 0%Z Hr Hpre).
    destruct (Z.eqb_spec (0 + Z.of_nat (length pre)) (-1)) as [Hbad|_]; [lia|].
    cbn [negb]. rewrite Z.add_0_l, Nat2Z.id, insert_at_middle. reflexivity.
  - intros Hnone.
    unfold SectionRows.handleFieldConfigChanged, DragTarget.updateBy, findIndex.
    rewrite (findIndex_from_none _ _ 0%Z Hnone). reflexivity.
Qed.

Lemma handleFieldConfigChanged_replaces_one_row_witness :
  SectionRows.handleFieldConfigChanged
    (aggregateSection [plainField "b" "cost"; renamedField]) (Some "a")
    (Some (plainField "a" "amount"))
  = Some (aggregateSection [plainField "b" "cost"; plainField "a" "amount"])
  /\ SectionRows.handleFieldConfigChanged
       (aggregateSection [plainField "b" "cost"]) (Some "zz")
       (Some (plainField "a" "amount"))
     = Some (aggregateSection [plainField "b" "cost"]).
Proof.
  split.
  - destruct (handleFieldConfigChanged_replaces_one_row
                (aggregateSection [plainField "b" "cost"; renamedField]) (Some "a")
                (plainField "a" "amount")) as (_ & Hone & _).
    apply (Hone [plainField "b" "cost"] renamedField [] eq_refl eq_refl).
    constructor; [reflexivity | constructor].
  - destruct (handleFieldConfigChanged_replaces_one_row
                (aggregateSection [plainField "b" "cost"]) (Some "zz")
                (plainField "a" "amount")) as (_ & _ & Hnone).
    apply Hnone. constructor; [reflexivity | constructor].
Defined.

Lemma filter_filter_same {A} (p : A -> bool) (l : list A) :
  List.filter p (List.filter p l) = List.filter p l.
Proof.
  induction l as [|x l IH]; simpl; [reflexivity|].
  destruct (p x) eqn:Hx; simpl; [rewrite Hx, IH; reflexivity | exact IH].
Qed.

Lemma splice_start_le (len : nat) (start : option Z) :
  (splice_start len start <= len)%nat.
Proof.
  unfold splice_start. destruct start as [z|]; [|lia].
  destruct (Z.ltb_spec z 0); lia.
Qed.

Section MoreDropProperties.
Context `{Host}.

(** X17: a config column whose uid no row of the section carries, one
    dragged over from another section, is inserted by [drop] at the drop
    index as [getConfigColumn] builds it: the rows of the section all stay,
    in order, there is one row more, and the result asks the origin to
    delete its copy. *)
Theorem drop_inserts_foreign_column :
  forall (config : ChartDataConfig) (n : nat) (item : DragTarget.DropItem),
    Forall (fun q => DragTarget.same_uid (uid q) (uid (DragTarget.itemField item))
                     = false)
           (Config.or_empty (sectionRows config)) ->
    let out := DragTarget.drop config n item DATA_CONFIG_COLUMN in
    let rows := Config.or_empty (sectionRows config) in
    let at_ := splice_start (length rows) (DragTarget.itemIndex item) in
    exists inserted,
      sectionRows (DragTarget.currentConfig out) = Some inserted
      /\ inserted
         = take at_ rows
           ++ DragTarget.getConfigColumn config (DragTarget.itemField item) None
           :: drop at_ rows
      /\ length inserted = S (length rows)
      /\ DragTarget.needDelete out = true
      /\ DragTarget.uuidsDrawn out = n.
Proof.
  intros config n item Hnone out rows at_.
  unfold out, DragTarget.drop. cbv zeta. unfold findIndex.
  rewrite (findIndex_from_none _ _ 0%Z Hnone).
  change (-1 <? -1)%Z with false. cbv iota.
  unfold DragTarget.updateBy, DragTarget.updateByKey_rows. simpl.
  eexists. split; [reflexivity|].
  rewrite splice_insert_one. fold rows. fold at_.
  split; [reflexivity|]. split; [|split; reflexivity].
  pose proof (splice_start_le (length rows) (DragTarget.itemIndex item)) as Hle.
  fold at_ in Hle. clearbody at_ rows.
  rewrite length_app. simpl. rewrite length_take, length_drop. lia.
Qed.

(** X18: dropping one dataset column and then deleting the row by the uid it
    was given brings the rows of the section back, provided the identifier
    [uuidv4] drew is not empty and no row carried it before. *)
Theorem drop_then_delete_restores_rows :
  forall (config : ChartDataConfig) (n : nat) (field : ChartDataSectionField)
         (index : option Z),
    str_nonempty (uuidv4 n) = true ->
    Forall (fun q => DragTarget.same_uid (uid q) (Some (uuidv4 n)) = false)
           (Config.or_empty (sectionRows config)) ->
    sectionRows
      (DragTarget.handleOnDeleteItem
         (DragTarget.currentConfig
            (DragTarget.drop config n (DragTarget.OneItem field index)
               DATASET_COLUMN))
         (Some (uuidv4 n)))
    = Some (Config.or_empty (sectionRows config)).
Proof.
  intros config n field index Hne Hfresh.
  unfold DragTarget.handleOnDeleteItem. rewrite Hne.
  unfold DragTarget.updateBy, DragTarget.drop. simpl.
  f_equal. rewrite List.filter_app.
  cbn [List.filter DragTarget.getConfigColumn uid].
  unfold DragTarget.uid_or. rewrite Hne.
  cbn [DragTarget.same_uid]. rewrite String.eqb_refl.
  cbn [negb]. rewrite app_nil_r.
  apply filter_all.
  eapply Forall_impl; [exact Hfresh|].
  intros q Hq. simpl in Hq. rewrite Hq. reflexivity.
Qed.

(** X19: deleting by uid twice is deleting once, and after a deletion by a
    non-empty uid no row of the section carries that uid. *)
Theorem handleOnDeleteItem_idempotent :
  forall (config : ChartDataConfig) (u : option string),
    DragTarget.handleOnDeleteItem (DragTarget.handleOnDeleteItem config u) u
    = DragTarget.handleOnDeleteItem config u
    /\ (forall s,
          u = Some s -> str_nonempty s = true ->
          Forall (fun q => uid q <> Some s)
                 (Config.or_empty
                    (sectionRows (DragTarget.handleOnDeleteItem config u)))).
Proof.
  intros config u. split.
  - unfold DragTarget.handleOnDeleteItem, DragTarget.updateBy.
    destruct u as [s|]; [|reflexivity].
    destruct (str_nonempty s); [|reflexivity].
    unfold with_rows. simpl. f_equal.
    destruct (sectionRows config) as [rows|]; [|reflexivity].
    simpl. rewrite filter_filter_same. reflexivity.
  - intros s -> Hs. unfold DragTarget.handleOnDeleteItem, DragTarget.updateBy.
    rewrite Hs. simpl.
    destruct (sectionRows config) as [rows|]; simpl; [|constructor].
    apply Forall_forall. intros q Hq.
    apply list_elem_of_In, filter_In in Hq as [_ Hq].
    apply negb_true_iff in Hq. intros Huid. rewrite Huid in Hq.
    simpl in Hq. rewrite String.eqb_refl in Hq. discriminate.
Qed.

(** X20: [getDefaultAggregate] yields an aggregate only in a section of type
    aggregate, size, info or mixed that has not disabled aggregation, for an
    item that is not an aggregate-computed field, and only from actions given
    per field type: the first sub-aggregate of the aggregate action listed
    for the item's type.  Actions given as an array never yield one. *)
Theorem getDefaultAggregate_only_from_typed_actions :
  forall (config : ChartDataConfig) (item : ChartDataSectionField),
    (forall a,
        DragTarget.getDefaultAggregate config item = Some a ->
        (sectionType config = Some AGGREGATE \/ sectionType config = Some SIZE
         \/ sectionType config = Some INFO \/ sectionType config = Some MIXED)
        /\ disableAggregate config = false
        /\ category item <> Some AggregateComputedField
        /\ exists byType action rest,
             actions config = Some (ActionsByType byType)
             /\ DragTarget.aggregateActionFor byType (fieldType item) = Some action
             /\ is_aggregate_action action = true
             /\ AggregateFieldSubAggregateType action = Some (a :: rest))
    /\ (forall acts,
          actions config = Some (ActionsArray acts) ->
          DragTarget.getDefaultAggregate config item = None)
    /\ (disableAggregate config = true ->
        DragTarget.getDefaultAggregate config item = None).
Proof.
  intros config item. split; [|split].
  - intros a Ha. unfold DragTarget.getDefaultAggregate in Ha.
    assert (Htype : sectionType config = Some AGGREGATE
                    \/ sectionType config = Some SIZE
                    \/ sectionType config = Some INFO
                    \/ sectionType config = Some MIXED).
    { destruct (sectionType config) as [[]|]; try discriminate; auto. }
    split; [exact Htype|].
    assert (Hbody :
              (if disableAggregate config then None
               else match category item with
                    | Some AggregateComputedField => None
                    | _ =>
                        match
                          match actions config with
                          | Some (ActionsByType byType) =>
                              DragTarget.aggregateActionFor byType (fieldType item)
                          | _ => None
                          end
                        with
                        | Some act =>
                            match AggregateFieldSubAggregateType act with
                            | Some (first :: _) => Some first
                            | _ => None
                            end
                        | None => None
                        end
                    end) = Some a).
    { destruct (sectionType config) as [[]|]; try discriminate; exact Ha. }
    clear Ha.
    destruct (disableAggregate config); [discriminate|].
    split; [reflexivity|].
    assert (Hcat : category item <> Some AggregateComputedField).
    { intros Hc. rewrite Hc in Hbody. discriminate. }
    split; [exact Hcat|].
    destruct (actions config) as [[acts|byType]|].
    + destruct (category item) as [[]|]; discriminate.
    + destruct (DragTarget.aggregateActionFor byType (fieldType item))
        as [act|] eqn:Hact;
        [|destruct (category item) as [[]|]; discriminate].
      destruct (AggregateFieldSubAggregateType act) as [[|first rest]|] eqn:Htab;
        try (destruct (category item) as [[]|]; discriminate).
      exists byType, act, rest.
      split; [reflexivity|]. split; [exact Hact|].
      split.
      * unfold DragTarget.aggregateActionFor in Hact.
        destruct (fieldType item) as [t|]; [|discriminate].
        destruct (List.find _ byType) as [[k l]|]; [|discriminate].
        apply find_some in Hact. tauto.
      * rewrite Htab. destruct (category item) as [[]|]; congruence.
    + destruct (category item) as [[]|]; discriminate.
  - intros acts Hacts. unfold DragTarget.getDefaultAggregate. rewrite Hacts.
    destruct (sectionType config) as [[]|]; try reflexivity;
      destruct (disableAggregate config); try reflexivity;
      destruct (category item) as [[]|]; reflexivity.
  - intros Hdis. unfold DragTarget.getDefaultAggregate. rewrite Hdis.
    destruct (sectionType config) as [[]|]; reflexivity.
Qed.
End MoreDropProperties.

Lemma drop_inserts_foreign_column_witness :
  sectionRows (DragTarget.currentConfig
                 (@DragTarget.drop demoHost
                    (aggregateSection [plainField "b" "cost"]) 0
                    (DragTarget.OneItem renamedField (Some 0%Z))
                    DATA_CONFIG_COLUMN))
  = Some [ {| uid := Some "a"; colName := Some "amount"; category := None;
              fieldType := Some "NUMERIC"; aggregate := Some "SUM";
              aliasName := None; format := None; sort := None |};
           plainField "b" "cost" ].
Proof.
  destruct (@drop_inserts_foreign_column demoHost
              (aggregateSection [plainField "b" "cost"]) 0%nat
              (DragTarget.OneItem renamedField (Some 0%Z)))
    as (inserted & Hrows & Heq & _).
  - constructor; [reflexivity | constructor].
  - rewrite Hrows, Heq. reflexivity.
Defined.

Lemma drop_then_delete_restores_rows_witness :
  sectionRows
    (DragTarget.handleOnDeleteItem
       (DragTarget.currentConfig
          (@DragTarget.drop demoHost (aggregateSection [renamedField]) 0
             (DragTarget.OneItem (plainField "x" "cost") None) DATASET_COLUMN))
       (Some "uuid-0"))
  = Some [renamedField].
Proof.
  apply (@drop_then_delete_restores_rows demoHost (aggregateSection [renamedField])
           0%nat (plainField "x" "cost") None eq_refl).
  constructor; [reflexivity | constructor].
Defined.

Lemma handleOnDeleteItem_idempotent_witness :
  Forall (fun q => uid q <> Some "a")
    (Config.or_empty
       (sectionRows (DragTarget.handleOnDeleteItem
                       (aggregateSection [renamedField; plainField "b" "cost"])
                       (Some "a")))).
Proof.
  destruct (handleOnDeleteItem_idempotent
              (aggregateSection [renamedField; plainField "b" "cost"]) (Some "a"))
    as [_ Hgone].
  apply (Hgone "a" eq_refl eq_refl).
Defined.

Lemma getDefaultAggregate_only_from_typed_actions_witness :
  @DragTarget.getDefaultAggregate demoHost
     {| sectionType := Some AGGREGATE; sectionRows := None;
        actions := Some (ActionsArray [Aggregate]);
        disableAggregate := false; allowSameField := false |}
     renamedField
  = None.
Proof.
  destruct (@getDefaultAggregate_only_from_typed_actions demoHost
              {| sectionType := Some AGGREGATE; sectionRows := None;
                 actions := Some (ActionsArray [Aggregate]);
                 disableAggregate := false; allowSameField := false |}
              renamedField) as (_ & Harray & _).
  apply (Harray [Aggregate] eq_refl).
Defined.

(** ** Sorting twice, and the reference of a chart *)

(** X21: [getCustomSortableColumns] keeps the number of columns, and
    applying it to its own result changes nothing more. *)
Theorem getCustomSortableColumns_idempotent :
  forall (columns : list Mark.DataColumn) (dataConfigs : list ChartDataConfig),
    length (Sorting.getCustomSortableColumns columns dataConfigs) = length columns
    /\ Sorting.getCustomSortableColumns
         (Sorting.getCustomSortableColumns columns dataConfigs) dataConfigs
       = Sorting.getCustomSortableColumns columns dataConfigs.
Proof.
  intros columns dataConfigs. split.
  - unfold Sorting.getCustomSortableColumns.
    destruct (Sorting.customSort dataConfigs) as [[col sortValues]|]; [|reflexivity].
    apply Permutation_length.
    apply (sort_perm (sortPosition col sortValues)).
  - unfold Sorting.getCustomSortableColumns.
    destruct (Sorting.customSort dataConfigs) as [[col sortValues]|]; [|reflexivity].
    apply (sort_of_sorted (sortPosition col sortValues)).
    apply (sort_sorted (sortPosition col sortValues)).
Qed.

Lemma collectByPush_outcome (k : string) (tabs : list ChartStyleConfig) :
  forall acc,
    (Exists (fun tab => Config.rows tab = None) tabs ->
     Mark.collectByPush k tabs acc = TypeError)
    /\ (Forall (fun tab => Config.rows tab <> None) tabs ->
        exists marks, Mark.collectByPush k tabs acc = Normal marks).
Proof.
  induction tabs as [|tab tabs IH]; intros acc; simpl.
  - split; [intros Hex; inversion Hex | intros _; eauto].
  - unfold Mark.marksOfTab.
    destruct (Config.rows tab) as [rs|] eqn:Hrows.
    + destruct (IH (acc ++ List.filter (fun r => String.eqb (Config.key r) k) rs))
        as [Hthrow Hreturn].
      split.
      * intros Hex. inversion Hex as [? ? Hhere | ? ? Hlater]; subst;
          [congruence | apply Hthrow; exact Hlater].
      * intros Hall. inversion Hall; subst. apply Hreturn. assumption.
    + split; [reflexivity|].
      intros Hall. inversion Hall; subst. congruence.
Qed.

Lemma collectByConcat_app (k : string) (tabs : list ChartStyleConfig) :
  forall acc,
    fold_left (fun acc cur =>
                 match Mark.marksOfTab k cur with
                 | Some configs => acc ++ map Some configs
                 | None => acc ++ [None]
                 end) tabs acc
    = acc ++ Mark.collectByConcat k tabs.
Proof.
  unfold Mark.collectByConcat.
  induction tabs as [|tab tabs IH]; intros acc; simpl.
  - rewrite app_nil_r. reflexivity.
  - rewrite IH. rewrite (IH (match Mark.marksOfTab k tab with
                             | Some configs => map Some configs
                             | None => [None]
                             end)).
    destruct (Mark.marksOfTab k tab); rewrite <- app_assoc; reflexivity.
Qed.

Lemma collectByConcat_missing_rows (k : string) (tabs : list ChartStyleConfig) :
  Exists (fun tab => Config.rows tab = None) tabs ->
  In None (Mark.collectByConcat k tabs).
Proof.
  induction 1 as [tab tabs Hrows | tab tabs _ IH].
  - unfold Mark.collectByConcat. simpl. rewrite collectByConcat_app.
    unfold Mark.marksOfTab. rewrite Hrows. simpl. left. reflexivity.
  - unfold Mark.collectByConcat. simpl. rewrite collectByConcat_app.
    apply in_or_app. right. exact IH.
Qed.

Lemma mapM_throws {A B} (f : A -> Completion B) (l : list A) (x : A) :
  In x l -> f x = TypeError -> mapM f l = TypeError.
Proof.
  induction l as [|y l IH]; intros Hin Hx; [contradiction|].
  simpl. destruct Hin as [-> | Hin].
  - rewrite Hx. reflexivity.
  - destruct (f y); [|reflexivity]. simpl. rewrite (IH Hin Hx). reflexivity.
Qed.

Section ReferenceProperties.
Context `{Host}.

(** X22: a reference tab without rows makes both [getMarkLine2] and
    [getMarkArea2] throw; [getMarkLine2] throws in no other case, and without
    reference tabs both answer [undefined] data. *)
Theorem reference_tab_without_rows_throws :
  forall (tabs : list ChartStyleConfig) (dataSetRows : list IChartDataSetRow)
         (dataConfig : ChartDataSectionField) (isHorizonDisplay : bool),
    (Exists (fun tab => Config.rows tab = None) tabs ->
     Mark.getMarkLine2 (Some tabs) dataSetRows dataConfig isHorizonDisplay
       = TypeError
     /\ Mark.getMarkArea2 (Some tabs) dataSetRows dataConfig isHorizonDisplay
        = TypeError)
    /\ (Forall (fun tab => Config.rows tab <> None) tabs ->
        exists data,
          Mark.getMarkLine2 (Some tabs) dataSetRows dataConfig isHorizonDisplay
          = Normal (Some data))
    /\ Mark.getMarkLine2 None dataSetRows dataConfig isHorizonDisplay = Normal None
    /\ Mark.getMarkArea2 None dataSetRows dataConfig isHorizonDisplay = Normal None.
Proof.
  intros tabs rows dataConfig h. split; [|split; [|split; reflexivity]].
  - intros Hex. split.
    + unfold Mark.getMarkLine2.
      destruct (collectByPush_outcome "markLine" tabs []) as [Hthrow _].
      rewrite (Hthrow Hex). reflexivity.
    + unfold Mark.getMarkArea2.
      rewrite (mapM_throws _ _ None (collectByConcat_missing_rows _ _ Hex));
        reflexivity.
  - intros Hall. unfold Mark.getMarkLine2.
    destruct (collectByPush_outcome "markLine" tabs []) as [_ Hreturn].
    destruct (Hreturn Hall) as [marks ->]. simpl. eauto.
Qed.

(** Without a ['reference.panel.configuration'] setting that has rows,
    [getReference2] returns, and both the mark-line data and the mark-area
    data are [undefined]. *)
Theorem getReference2_without_configuration :
  forall (settingConfigs : option (list ChartStyleConfig))
         (dataSetRows : list IChartDataSetRow)
         (dataConfig : ChartDataSectionField) (isHorizonDisplay : bool),
    Config.getSettingValue settingConfigs "reference.panel.configuration" "rows"
      = VUndef ->
    Reference.getReference2 settingConfigs dataSetRows dataConfig isHorizonDisplay
    = Normal {| Reference.markLine := None; Reference.markArea := None |}.
Proof.
  intros settings rows dataConfig h Hnone.
  unfold Reference.getReference2. cbv zeta. rewrite Hnone. reflexivity.
Qed.

(** X23: the older [getMarkLineData] and [getMarkLineData2] give the same
    entry, and [getMarkLine] and [getMarkLine2] the same data, when the data
    columns and the data-set rows hold the same numbers for the bound
    field. *)
Theorem markLine_old_and_new_agree :
  forall (mark : ChartStyleConfig) (refTabs : option (list ChartStyleConfig))
         (dataColumns : list Mark.DataColumn)
         (dataSetRows : list IChartDataSetRow)
         (valueTypeKey constantValueKey metricKey : string)
         (dataConfig : ChartDataSectionField) (isHorizonDisplay : bool),
    Forall2 (fun d row =>
               to_number (assoc (Mark.getValueByColumnKey (Some dataConfig)) d)
               = to_number (getCell row dataConfig))
            dataColumns dataSetRows ->
    Mark.getMarkLineData mark dataColumns valueTypeKey constantValueKey
      metricKey dataConfig isHorizonDisplay
    = Mark.getMarkLineData2 mark dataSetRows valueTypeKey constantValueKey
        metricKey dataConfig isHorizonDisplay
    /\ Reference.getMarkLine refTabs dataColumns dataConfig isHorizonDisplay
       = Mark.getMarkLine2 refTabs dataSetRows dataConfig isHorizonDisplay.
Proof.
  intros mark refTabs columns rows vk ck mk dataConfig h Hsame.
  assert (Hdatas : forall metricUid,
             Mark.metricDatasOfColumns columns dataConfig metricUid
             = Mark.metricDatasOfRows rows dataConfig metricUid).
  { intros metricUid. unfold Mark.metricDatasOfColumns, Mark.metricDatasOfRows.
    destruct (Mark.uid_matches dataConfig metricUid); [|reflexivity].
    induction Hsame as [|d row ds rs Hd _ IH]; cbn [map]; [reflexivity|].
    rewrite Hd, IH. reflexivity. }
  assert (Hone : forall ml vk' ck' mk',
             Mark.getMarkLineData ml columns vk' ck' mk' dataConfig h
             = Mark.getMarkLineData2 ml rows vk' ck' mk' dataConfig h).
  { intros ml vk' ck' mk'. unfold Mark.getMarkLineData, Mark.getMarkLineData2.
    cbv zeta. rewrite Hdatas. reflexivity. }
  split; [apply Hone|].
  unfold Reference.getMarkLine, Mark.getMarkLine2.
  destruct refTabs as [tabs|]; [|reflexivity].
  destruct (Mark.collectByPush "markLine" tabs []) as [marks|]; [|reflexivity].
  cbn [bind]. do 2 f_equal.
  induction marks as [|ml marks IH]; [reflexivity|].
  cbn -[Mark.getMarkLineData Mark.getMarkLineData2].
  rewrite Hone, IH. reflexivity.
Qed.
End ReferenceProperties.

Lemma reference_tab_without_rows_throws_witness :
  @Mark.getMarkArea2 demoHost (Some (referenceTabs ++ [tabWithoutRows])) twoRows
     metricField false
  = TypeError.
Proof.
  destruct (@reference_tab_without_rows_throws demoHost
              (referenceTabs ++ [tabWithoutRows]) twoRows metricField false)
    as [Hthrow _].
  apply Hthrow. apply Exists_cons_tl, Exists_cons_hd. reflexivity.
Defined.

Lemma getReference2_without_configuration_witness :
  @Reference.getReference2 demoHost (Some exampleStyleConfigs) twoRows
     metricField false
  = Normal {| Reference.markLine := None; Reference.markArea := None |}.
Proof.
  apply (@getReference2_without_configuration demoHost). reflexivity.
Defined.

Lemma markLine_old_and_new_agree_witness :
  @Mark.getMarkLineData demoHost maxMarkLine twoColumns "valueType"
     "constantValue" "metric" metricField false
  = @Mark.getMarkLineData2 demoHost maxMarkLine twoRows "valueType"
      "constantValue" "metric" metricField false.
Proof.
  apply (@markLine_old_and_new_agree demoHost maxMarkLine None twoColumns twoRows).
  repeat constructor.
Defined.

(** ** The older mark areas, and rows as objects *)

Section OlderMarkAreaProperties.
Context `{Host}.

Lemma older_boundary_points mark dataColumns h pts :
  bind (mapM (fun pre =>
                Reference.getMarkAreaData mark dataColumns
                  (pre ++ "ValueType") (pre ++ "ConstantValue")
                  (pre ++ "Metric") h)
             ["start"; "end"])
       (fun points => Normal (omap id points)) = Normal pts ->
  pts = [] \/ length pts = 2%nat.
Proof.
  cbn [mapM]. unfold Reference.getMarkAreaData. cbv zeta.
  destruct (to_boolean
              (Config.getSettingValue (Config.rows mark) "enableMarkArea" "value")).
  - cbn [negb].
    destruct (member _ "color") as [c|]; [|discriminate].
    destruct (member _ "width") as [w|]; [|discriminate].
    destruct (member _ "type") as [t|]; [|discriminate].
    simpl. intros [= <-]. right. reflexivity.
  - simpl. intros [= <-]. left. reflexivity.
Qed.

(** X24: in the data of the older [getMarkArea] every area has both of its
    boundary points: a mark area gives two points or none, since the two
    depend on the one [enableMarkArea] flag and the value derived is not
    looked at.  An enabled mark with a border style gives its point whatever
    that value is. *)
Theorem older_markArea_has_two_points :
  forall (tabs : list ChartStyleConfig) (dataColumns : list Mark.DataColumn)
         (isHorizonDisplay : bool),
    (forall areas,
        Reference.getMarkArea (Some tabs) dataColumns isHorizonDisplay
          = Normal (Some areas) ->
        Forall (fun area => length area = 2%nat) areas)
    /\ (forall mark vk ck mk border,
          to_boolean
            (Config.getSettingValue (Config.rows mark) "enableMarkArea" "value")
            = true ->
          Config.getSettingValue (Config.rows mark) "borderStyle" "value"
            = VObj border ->
          exists point,
            Reference.getMarkAreaData mark dataColumns vk ck mk isHorizonDisplay
              = Normal (Some point)
            /\ Mark.areaAxisValue point
               = Mark.derivedAxisValue
                   (Config.getSettingValue (Config.rows mark) vk "value")
                   (Config.getSettingValue (Config.rows mark) ck "value")
                   (map (fun d =>
                           to_number
                             (assoc (to_string
                                       (Config.getSettingValue (Config.rows mark)
                                          mk "value")) d))
                        dataColumns)).
Proof.
  intros tabs columns h. split.
  - intros areas Hrun. unfold Reference.getMarkArea in Hrun.
    destruct (Mark.collectByPush "markArea" tabs []) as [marks|];
      cbn [bind] in Hrun; [|discriminate].
    destruct (mapM _ marks) as [all|] eqn:Hall; cbn [bind] in Hrun; [|discriminate].
    injection Hrun as <-.
    apply mapM_Normal in Hall.
    induction Hall as [|mark pts marks' all' Hpts _ IH]; [constructor|].
    cbn [List.filter].
    destruct (older_boundary_points _ _ _ _ Hpts) as [-> | Hlen].
    + exact IH.
    + rewrite Hlen. cbn [Nat.eqb negb]. constructor; assumption.
  - intros mark vk ck mk border Hen Hborder.
    unfold Reference.getMarkAreaData. cbv zeta. rewrite Hen, Hborder. simpl.
    eexists. split; reflexivity.
Qed.
End OlderMarkAreaProperties.

Lemma older_markArea_has_two_points_witness :
  exists s e,
    @Reference.getMarkArea demoHost
       (Some [StyleConfig "tab" (Some [unboundedMarkArea]) []]) twoColumns false
    = Normal (Some [[s; e]])
    /\ Number_isNaN (Mark.areaAxisValue s) = true.
Proof.
  destruct (@older_markArea_has_two_points demoHost
              [StyleConfig "tab" (Some [unboundedMarkArea]) []] twoColumns false)
    as [_ Hpoint].
  destruct (Hpoint unboundedMarkArea "startValueType" "startConstantValue"
              "startMetric" [] eq_refl eq_refl) as (s & Hs & Hvalue).
  simpl in Hs. injection Hs as <-.
  eexists. eexists. split; reflexivity.
Defined.

Lemma assoc_obj_set_same (k : string) (v : Val) (fields : list (string * Val)) :
  assoc k (Reference.obj_set k v fields) = v.
Proof.
  induction fields as [|[k' v'] rest IH]; simpl.
  - rewrite String.eqb_refl. reflexivity.
  - destruct (String.eqb k k') eqn:E; simpl.
    + rewrite String.eqb_refl. reflexivity.
    + rewrite E. exact IH.
Qed.

Lemma assoc_obj_set_other (k k' : string) (v : Val) (fields : list (string * Val)) :
  k <> k' -> assoc k (Reference.obj_set k' v fields) = assoc k fields.
Proof.
  intros Hne. apply String.eqb_neq in Hne.
  induction fields as [|[k2 v2] rest IH]; simpl.
  - rewrite Hne. reflexivity.
  - destruct (String.eqb k' k2) eqn:E; simpl.
    + apply String.eqb_eq in E. subst k2. rewrite Hne. reflexivity.
    + rewrite IH. reflexivity.
Qed.

Lemma fillObject_other (key : string) (names : list (option string)) :
  Forall (fun name => name <> Some key) names ->
  forall i cells objCol,
    assoc key (Reference.fillObject names i cells objCol) = assoc key objCol.
Proof.
  induction 1 as [|name names Hname _ IH]; intros i cells objCol; [reflexivity|].
  simpl. rewrite IH.
  destruct name as [k|]; [|reflexivity].
  destruct (str_nonempty k); [|reflexivity].
  apply assoc_obj_set_other. congruence.
Qed.

Lemma fillObject_reads_cell (key : string) (pre post : list (option string)) :
  str_nonempty key = true ->
  Forall (fun name => name <> Some key) post ->
  forall i cells objCol,
    assoc key (Reference.fillObject (pre ++ Some key :: post) i cells objCol)
    = default VUndef (cells !! (i + length pre)%nat).
Proof.
  intros Hkey Hpost.
  induction pre as [|name pre IH]; intros i cells objCol.
  - simpl. rewrite Hkey, (fillObject_other key post Hpost), assoc_obj_set_same.
    rewrite Nat.add_0_r. reflexivity.
  - simpl. rewrite IH.
    replace (S i + length pre)%nat with (i + S (length pre))%nat by lia.
    reflexivity.
Qed.

(** X25: provided [Debugger.instance.measure] hands back what the function
    it is given returns, [transformToObjectArray] yields one object per row
    of cells, and in the object of a row the property named by a meta is the
    cell of that row at the meta's index (the last meta of that name, if
    several share it). *)
Theorem transformToObjectArray_reads_cells :
  forall (measure : string -> (unit -> list (list (string * Val))) -> bool
                    -> list (list (string * Val)))
         (columns : list (list Val)) (pre post : list (option string))
         (key : string),
    (forall info fn flag, measure info fn flag = fn tt) ->
    str_nonempty key = true ->
    Forall (fun name => name <> Some key) post ->
    let objects :=
      Reference.transformToObjectArray measure (Some columns)
        (Some (pre ++ Some key :: post)) in
    length objects = length columns
    /\ forall j cells,
         columns !! j = Some cells ->
         exists objCol,
           objects !! j = Some objCol
           /\ assoc key objCol = default VUndef (cells !! length pre).
Proof.
  intros measure columns pre post key Hmeasure Hkey Hpost objects.
  unfold objects, Reference.transformToObjectArray. rewrite Hmeasure.
  split; [apply length_map|].
  intros j cells Hj. eexists. split.
  - change (map ?f columns) with (f <$> columns).
    rewrite list_lookup_fmap, Hj. reflexivity.
  - rewrite (fillObject_reads_cell key pre post Hkey Hpost). reflexivity.
Qed.

Lemma transformToObjectArray_reads_cells_witness :
  exists objCol,
    Reference.transformToObjectArray (fun _ fn _ => fn tt)
      (Some [ [VStr "r1-c1-v"; VStr "r1-c2-v"]; [VStr "r2-c1-v"; VStr "r2-c2-v"] ])
      (Some [Some "name"; Some "age"]) !! 1%nat = Some objCol
    /\ assoc "age" objCol = VStr "r2-c2-v".
Proof.
  destruct (transformToObjectArray_reads_cells (fun _ fn _ => fn tt)
              [ [VStr "r1-c1-v"; VStr "r1-c2-v"]; [VStr "r2-c1-v"; VStr "r2-c2-v"] ]
              [Some "name"] [] "age" ltac:(reflexivity) eq_refl ltac:(constructor))
    as [_ Hcells].
  destruct (Hcells 1%nat [VStr "r2-c1-v"; VStr "r2-c2-v"] eq_refl)
    as (objCol & Hobj & Hage).
  exists objCol. split; [exact Hobj | exact Hage].
Defined.

Section OlderBoundsProperties.
Context `{Host}.

(** X26: the older [getDataColumnMaxAndMin] and [getDataColumnMaxAndMin2]
    return the same bounds when the data columns and the data-set rows hold
    the same numbers for the field; the older one, too, never returns
    [NaN]. *)
Theorem bounds_old_and_new_agree :
  forall (dataset : list Mark.DataColumn) (rows : list IChartDataSetRow)
         (config : option ChartDataSectionField),
    (forall cfg,
        config = Some cfg ->
        Forall2 (fun d row =>
                   to_number (assoc (Mark.getValueByColumnKey (Some cfg)) d)
                   = to_number (getCell row cfg))
                dataset rows) ->
    DataColumns.getDataColumnMaxAndMin (Some dataset) config
      = DataColumns.getDataColumnMaxAndMin2 (Some rows) config
    /\ PrimFloat.is_nan
         (DataColumns.min (DataColumns.getDataColumnMaxAndMin (Some dataset) config))
       = false
    /\ PrimFloat.is_nan
         (DataColumns.max (DataColumns.getDataColumnMaxAndMin (Some dataset) config))
       = false.
Proof.
  intros dataset rows config Hsame.
  assert (Heq : DataColumns.getDataColumnMaxAndMin (Some dataset) config
                = DataColumns.getDataColumnMaxAndMin2 (Some rows) config).
  { unfold DataColumns.getDataColumnMaxAndMin, DataColumns.getDataColumnMaxAndMin2.
    destruct config as [cfg|]; [|reflexivity].
    specialize (Hsame cfg eq_refl). cbn [Config.or_empty].
    assert (Hnumbers :
              map to_number
                  (map (fun row => assoc (Mark.getValueByColumnKey (Some cfg)) row)
                       dataset)
              = map (fun row => to_number (getCell row cfg)) rows).
    { induction Hsame as [|d row ds rs Hd _ IH]; cbn [map]; [reflexivity|].
      rewrite Hd, IH. reflexivity. }
    destruct Hsame as [|d row ds rs Hd Hrest]; [reflexivity|].
    cbn [isEmptyArray]. cbv zeta. rewrite Hnumbers. reflexivity. }
  rewrite Heq.
  destruct (bounds_not_NaN (Some rows) config) as [Hmin Hmax].
  split; [reflexivity|]. split; [exact Hmin | exact Hmax].
Qed.
End OlderBoundsProperties.

Lemma bounds_old_and_new_agree_witness :
  @DataColumns.getDataColumnMaxAndMin demoHost (Some twoColumns) (Some metricField)
  = {| DataColumns.min := 1%float; DataColumns.max := 3%float |}.
Proof.
  destruct (@bounds_old_and_new_agree demoHost twoColumns twoRows (Some metricField))
    as [Heq _].
  - intros cfg [= <-]. repeat constructor.
  - rewrite Heq. reflexivity.
Defined.
